(** * weatherhub: shared model, WiFi connector, NTP client and run loop

    A shallow embedding of the Go packages [model], [wifi], [wifi/ntp] and
    [run] of ardnew/weatherhub, and the properties of them that the
    specification states.

    Conventions.
    - Go's fixed-width integers are [Z] with the wrap-around written out
      ([i64], [u32], [uint]); [time.Duration] is an [int64] count of
      nanoseconds.
    - The program is single-threaded; the mutex of package [model] is not
      modelled, each of [Get], [Set], [Mod] being one atomic step.
    - Everything outside the repository (the WiFiNINA driver, the UDP
      socket, the clock) answers through an oracle [Env] indexed by the
      number of driver calls made so far, so a theorem over every [World]
      covers every behaviour of the hardware.
    - Loops that the source does not bound structurally take a [fuel]
      argument; running out of fuel is the outcome [Spin], which carries the
      world reached so far. *)

From Stdlib Require Import ZArith List String Bool Lia.
From Stdlib Require Import Strings.Byte.
Import ListNotations.
Open Scope Z_scope.

(** ** Machine integers *)

Definition wrapS (bits z : Z) : Z :=
  (z + 2 ^ (bits - 1)) mod 2 ^ bits - 2 ^ (bits - 1).
Definition wrapU (bits z : Z) : Z := z mod 2 ^ bits.

Definition i64 : Z -> Z := wrapS 64.
Definition u32 : Z -> Z := wrapU 32.
(** [uint] is 32 bits wide on the microcontrollers TinyGo targets here. *)
Definition uint : Z -> Z := wrapU 32.

Definition byte_val (b : byte) : Z := Z.of_N (Byte.to_N b).

(** ** Package time (the part the program uses) *)

Module GoTime.

Definition Duration := Z.

Definition Nanosecond : Duration := 1.
Definition Millisecond : Duration := 1000000.
Definition Second : Duration := 1000000000.
Definition Hour : Duration := 3600 * Second.

Definition minDuration : Duration := - 2 ^ 63.
Definition maxDuration : Duration := 2 ^ 63 - 1.

(** [Time.Sub] does not wrap: a difference out of range is clamped. *)
Definition clamp (z : Z) : Duration :=
  Z.max minDuration (Z.min maxDuration z).

Inductive Location :=
| UTC
| Local
| FixedZone (name : string) (offset : Z).

(** An instant: nanoseconds since January 1, year 1, 00:00:00 UTC, the
    monotonic clock reading when the value came from [time.Now], and the
    location it is displayed in. *)
Record Time := mkTime { abs : Z; mono : option Z; loc : Location }.

(** [time.Time{}] *)
Definition zero : Time := mkTime 0 None UTC.

Definition IsZero (t : Time) : bool := abs t =? 0.

Definition Sub (t u : Time) : Duration :=
  match mono t, mono u with
  | Some a, Some b => clamp (a - b)
  | _, _ => clamp (abs t - abs u)
  end.

Definition unixToInternal : Z := 62135596800.

Definition Unix (sec nsec : Z) : Time :=
  mkTime ((sec + unixToInternal) * Second + nsec) None Local.

(** [Time.In]: the same instant in another location; setting the location
    strips the monotonic reading. *)
Definition In (t : Time) (l : Location) : Time :=
  mkTime (abs t) None l.

(** The instant [d] nanoseconds after [t] (before, for negative [d]), with
    the monotonic reading moved along. *)
Definition shift (t : Time) (d : Z) : Time :=
  mkTime (abs t + d) (option_map (fun m => m + d) (mono t)) (loc t).

End GoTime.

(** ** Data of the program *)

(** [network.AP] *)
Record AP := mkAP { SSID : string; Pass : string }.

Inductive Status :=
| StatusIdle
| StatusDisconnected
| StatusConnecting
| StatusUnsynchronized
| StatusSynchronized.

(** [model.Model]; the fields carry an [m], as [AP] and [Status] name
    types here. *)
Record Model := mkModel {
  mAP : AP;
  mIP : string;
  mTime : GoTime.Time;
  mRetry : Z;
  mStatus : Status
}.

Definition set_AP_IP (ap : AP) (ip : string) (m : Model) : Model :=
  mkModel ap ip (mTime m) (mRetry m) (mStatus m).
Definition set_Time (t : GoTime.Time) (m : Model) : Model :=
  mkModel (mAP m) (mIP m) t (mRetry m) (mStatus m).
Definition set_Retry (r : Z) (m : Model) : Model :=
  mkModel (mAP m) (mIP m) (mTime m) r (mStatus m).
Definition set_Status (s : Status) (m : Model) : Model :=
  mkModel (mAP m) (mIP m) (mTime m) (mRetry m) s.

(** ** Package model: the guarded singleton *)

Module ModelState.

(** The package variable [state], without its lock. *)
Record state := mkState { data : Model; changed : bool }.

(** The zero value the package starts from. *)
Definition initial : state :=
  mkState
    (mkModel (mkAP EmptyString EmptyString) EmptyString GoTime.zero 0
       StatusIdle)
    false.

Definition Get (s : state) : (bool * Model) * state :=
  ((changed s, data s), mkState (data s) false).

(** [Set] of the source; the name is reserved in Rocq. *)
Definition Set_ (set : Model -> Model) (s : state) : state :=
  mkState (set (data s)) true.

Definition Mod (mod_ : Model -> Model) (s : state) : state :=
  mkState (mod_ (data s)) (changed s).

(** A call that mutates: [Set] or [Mod] with its closure. *)
Inductive mutation :=
| ByWrite (f : Model -> Model)
| ByModify (f : Model -> Model).

Definition mutate (s : state) (c : mutation) : state :=
  match c with
  | ByWrite f => Set_ f s
  | ByModify f => Mod f s
  end.

Definition mutate_all (cs : list mutation) (s : state) : state :=
  fold_left mutate cs s.

Definition modify_all (fs : list (Model -> Model)) (s : state) : state :=
  fold_left (fun s f => Mod f s) fs s.

End ModelState.

(** ** Package ntp: data *)

Record Config := mkConfig {
  Server : list string;
  RemotePort : Z;
  LocalPort : Z;
  TZOffset : Z;
  Interval : GoTime.Duration;
  Precision : GoTime.Duration;
  LeapSmear : bool
}.

Definition datagram := list byte.

(** [ntp.NTP]; the [device] pointer is the one WiFi of the [World]. *)
Record NTP := mkNTP {
  config : Config;
  locale : GoTime.Location;
  lastSync : GoTime.Time;
  lastPost : GoTime.Time;
  dgram : datagram
}.

(** ** Errors *)

Inductive error :=
| ErrConnectToAP
| ErrNoIPAddress
| ErrNotConnected
| ErrReadDatagramSize
| ErrReadNoResponse
| ErrDriver (code : nat).

Definition Error (e : error) : string :=
  match e with
  | ErrConnectToAP => "failed to connect to access point"
  | ErrNoIPAddress => "could not obtain IP address from access point"
  | ErrNotConnected => "not connected to access point"
  | ErrReadDatagramSize => "received unexpected NTP datagram size"
  | ErrReadNoResponse => "timeout waiting for NTP datagram reply"
  | ErrDriver _ => "driver error"
  end.

Definition is_nil (e : option error) : bool :=
  match e with
  | None => true
  | Some _ => false
  end.

(** ** The world outside the repository *)

(** What the program does to the outside, in order. *)
Inductive event :=
| EvSleep (d : GoTime.Duration)
| EvSetPassphrase (ssid pass : string)
| EvGetConnectionStatus
| EvGetIP
| EvGetHostByName (name : string)
| EvDialUDP (lport : Z) (rhost : string) (rport : Z)
| EvWrite (d : datagram)
| EvRead
| EvClose
| EvAdjustTimeOffset (offset : Z)
| EvDisplay (m : Model)
| EvPrintln (s : string).

(** One answer of [conn.Read]: the count and error it returns and the bytes
    it put at the front of the buffer. *)
Record ReadReply := mkReply {
  rd_n : Z;
  rd_err : option error;
  rd_data : list byte
}.

(** The answers of the driver, by the number of driver calls made before. *)
Record Env := mkEnv {
  latency : nat -> N;
  connection_status : nat -> bool;
  get_ip : nat -> string * option error;
  host_by_name : nat -> string -> string * option error;
  dial_udp : nat -> option error;
  conn_write : nat -> datagram -> option error;
  conn_read : nat -> ReadReply
}.

Record World := mkWorld {
  env : Env;
  calls : nat;
  (** the monotonic clock, nanoseconds since boot *)
  nanotime : Z;
  (** the runtime's wall-clock offset, moved by [runtime.AdjustTimeOffset] *)
  timeOffset : Z;
  (** the singleton of package [model] *)
  shared : ModelState.state;
  (** field [ip] of the [WiFi] *)
  wifi_ip : string;
  (** the [NTP] made in [main] *)
  host : NTP;
  trace : list event
}.

Definition with_shared (f : ModelState.state -> ModelState.state)
  (w : World) : World :=
  mkWorld (env w) (calls w) (nanotime w) (timeOffset w) (f (shared w))
    (wifi_ip w) (host w) (trace w).
Definition with_wifi_ip (ip : string) (w : World) : World :=
  mkWorld (env w) (calls w) (nanotime w) (timeOffset w) (shared w)
    ip (host w) (trace w).
Definition with_host (f : NTP -> NTP) (w : World) : World :=
  mkWorld (env w) (calls w) (nanotime w) (timeOffset w) (shared w)
    (wifi_ip w) (f (host w)) (trace w).
Definition with_event (e : event) (w : World) : World :=
  mkWorld (env w) (calls w) (nanotime w) (timeOffset w) (shared w)
    (wifi_ip w) (host w) (trace w ++ [e]).
Definition with_elapsed (d : Z) (w : World) : World :=
  mkWorld (env w) (calls w) (nanotime w + d) (timeOffset w) (shared w)
    (wifi_ip w) (host w) (trace w).
Definition with_call (w : World) : World :=
  mkWorld (env w) (S (calls w)) (nanotime w) (timeOffset w) (shared w)
    (wifi_ip w) (host w) (trace w).
Definition with_timeOffset (o : Z) (w : World) : World :=
  mkWorld (env w) (calls w) (nanotime w) o (shared w)
    (wifi_ip w) (host w) (trace w).

(** ** The monad of the program: state, panic, and not done yet *)

Inductive outcome (A : Type) :=
| Ret (a : A) (w : World)
| Panic (w : World)
| Spin (w : World).
Arguments Ret {A} a w.
Arguments Panic {A} w.
Arguments Spin {A} w.

Definition M (A : Type) := World -> outcome A.

Definition ret {A} (a : A) : M A := fun w => Ret a w.

Definition bind {A B} (c : M A) (k : A -> M B) : M B :=
  fun w =>
    match c w with
    | Ret a w' => k a w'
    | Panic w' => Panic w'
    | Spin w' => Spin w'
    end.

Notation "x <- c ;; k" := (bind c (fun x => k))
  (at level 61, c at next level, right associativity).
Notation "' p <- c ;; k" := (bind c (fun x => let p := x in k))
  (at level 61, p pattern, c at next level, right associativity).
Notation "c ;; k" := (bind c (fun _ => k))
  (at level 61, right associativity).

Definition panic {A} : M A := fun w => Panic w.
Definition spin {A} : M A := fun w => Spin w.
Definition world : M World := fun w => Ret w w.
Definition update (f : World -> World) : M unit := fun w => Ret tt (f w).

Definition emit (e : event) : M unit := update (with_event e).

(** A call into the driver: it takes the time the oracle says and yields the
    index its answer is looked up at. *)
Definition driver (e : event) : M nat :=
  fun w =>
    Ret (calls w)
      (with_call (with_elapsed (Z.of_N (latency (env w) (calls w)))
         (with_event e w))).

(** [time.Sleep]: returns at once for a duration that is not positive. *)
Definition Sleep (d : GoTime.Duration) : M unit :=
  update (fun w => with_elapsed (Z.max 0 d) (with_event (EvSleep d) w)).

(** [time.Now] of the TinyGo runtime: the wall clock is the monotonic clock
    plus [timeOffset], counted from the Unix epoch.  The value carries the
    monotonic reading, as that of [time.Now] does while the wall clock
    reads a time between 1885 and 2157; what is proved of differences of
    two readings under a clock offset that may have moved is stated for
    that range ([monotonic_range]). *)
Definition clock (w : World) : GoTime.Time :=
  GoTime.mkTime
    (GoTime.unixToInternal * GoTime.Second + nanotime w + timeOffset w)
    (Some (nanotime w)) GoTime.Local.

Definition Now : M GoTime.Time := fun w => Ret (clock w) w.

Definition Since (t : GoTime.Time) : M GoTime.Duration :=
  n <- Now ;; ret (GoTime.Sub n t).

Definition AdjustTimeOffset (offset : Z) : M unit :=
  update (fun w =>
    with_timeOffset (i64 (timeOffset w + offset))
      (with_event (EvAdjustTimeOffset offset) w)).

Definition println (s : string) : M unit := emit (EvPrintln s).

(** Package [model] on the world. *)
Definition Get : M (bool * Model) :=
  fun w =>
    let '(r, s) := ModelState.Get (shared w) in
    Ret r (with_shared (fun _ => s) w).
Definition Set_ (set : Model -> Model) : M unit :=
  update (with_shared (ModelState.Set_ set)).
Definition Mod (mod_ : Model -> Model) : M unit :=
  update (with_shared (ModelState.Mod mod_)).

(** ** Package wifi *)

Module WiFi.

Definition maxAttempts : Z := 8.
Definition baseTimeout : GoTime.Duration := 125 * GoTime.Millisecond.

Definition isConnected : M bool :=
  k <- driver EvGetConnectionStatus ;;
  w <- world ;;
  ret (connection_status (env w) k).

(** [hasIP] stores whatever address [GetIP] gave, also with an error. *)
Definition hasIP : M bool :=
  k <- driver EvGetIP ;;
  w <- world ;;
  let '(ip, err) := get_ip (env w) k in
  update (with_wifi_ip ip) ;;
  ret (is_nil err).

(** The loop of [waitWithTimeout], entered with the current [ok], [attempt]
    and [timeout].  The body never assigns [attempt]. *)
Fixpoint waitLoop (fuel : nat) (ready : M bool) (ok : bool)
  (attempt : Z) (timeout : GoTime.Duration) : M bool :=
  if negb ok && (attempt <? maxAttempts) then
    match fuel with
    | O => spin
    | S fuel' =>
        ok' <- ready ;;
        if negb ok' then
          Sleep timeout ;;
          waitLoop fuel' ready ok' attempt (i64 (Z.shiftl timeout 1))
        else
          waitLoop fuel' ready ok' attempt timeout
    end
  else ret ok.

Definition waitWithTimeout (fuel : nat) (ready : M bool) : M bool :=
  waitLoop fuel ready false 0 baseTimeout.

Definition Connect (fuel : nat) (ap : AP) : M (option error) :=
  Sleep (2 * GoTime.Second) ;;
  driver (EvSetPassphrase (SSID ap) (Pass ap)) ;;
  linked <- waitWithTimeout fuel isConnected ;;
  if negb linked then ret (Some ErrConnectToAP)
  else
    leased <- waitWithTimeout fuel hasIP ;;
    if negb leased then ret (Some ErrNoIPAddress)
    else
      w <- world ;;
      Set_ (set_AP_IP ap (wifi_ip w)) ;;
      ret None.

Definition GetHostByName (name : string) : M (string * option error) :=
  linked <- isConnected ;;
  if negb linked then ret (EmptyString, Some ErrNotConnected)
  else
    leased <- hasIP ;;
    if negb leased then ret (EmptyString, Some ErrNotConnected)
    else
      k <- driver (EvGetHostByName name) ;;
      w <- world ;;
      let '(addr, err) := host_by_name (env w) k name in
      match err with
      | Some e => ret (EmptyString, Some e)
      | None => ret (addr, None)
      end.

End WiFi.

(** ** Package ntp *)

Module NTPClient.

Definition DefaultServer : list string :=
  ["us.pool.ntp.org"%string; "time.google.com"%string].
Definition DefaultRemotePort : Z := 123.
Definition DefaultLocalPort : Z := 2390.
Definition DefaultTZOffset : Z := -6 * 60 * 60.
Definition DefaultInterval : GoTime.Duration := 6 * GoTime.Hour.
Definition DefaultPrecision : GoTime.Duration := GoTime.Second.
Definition DefaultLeapSmear : bool := false.

Definition datagramSize : Z := 48.

Definition New (c : Config) : NTP :=
  let noServer := match Server c with [] => true | _ => false end in
  let c1 :=
    mkConfig
      (if noServer then DefaultServer else Server c)
      (if RemotePort c =? 0 then DefaultRemotePort else RemotePort c)
      (if LocalPort c =? 0 then DefaultLocalPort else LocalPort c)
      (if TZOffset c =? 0 then DefaultTZOffset else TZOffset c)
      (if Interval c =? 0 then DefaultInterval else Interval c)
      (if Precision c =? 0 then DefaultPrecision else Precision c)
      (if noServer then DefaultLeapSmear else LeapSmear c) in
  mkNTP c1 (GoTime.FixedZone "localtime" (TZOffset c1))
    GoTime.zero GoTime.zero
    (repeat x00 (Z.to_nat datagramSize)).

Definition isExpired (at_ since : GoTime.Time) (span : GoTime.Duration)
  : bool :=
  GoTime.IsZero at_ || (span <=? GoTime.Sub at_ since).

Definition NTP_isExpired (n : NTP) (at_ : GoTime.Time) : bool * bool :=
  (isExpired at_ (lastSync n) (Interval (config n)),
   isExpired at_ (lastPost n) (Precision (config n))).

(** *** The datagram buffer *)

Definition reset (d : datagram) : datagram := map (fun _ => x00) d.

(** [d[i] = v]; [None] is the index-out-of-range panic. *)
Fixpoint store (i : nat) (v : byte) (d : datagram) : option datagram :=
  match d, i with
  | [], _ => None
  | _ :: rest, O => Some (v :: rest)
  | b :: rest, S i' => option_map (cons b) (store i' v rest)
  end.

Definition u8 (z : Z) : byte :=
  match Byte.of_N (Z.to_N (z mod 256)) with
  | Some b => b
  | None => x00
  end.

Definition byte_or (a b : byte) : byte :=
  u8 (Z.lor (byte_val a) (byte_val b)).

Definition set_dgram (d : datagram) (n : NTP) : NTP :=
  mkNTP (config n) (locale n) (lastSync n) (lastPost n) d.
Definition set_lastSync (t : GoTime.Time) (n : NTP) : NTP :=
  mkNTP (config n) (locale n) t (lastPost n) (dgram n).
Definition set_lastPost (t : GoTime.Time) (n : NTP) : NTP :=
  mkNTP (config n) (locale n) (lastSync n) t (dgram n).

Definition poke (i : nat) (v : byte) : M unit :=
  w <- world ;;
  match store i v (dgram (host w)) with
  | Some d => update (with_host (set_dgram d))
  | None => panic
  end.

Definition peek (i : nat) : M byte :=
  w <- world ;;
  match nth_error (dgram (host w)) i with
  | Some b => ret b
  | None => panic
  end.

(** [parse]; [None] is the index-out-of-range panic. *)
Definition seventyYears : Z := 2208988800.

Definition parse (d : datagram) : option GoTime.Time :=
  match nth_error d 40, nth_error d 41, nth_error d 42, nth_error d 43 with
  | Some b40, Some b41, Some b42, Some b43 =>
      let t :=
        Z.lor
          (Z.lor
             (Z.lor (u32 (Z.shiftl (byte_val b40) 24))
                    (u32 (Z.shiftl (byte_val b41) 16)))
             (u32 (Z.shiftl (byte_val b42) 8)))
          (byte_val b43) in
      Some (GoTime.Unix (i64 (u32 (t - seventyYears))) 0)
  | _, _, _, _ => None
  end.

(** *** Talking to the server *)

Definition write : M (option error) :=
  update (with_host (fun n => set_dgram (reset (dgram n)) n)) ;;
  poke 0 xe3 ;;
  w <- world ;;
  (if negb (LeapSmear (config (host w))) then
     b <- peek 0 ;; poke 0 (byte_or b x03)
   else ret tt) ;;
  poke 1 x00 ;;
  poke 2 x06 ;;
  poke 3 xec ;;
  poke 12 x31 ;;
  poke 13 x4e ;;
  poke 14 x31 ;;
  poke 15 x34 ;;
  w <- world ;;
  k <- driver (EvWrite (dgram (host w))) ;;
  ret (conn_write (env w) k (dgram (host w))).

Definition timeout : GoTime.Duration := 2 * GoTime.Second.
Definition pollInterval : GoTime.Duration := 5 * GoTime.Millisecond.

(** What [conn.Read] leaves in the buffer it was given. *)
Definition overlay (received : list byte) (d : datagram) : datagram :=
  firstn (List.length d) received ++ skipn (List.length received) d.

(** The loop of [read], from its condition. *)
Fixpoint readLoop (fuel : nat) (start : GoTime.Time) : M (option error) :=
  elapsed <- Since start ;;
  if elapsed <=? timeout then
    match fuel with
    | O => spin
    | S fuel' =>
        Sleep pollInterval ;;
        k <- driver EvRead ;;
        w <- world ;;
        let r := conn_read (env w) k in
        update (with_host (fun n => set_dgram (overlay (rd_data r) (dgram n)) n)) ;;
        match rd_err r with
        | Some err => ret (Some err)
        | None =>
            if rd_n r =? 0 then readLoop fuel' start
            else if negb (rd_n r =? datagramSize) then
              ret (Some ErrReadDatagramSize)
            else ret None
        end
    end
  else ret (Some ErrReadNoResponse).

(** Every pass sleeps [pollInterval], so the condition holds on at most
    [timeout / pollInterval + 1] passes, and this fuel is never used up
    ([read_returns]). *)
Definition pollBudget : nat := Z.to_nat (timeout / pollInterval + 1).

Definition read : M (option error) :=
  update (with_host (fun n => set_dgram (reset (dgram n)) n)) ;;
  start <- Now ;;
  readLoop pollBudget start.

Definition request : M (GoTime.Time * option error) :=
  e <- write ;;
  match e with
  | Some err => ret (GoTime.zero, Some err)
  | None =>
      e <- read ;;
      match e with
      | Some err => ret (GoTime.zero, Some err)
      | None =>
          w <- world ;;
          match parse (dgram (host w)) with
          | Some t => ret (t, None)
          | None => panic
          end
      end
  end.

(** [net.DialUDP] and [conn.Close] of the driver. *)
Definition DialUDP (lport : Z) (rhost : string) (rport : Z)
  : M (option error) :=
  k <- driver (EvDialUDP lport rhost rport) ;;
  w <- world ;;
  ret (dial_udp (env w) k).

Definition Close : M unit := driver EvClose ;; ret tt.

(** The fetch step of [Sync]: the body of [if systemExpired], giving the
    error it returns early with, if any. *)
Definition fetch : M (option error) :=
  '(_, m) <- Get ;;
  w <- world ;;
  let servers := Server (config (host w)) in
  let len := uint (Z.of_nat (List.length servers)) in
  if len =? 0 then panic
  else
    let idx := mRetry m mod len in
    match nth_error servers (Z.to_nat idx) with
    | None => panic
    | Some name =>
        '(ip, err) <- WiFi.GetHostByName name ;;
        match err with
        | Some e => ret (Some e)
        | None =>
            err <- DialUDP (LocalPort (config (host w))) ip
                     (RemotePort (config (host w))) ;;
            match err with
            | Some e => ret (Some e)
            | None =>
                '(curr, err) <- request ;;
                match err with
                | Some e => ret (Some e)
                | None =>
                    Close ;;
                    d <- Since curr ;;
                    AdjustTimeOffset (i64 (-1 * d)) ;;
                    t <- Now ;;
                    update (with_host (set_lastSync t)) ;;
                    ret None
                end
            end
        end
    end.

(** The publish step: the body of [if modelExpired]. *)
Definition publish : M unit :=
  t <- Now ;;
  update (with_host (set_lastPost t)) ;;
  w <- world ;;
  Set_ (set_Time (GoTime.In (lastPost (host w)) (locale (host w)))).

Definition Sync : M (option error) :=
  at_ <- Now ;;
  w <- world ;;
  let '(systemExpired, modelExpired) := NTP_isExpired (host w) at_ in
  err <- (if systemExpired then fetch else ret None) ;;
  match err with
  | Some e => ret (Some e)
  | None =>
      (if modelExpired then publish else ret tt) ;;
      ret None
  end.

End NTPClient.

(** ** Package run *)

Module Run.

Section Loop.

(** [network.Network], the candidates in order of preference; the package
    that declares it is not part of the sources at hand. *)
Variable Network : list AP.

(** The two collaborators [Run] is handed: [net.Connect] and [host.Sync]. *)
Variable connect : AP -> M (option error).
Variable sync : M (option error).

(** [disp.Update]: the renderer is told; what it draws is its own matter. *)
Definition Update (data : Model) : M unit := emit (EvDisplay data).

(** [for _, ap := range network.Network] in the connecting state. *)
Fixpoint connectEach (aps : list AP) : M unit :=
  match aps with
  | [] => ret tt
  | ap :: rest =>
      err <- connect ap ;;
      match err with
      | Some e => println (SSID ap ++ ": " ++ Error e)
      | None => Set_ (set_Status StatusUnsynchronized)
      end ;;
      connectEach rest
  end.

Definition syncOrStay : M unit :=
  err <- sync ;;
  match err with
  | Some e => println ("error: " ++ Error e)
  | None => Set_ (set_Status StatusSynchronized)
  end.

Definition syncOrDemote : M unit :=
  err <- sync ;;
  match err with
  | Some e =>
      println ("error: " ++ Error e) ;;
      Set_ (set_Status StatusUnsynchronized)
  | None => ret tt
  end.

(** One pass of the main loop. *)
Definition tick : M unit :=
  '(changed, data) <- Get ;;
  (if changed then
     Update data ;;
     match mStatus data with
     | StatusIdle | StatusDisconnected =>
         Set_ (set_Status StatusConnecting)
     | StatusConnecting => connectEach Network
     | StatusUnsynchronized =>
         Mod (set_Retry 0) ;;
         syncOrStay
     | StatusSynchronized => syncOrDemote
     end
   else
     match mStatus data with
     | StatusUnsynchronized =>
         Mod (fun m => set_Retry (uint (mRetry m + 1)) m) ;;
         syncOrStay
     | StatusSynchronized => syncOrDemote
     | _ => ret tt
     end) ;;
  Sleep (10 * GoTime.Millisecond).

Fixpoint loop (fuel : nat) : M unit :=
  match fuel with
  | O => spin
  | S fuel' => tick ;; loop fuel'
  end.

Definition Run (fuel : nat) : M unit :=
  Set_ (set_Status StatusDisconnected) ;;
  loop fuel.

(** What the candidates' connects returned, one after the other, and the
    world the loop leaves: each candidate of the list gets its connect, in
    order, from the world the one before left. *)
Inductive Attempted : list AP -> World -> list (option error) -> World -> Prop :=
| Attempted_nil : forall w, Attempted [] w [] w
| Attempted_fail : forall ap rest w e w1 w2 rs w',
    connect ap w = Ret (Some e) w1 ->
    println (SSID ap ++ ": " ++ Error e) w1 = Ret tt w2 ->
    Attempted rest w2 rs w' ->
    Attempted (ap :: rest) w (Some e :: rs) w'
| Attempted_ok : forall ap rest w w1 w2 rs w',
    connect ap w = Ret None w1 ->
    Set_ (set_Status StatusUnsynchronized) w1 = Ret tt w2 ->
    Attempted rest w2 rs w' ->
    Attempted (ap :: rest) w (None :: rs) w'.

End Loop.

(** The loop as [main] starts it. *)
Definition tick_main (Network : list AP) (fuel : nat) : M unit :=
  tick Network (WiFi.Connect fuel) NTPClient.Sync.

End Run.

(** The [SetPassphrase] calls of a trace: the connects that were begun. *)
Definition begun (t : list event) : list AP :=
  flat_map
    (fun e =>
       match e with
       | EvSetPassphrase s p => [mkAP s p]
       | _ => []
       end) t.

Definition sleeps (t : list event) : list GoTime.Duration :=
  flat_map
    (fun e =>
       match e with
       | EvSleep d => [d]
       | _ => []
       end) t.

Definition reads (t : list event) : nat :=
  List.length (filter (fun e => match e with EvRead => true | _ => false end) t).

Definition displays (t : list event) : list Model :=
  flat_map
    (fun e =>
       match e with
       | EvDisplay m => [m]
       | _ => []
       end) t.

(** ** Notions the properties are stated with *)

(** Bytes 40 to 43 of a buffer read as one big-endian number. *)
Definition seconds1900 (d : datagram) : Z :=
  byte_val (nth 40 d x00) * 2 ^ 24 + byte_val (nth 41 d x00) * 2 ^ 16
  + byte_val (nth 42 d x00) * 2 ^ 8 + byte_val (nth 43 d x00).

(** The request as the specification lists it, byte by byte. *)
Definition request_bytes : datagram :=
  [xe3; x00; x06; xec] ++ repeat x00 8 ++ [x31; x4e; x31; x34]
  ++ repeat x00 32.

Definition semantic_offsets : list nat := [0; 1; 2; 3; 12; 13; 14; 15]%nat.

Definition with_LeapSmear (b : bool) (n : NTP) : NTP :=
  mkNTP
    (mkConfig (Server (config n)) (RemotePort (config n))
       (LocalPort (config n)) (TZOffset (config n)) (Interval (config n))
       (Precision (config n)) b)
    (locale n) (lastSync n) (lastPost n) (dgram n).

(** A world at boot: nothing done yet, the model at its zero value. *)
Definition boot (e : Env) (n : NTP) : World :=
  mkWorld e 0 0 0 ModelState.initial EmptyString n [].

(** The datagrams handed to [conn.Write], in order. *)
Definition sent (t : list event) : list datagram :=
  flat_map
    (fun e =>
       match e with
       | EvWrite d => [d]
       | _ => []
       end) t.

(** Two environments to run the program in.  In [env_down] the link never
    comes up and no datagram ever arrives. *)
Definition env_down : Env :=
  mkEnv (fun _ => 0%N) (fun _ => false)
    (fun _ => (EmptyString, Some (ErrDriver 1)))
    (fun _ _ => (EmptyString, Some (ErrDriver 2)))
    (fun _ => Some (ErrDriver 3))
    (fun _ _ => Some (ErrDriver 4))
    (fun _ => mkReply 0 None []).

(** In [env_linked] the link is up, a lease is held and names resolve, all
    at once; opening the socket, sending and reading answer as given. *)
Definition env_linked (dial send : option error) (recv : ReadReply) : Env :=
  mkEnv (fun _ => 0%N) (fun _ => true)
    (fun _ => ("192.168.1.7"%string, None))
    (fun _ _ => ("216.239.35.0"%string, None))
    (fun _ => dial)
    (fun _ _ => send)
    (fun _ => recv).

(** In [env_up reply] every call succeeds and each read receives [reply]. *)
Definition env_up (reply : list byte) : Env :=
  env_linked None None (mkReply (Z.of_nat (List.length reply)) None reply).

Definition no_config : Config := mkConfig [] 0 0 0 0 0 false.

(** The delays [waitLoop] sleeps on [n] failed polls in a row, from the
    timeout [t] on: each is the one before shifted left once, in [int64]. *)
Fixpoint backoff (n : nat) (t : GoTime.Duration) : list GoTime.Duration :=
  match n with
  | O => []
  | S n' => t :: backoff n' (i64 (Z.shiftl t 1))
  end.

Definition status_polls (t : list event) : nat :=
  List.length
    (filter
       (fun e => match e with EvGetConnectionStatus => true | _ => false end)
       t).

(** The link never comes up. *)
Definition never_linked (e : Env) : Prop :=
  forall k, connection_status e k = false.

(** The answer the [i]-th read from now will get. *)
Definition reply_at (w : World) (i : nat) : ReadReply :=
  conn_read (env w) (calls w + i).

(** A read that found no packet yet: no error and a count of zero. *)
Definition no_packet (r : ReadReply) : bool :=
  is_nil (rd_err r) && (rd_n r =? 0).

(** What [read] returns on an answer that is not [no_packet]. *)
Definition verdict (r : ReadReply) : option error :=
  match rd_err r with
  | Some e => Some e
  | None =>
      if rd_n r =? NTPClient.datagramSize then None
      else Some ErrReadDatagramSize
  end.

(** [n] polls as the trace shows them: a sleep of [pollInterval], then the
    read. *)
Definition polls (n : nat) : list event :=
  List.concat (repeat [EvSleep NTPClient.pollInterval; EvRead] n).

(** The world after one pass of the loop of [read]: slept, read, and the
    received bytes in the buffer. *)
Definition polled (w : World) : World :=
  with_host
    (fun n =>
       NTPClient.set_dgram
         (NTPClient.overlay (rd_data (conn_read (env w) (calls w))) (dgram n))
         n)
    (with_call
       (with_elapsed (Z.of_N (latency (env w) (calls w)))
          (with_event EvRead
             (with_elapsed (Z.max 0 NTPClient.pollInterval)
                (with_event (EvSleep NTPClient.pollInterval) w))))).

(** What the calls into the driver and the waiting leave alone: the oracle,
    the configuration, what the renderer was shown, the shared model with
    its flag, the two time stamps and the clock offset of the client, and
    the size of its buffer. *)
Definition view (w : World) :=
  (env w, config (host w), locale (host w), displays (trace w), shared w,
   lastPost (host w), lastSync (host w), timeOffset w,
   List.length (dgram (host w))).

(** A computation that, when it returns, has left the [view] as it was. *)
Definition quiet {A} (c : M A) : Prop :=
  forall (w : World) (a : A) (w' : World), c w = Ret a w' -> view w' = view w.


(** The part of the [view] that a fetch leaves alone also when it succeeds
    and sets the clock. *)
Definition kept (w : World) :=
  (env w, config (host w), locale (host w), displays (trace w), shared w,
   lastPost (host w), List.length (dgram (host w))).

(** A client as [New] makes it: servers to choose from, fewer than 2^32,
    and a buffer of 48 bytes. *)
Definition wellformed (n : NTP) : Prop :=
  Server (config n) <> [] /\
  Z.of_nat (List.length (Server (config n))) < 2 ^ 32 /\
  List.length (dgram n) = 48%nat.

Definition fetch_due (w : World) : bool :=
  fst (NTPClient.NTP_isExpired (host w) (clock w)).
Definition publish_due (w : World) : bool :=
  snd (NTPClient.NTP_isExpired (host w) (clock w)).

(** The world after [model.Get]: the flag cleared, all else as it was. *)
Definition after_Get (w : World) : World :=
  with_shared (fun _ => ModelState.mkState (ModelState.data (shared w)) false)
    w.

(** The world after the publish step. *)
Definition published (w : World) : World :=
  with_shared
    (ModelState.Set_
       (set_Time (GoTime.In (clock w) (locale (host w)))))
    (with_host (NTPClient.set_lastPost (clock w)) w).

(** A computation that returns from every world: no panic, no fuel used
    up. *)
Definition returns {A} (c : M A) : Prop :=
  forall w : World, exists (a : A) (w' : World), c w = Ret a w'.

(** The world with the change flag put to [b]: for [b = true], one in which
    a change was written and not yet read. *)
Definition flagged (b : bool) (w : World) : World :=
  with_shared (fun s => ModelState.mkState (ModelState.data s) b) w.

(** A reply of 48 bytes with D3 4A 9F 80 as its transmit time stamp. *)
Definition sample_reply : list byte :=
  repeat x00 40 ++ [xd3; x4a; x9f; x80] ++ repeat x00 4.

(** The world in which status [s] was just written: the flag is set. *)
Definition entered (s : Status) (w : World) : World :=
  with_shared (ModelState.Set_ (set_Status s)) w.

(** A stand-in for [net.Connect] that fails for the network named guest and
    succeeds for every other one. *)
Definition connect_but_guest (ap : AP) : M (option error) :=
  driver (EvSetPassphrase (SSID ap) (Pass ap)) ;;
  if String.eqb (SSID ap) "guest" then ret (Some ErrConnectToAP)
  else Set_ (set_AP_IP ap "10.0.0.2") ;; ret None.

Definition status_of (w : World) : Status :=
  mStatus (ModelState.data (shared w)).

(** ** Package display: clipping and filling *)

Module Display.

Definition i16 : Z -> Z := wrapS 16.

(** [clipRect], with the size of the panel, [d.hub.Size()], as [sx], [sy].
    All arithmetic is [int16]. *)
Definition clipRect (sx sy x y w h : Z) : bool * Z * Z * Z * Z :=
  let '(x, w) := if w <? 0 then (i16 (x + w), i16 (- w)) else (x, w) in
  let '(y, h) := if h <? 0 then (i16 (y + h), i16 (- h)) else (y, h) in
  match (if x <? 0 then Some (0, i16 (w + x))
         else if x >=? sx then None else Some (x, w)) with
  | None => (false, 0, 0, 0, 0)
  | Some (x, w) =>
      match (if y <? 0 then Some (0, i16 (h + y))
             else if y >=? sy then None else Some (y, h)) with
      | None => (false, 0, 0, 0, 0)
      | Some (y, h) =>
          let w := if i16 (x + w) >=? sx then i16 (sx - x) else w in
          let h := if i16 (y + h) >=? sy then i16 (sy - y) else h in
          (true, x, y, w, h)
      end
  end.

(** [for i := lo; i < hi; i++] over [int16], collecting what the body
    yields; [None] when the fuel is used up. *)
Fixpoint for16 {A} (fuel : nat) (i hi : Z) (body : Z -> option (list A))
  : option (list A) :=
  if i <? hi then
    match fuel with
    | O => None
    | S fuel' =>
        match body i, for16 fuel' (i16 (i + 1)) hi body with
        | Some now, Some later => Some (now ++ later)
        | _, _ => None
        end
    end
  else Some [].

(** [fillRect]: the [SetPixel] calls it makes, as (column, row), in order.
    Each loop gets the fuel of its span. *)
Definition fillRect (sx sy x y w h : Z) : option (list (Z * Z)) :=
  let '(ok, x, y, w, h) := clipRect sx sy x y w h in
  if ok then
    for16 (Z.to_nat (i16 (y + h) - y)) y (i16 (y + h))
      (fun row =>
         for16 (Z.to_nat (i16 (x + w) - x)) x (i16 (x + w))
           (fun col => Some [(col, row)]))
  else Some [].

End Display.

(** [n] consecutive integers from [lo]. *)
Fixpoint zrange (lo : Z) (n : nat) : list Z :=
  match n with
  | O => []
  | S n' => lo :: zrange (lo + 1) n'
  end.

Definition int16 (z : Z) : Prop := - 32768 <= z <= 32767.

(** The pixels of columns [cols] and rows [rows], row by row. *)
Definition raster (cols rows : list Z) : list (Z * Z) :=
  flat_map (fun row => map (fun col => (col, row)) cols) rows.

(** The part of the span of [w] cells from [x] (to the left for negative
    [w]) that lies in [0, size). *)
Definition visible (size x w : Z) : list Z :=
  let lo := if w <? 0 then x + w else x in
  let hi := lo + Z.abs w in
  zrange (Z.max 0 lo) (Z.to_nat (Z.min size hi - Z.max 0 lo)).

(** What [clipRect] does on one axis: the origin and extent it ends with,
    or [None] where it gives up. *)
Definition clipAxis (size x w : Z) : option (Z * Z) :=
  let '(x, w) :=
    if w <? 0 then (Display.i16 (x + w), Display.i16 (- w)) else (x, w) in
  match (if x <? 0 then Some (0, Display.i16 (w + x))
         else if x >=? size then None else Some (x, w)) with
  | None => None
  | Some (x, w) =>
      Some (x, if Display.i16 (x + w) >=? size then Display.i16 (size - x)
               else w)
  end.

(** The cells the loop of [fillRect] visits on an axis clipped to origin
    [x] and extent [w]. *)
Definition span (x w : Z) : list Z :=
  zrange x (Z.to_nat (Display.i16 (x + w) - x)).

(** ** What a computation adds to the trace *)

(** A computation that, when it returns, has only added events of the kind
    [P] to the trace. *)
Definition emits {A} (P : event -> Prop) (c : M A) : Prop :=
  forall (w : World) (a : A) (w' : World),
    c w = Ret a w' ->
    exists es, trace w' = trace w ++ es /\ Forall P es.

(** The world after a call into the driver. *)
Definition called (e : event) (w : World) : World :=
  with_call (with_elapsed (Z.of_N (latency (env w) (calls w))) (with_event e w)).

(** The events of the two waits of [Connect]: a poll, or a sleep. *)
Definition waiting (e : event) : Prop :=
  match e with
  | EvGetConnectionStatus | EvGetIP | EvSleep _ => True
  | _ => False
  end.

(** The events of [Connect] for the access point [ap]. *)
Definition connecting (ap : AP) (e : event) : Prop :=
  match e with
  | EvSetPassphrase s p => s = SSID ap /\ p = Pass ap
  | _ => waiting e
  end.

(** The events of a [Sync] that resolves [name] and talks from port
    [lport] to port [rport]. *)
Definition syncing (name : string) (lport rport : Z) (e : event) : Prop :=
  match e with
  | EvGetConnectionStatus | EvGetIP | EvRead | EvClose
  | EvAdjustTimeOffset _ => True
  | EvGetHostByName n => n = name
  | EvDialUDP l _ r => l = lport /\ r = rport
  | EvWrite d => d = request_bytes
  | EvSleep d => d = NTPClient.pollInterval
  | EvSetPassphrase _ _ | EvDisplay _ | EvPrintln _ => False
  end.

(** The server a fetch in this world turns to: [Retry] modulo the number of
    servers. *)
Definition server_in_turn (w : World) : string :=
  nth
    (Z.to_nat
       (mRetry (ModelState.data (shared w))
        mod uint (Z.of_nat (List.length (Server (config (host w)))))))
    (Server (config (host w))) EmptyString.

(** An environment in which the link comes up at driver call [up] and an
    address is given from driver call [lease] on. *)
Definition env_late (up lease : nat) : Env :=
  mkEnv (fun _ => 0%N) (fun n => Nat.leb up n)
    (fun n =>
       if Nat.leb lease n then ("192.168.1.7"%string, None)
       else (EmptyString, Some (ErrDriver 1)))
    (fun _ _ => ("216.239.35.0"%string, None))
    (fun _ => None)
    (fun _ _ => None)
    (fun _ => mkReply 0 None []).

(** The world after the last part of a fetch that got the time [curr]: the
    socket closed, the clock offset moved by the difference between the
    clock and [curr], and the time of the fetch noted. *)
Definition committed (curr : GoTime.Time) (w : World) : World :=
  let wc := called EvClose w in
  let o := i64 (-1 * GoTime.Sub (clock wc) curr) in
  let wa :=
    with_timeOffset (i64 (timeOffset wc + o))
      (with_event (EvAdjustTimeOffset o) wc) in
  with_host (NTPClient.set_lastSync (clock wa)) wa.

(** The seconds since 1970 that [parse] makes of a buffer. *)
Definition seconds1970 (d : datagram) : Z :=
  (seconds1900 d - NTPClient.seventyYears) mod 2 ^ 32.

(** A world [ns] nanoseconds after a fetch and a publish were made in [w],
    with the client stamped as they leave it, and the clock offset put to
    [off]. *)
Definition later (ns off : Z) (w : World) : World :=
  with_timeOffset off
    (with_elapsed ns
       (with_host
          (fun n => NTPClient.set_lastPost (clock w)
                      (NTPClient.set_lastSync (clock w) n)) w)).

(** The states in which the loop has nothing to do on a tick that read no
    change. *)
Definition waits_for_change (s : Status) : Prop :=
  match s with
  | StatusIdle | StatusDisconnected | StatusConnecting => True
  | StatusUnsynchronized | StatusSynchronized => False
  end.

(** What the loop prints for an error of [Sync]. *)
Definition complaint (r : option error) : list event :=
  match r with
  | Some e => [EvPrintln ("error: " ++ Error e)]
  | None => []
  end.

(** What the loop shows the renderer on a tick: the snapshot it read, if
    the flag was set. *)
Definition shown (w : World) : list event :=
  if ModelState.changed (shared w)
  then [EvDisplay (ModelState.data (shared w))]
  else [].


(** The retry count the loop hands to [Sync] in state Unsynchronized: 0
    when the tick read a change, one more than before when it read none. *)
Definition retry_in_turn (w : World) : Z :=
  if ModelState.changed (shared w) then 0
  else uint (mRetry (ModelState.data (shared w)) + 1).

(** The world after the head of a tick: the snapshot read, and shown to the
    renderer if the flag was set. *)
Definition told (w : World) : World :=
  (if ModelState.changed (shared w)
   then with_event (EvDisplay (ModelState.data (shared w)))
   else fun w0 => w0) (after_Get w).

(** The world in which a tick in state Unsynchronized calls [Sync]. *)
Definition retrying (w : World) : World :=
  with_shared (ModelState.Mod (set_Retry (retry_in_turn w))) (told w).

(** The world after the sleep that ends a tick. *)
Definition rested (w : World) : World :=
  with_elapsed (Z.max 0 (10 * GoTime.Millisecond))
    (with_event (EvSleep (10 * GoTime.Millisecond)) w).

(** The last candidate of a list of access points. *)
Definition last_candidate (aps : list AP) : AP :=
  last aps (mkAP EmptyString EmptyString).


(** The states the loop is in after a connect has succeeded. *)
Definition joined (s : Status) : Prop :=
  match s with
  | StatusUnsynchronized | StatusSynchronized => True
  | StatusIdle | StatusDisconnected | StatusConnecting => False
  end.


(** The time the driver takes over [n] calls, the first of them call [k]. *)
Fixpoint latency_sum (e : Env) (k n : nat) : Z :=
  match n with
  | O => 0
  | S n' => Z.of_N (latency e k) + latency_sum e (S k) n'
  end.

(** The buffer after [n] reads, the first of them driver call [k]: each
    read lays its bytes over the front of the buffer. *)
Fixpoint received (e : Env) (k n : nat) (d : datagram) : datagram :=
  match n with
  | O => d
  | S n' =>
      received e (S k) n' (NTPClient.overlay (rd_data (conn_read e k)) d)
  end.

(** A world whose last call into the driver was a read that returned 48
    bytes and no error, with these bytes laid over the buffer. *)
Definition answered (w : World) : Prop :=
  exists (k : nat) (d0 : datagram),
    calls w = S k /\
    rd_err (conn_read (env w) k) = None /\
    rd_n (conn_read (env w) k) = 48 /\
    List.length d0 = 48%nat /\
    dgram (host w) = NTPClient.overlay (rd_data (conn_read (env w) k)) d0.


(** Seconds from January 1, year 1 to January 1, 1885: the wall seconds of
    a [Time] with a monotonic reading count from there, in 33 bits. *)
Definition wallToInternal : Z := 59453308800.

(** The wall clock reads a time from 1970 up to the end of these 33 bits,
    in 2157: the range in which [time.Now] gives a monotonic reading. *)
Definition monotonic_range (w : World) : Prop :=
  0 <= nanotime w + timeOffset w
  < (2 ^ 33 - (GoTime.unixToInternal - wallToInternal)) * GoTime.Second.


(** Ticks that return, one after the other: each world of the list is the
    one the tick before left, the first that of the tick begun in [w]. *)
Fixpoint ticks (Network : list AP) (fuel : nat) (w : World)
  (ws : list World) : Prop :=
  match ws with
  | [] => True
  | w1 :: rest =>
      Run.tick_main Network fuel w = Ret tt w1 /\ ticks Network fuel w1 rest
  end.

(** * Properties *)

(** ** Running the monad *)

Lemma Ret_inj {A} (a b : A) (w w' : World) :
  Ret a w = Ret b w' -> a = b /\ w = w'.
Proof. intros H. injection H as Ha Hw. split; assumption. Qed.

Lemma bind_ret {A B} (c : M A) (k : A -> M B) (w w1 : World) (a : A) :
  c w = Ret a w1 -> bind c k w = k a w1.
Proof. intros H. unfold bind. rewrite H. reflexivity. Qed.

Lemma bind_spin {A B} (c : M A) (k : A -> M B) (w w1 : World) :
  c w = Spin w1 -> bind c k w = Spin w1.
Proof. intros H. unfold bind. rewrite H. reflexivity. Qed.

Lemma bind_panic {A B} (c : M A) (k : A -> M B) (w w1 : World) :
  c w = Panic w1 -> bind c k w = Panic w1.
Proof. intros H. unfold bind. rewrite H. reflexivity. Qed.

(** ** The change flag of package model *)

Section ChangeFlag.

Import ModelState.

Lemma mutate_all_keeps_set (cs : list mutation) :
  forall s, changed s = true -> changed (mutate_all cs s) = true.
Proof.
  induction cs as [|c cs IH]; intros s Hs; [exact Hs|].
  apply IH. destruct c; [reflexivity | exact Hs].
Qed.

Lemma modify_all_changed (fs : list (Model -> Model)) :
  forall s, changed (modify_all fs s) = changed s.
Proof.
  induction fs as [|f fs IH]; intros s; [reflexivity|].
  unfold modify_all in *. simpl. rewrite IH. reflexivity.
Qed.

Lemma Get_clears (s : state) : changed (snd (Get s)) = false.
Proof. reflexivity. Qed.

Lemma Get_copies (s : state) :
  snd (fst (Get s)) = data s /\ data (snd (Get s)) = data s.
Proof. split; reflexivity. Qed.

(** C5.  After a write [Set f], whatever writes and modifies [cs] follow, the
    next read returns [changed = true] with a copy of the snapshot and
    leaves the flag cleared; after modifies [fs] only, the read after it
    returns [changed = false] with the snapshot as modified; and modifies
    alone leave the flag as it was, so a read after them returns the flag
    from before them. *)
Theorem change_flag_round_trip :
  forall (s : state) (f : Model -> Model) (cs : list mutation)
         (fs : list (Model -> Model)),
    let s1 := mutate_all cs (Set_ f s) in
    let s2 := snd (Get s1) in
    let s3 := modify_all fs s2 in
    fst (Get s1) = (true, data s1) /\
    data s2 = data s1 /\ changed s2 = false /\
    fst (Get s3) = (false, data s3) /\
    fst (fst (Get (modify_all fs s))) = changed s.
Proof.
  intros s f cs fs s1 s2 s3.
  assert (H1 : changed s1 = true)
    by (apply mutate_all_keeps_set; reflexivity).
  assert (H3 : changed s3 = false)
    by (unfold s3; rewrite modify_all_changed; apply Get_clears).
  unfold Get at 1 3. simpl. rewrite H1, H3.
  repeat split.
  apply modify_all_changed.
Qed.

End ChangeFlag.

(** ** Expiration *)

Section Expiration.

Import GoTime NTPClient.

Lemma clamp_id (d : Z) : minDuration <= d <= maxDuration -> clamp d = d.
Proof. unfold clamp. lia. Qed.

Lemma clamp_ge (span d : Z) :
  span <= maxDuration -> span <= d -> span <= clamp d.
Proof. unfold clamp. lia. Qed.

Lemma Sub_zero (now : Time) : Sub now zero = clamp (abs now).
Proof.
  unfold Sub, zero. simpl. destruct (mono now); f_equal; lia.
Qed.

Lemma Sub_shift (now : Time) (d : Z) : Sub now (shift now (- d)) = clamp d.
Proof.
  unfold Sub, shift. simpl. destruct (mono now); simpl; f_equal; lia.
Qed.

(** C4, as the code has it.  For a current time [now] that is not the zero
    time and a span (an [int64]): against the zero time, [isExpired] is true
    once [now] is at least [span] after the zero time, so for every span when
    [now] is at or after the Unix epoch; against [now - span] it is true; and
    against [now - span + 1] it is false, for a span above the least
    duration. *)
Theorem isExpired_boundary :
  forall (now : Time) (span : Duration),
    IsZero now = false ->
    minDuration <= span <= maxDuration ->
    (span <= abs now -> isExpired now zero span = true) /\
    (unixToInternal * Second <= abs now -> isExpired now zero span = true) /\
    isExpired now (shift now (- span)) span = true /\
    (minDuration < span ->
     isExpired now (shift now (- span + 1)) span = false).
Proof.
  intros now span Hnz Hspan.
  assert (Hfar : span <= abs now -> isExpired now zero span = true).
  { intros H. unfold isExpired. rewrite Sub_zero.
    apply orb_true_iff. right. apply Z.leb_le.
    apply clamp_ge; lia. }
  split; [exact Hfar|]. split; [|split].
  - intros H. apply Hfar.
    unfold unixToInternal, Second, maxDuration in *. lia.
  - unfold isExpired. rewrite Sub_shift, clamp_id by exact Hspan.
    rewrite Z.leb_refl. apply orb_true_r.
  - intros Hmin. unfold isExpired. rewrite Hnz. simpl.
    replace (- span + 1) with (- (span - 1)) by lia.
    rewrite Sub_shift, clamp_id by lia.
    apply Z.leb_gt. lia.
Qed.

(** At the Unix epoch, with a span of one second. *)
Lemma isExpired_boundary_witness :
  isExpired (Unix 0 0) zero Second = true /\
  isExpired (Unix 0 0) (shift (Unix 0 0) (- Second)) Second = true /\
  isExpired (Unix 0 0) (shift (Unix 0 0) (- Second + 1)) Second = false.
Proof.
  assert (Hnz : IsZero (Unix 0 0) = false) by reflexivity.
  assert (Hspan : minDuration <= Second <= maxDuration)
    by (split; intro H; discriminate H).
  destruct (isExpired_boundary (Unix 0 0) Second Hnz Hspan)
    as [H1 [_ [H2 H3]]].
  split; [apply H1; intro H; discriminate H|].
  split; [exact H2|].
  apply H3. reflexivity.
Defined.

(** C4 as stated fails twice: one nanosecond after the zero time nothing has
    expired against the zero time for a span of a second; and for the least
    duration the difference [span - 1] is clamped to [span] itself. *)
Lemma isExpired_not_for_every_now_and_span :
  IsZero (mkTime 1 None UTC) = false /\
  isExpired (mkTime 1 None UTC) zero Second = false /\
  IsZero (Unix 0 0) = false /\
  isExpired (Unix 0 0) (shift (Unix 0 0) (- minDuration + 1)) minDuration
  = true.
Proof. repeat split. Qed.

End Expiration.

(** ** The wire format *)

Section Wire.

Import GoTime NTPClient.

Lemma byte_val_range (b : byte) : 0 <= byte_val b < 256.
Proof.
  unfold byte_val. pose proof (Byte.to_N_bounded b). lia.
Qed.

Lemma lor_shiftl_add (hi lo k : Z) :
  0 <= k -> 0 <= lo < 2 ^ k -> Z.lor (Z.shiftl hi k) lo = hi * 2 ^ k + lo.
Proof.
  intros Hk Hlo. rewrite <- Z.shiftl_mul_pow2 by lia.
  assert (Hland : Z.land (Z.shiftl hi k) lo = 0).
  { apply Z.bits_inj'. intros n Hn.
    rewrite Z.land_spec, Z.bits_0.
    destruct (Z.lt_ge_cases n k) as [Hlt | Hge].
    - rewrite Z.shiftl_spec_low by lia. reflexivity.
    - rewrite <- (Z.mod_small lo (2 ^ k)) by lia.
      rewrite Z.mod_pow2_bits_high by lia. apply andb_false_r. }
  rewrite <- Z.lxor_lor by exact Hland.
  symmetry. apply Z.add_nocarry_lxor. exact Hland.
Qed.

Lemma u32_small (z : Z) : 0 <= z < 2 ^ 32 -> u32 z = z.
Proof. intros H. unfold u32, wrapU. apply Z.mod_small. exact H. Qed.

Lemma i64_small (z : Z) : - 2 ^ 63 <= z < 2 ^ 63 -> i64 z = z.
Proof.
  intros H. unfold i64, wrapS.
  replace (64 - 1) with 63 by reflexivity.
  rewrite Z.mod_small; lia.
Qed.

Lemma nth_error_nth_some {A} (l : list A) (i : nat) (x : A) :
  (i < List.length l)%nat -> nth_error l i = Some (nth i l x).
Proof. intros H. apply nth_error_nth'. exact H. Qed.

Lemma lor_mul_add (hi lo k : Z) :
  0 <= k -> 0 <= lo < 2 ^ k -> Z.lor (hi * 2 ^ k) lo = hi * 2 ^ k + lo.
Proof.
  intros Hk Hlo. rewrite <- Z.shiftl_mul_pow2 by lia.
  rewrite lor_shiftl_add by lia. rewrite Z.shiftl_mul_pow2 by lia.
  reflexivity.
Qed.

Lemma big_endian_lor (a b c e : Z) :
  0 <= a < 256 -> 0 <= b < 256 -> 0 <= c < 256 -> 0 <= e < 256 ->
  Z.lor (Z.lor (Z.lor (a * 2 ^ 24) (b * 2 ^ 16)) (c * 2 ^ 8)) e
  = a * 2 ^ 24 + b * 2 ^ 16 + c * 2 ^ 8 + e.
Proof.
  intros Ha Hb Hc He.
  rewrite (lor_mul_add a (b * 2 ^ 16) 24) by lia.
  replace (a * 2 ^ 24 + b * 2 ^ 16) with ((a * 2 ^ 8 + b) * 2 ^ 16) by lia.
  rewrite (lor_mul_add (a * 2 ^ 8 + b) (c * 2 ^ 8) 16) by lia.
  replace ((a * 2 ^ 8 + b) * 2 ^ 16 + c * 2 ^ 8)
    with ((a * 2 ^ 16 + b * 2 ^ 8 + c) * 2 ^ 8) by lia.
  rewrite (lor_mul_add (a * 2 ^ 16 + b * 2 ^ 8 + c) e 8) by lia.
  reflexivity.
Qed.

(** [parse] on a buffer long enough: the big-endian number of bytes 40 to
    43, less seventy years in 32-bit unsigned arithmetic. *)
Lemma parse_value (d : datagram) :
  (44 <= List.length d)%nat ->
  parse d = Some (Unix (u32 (seconds1900 d - seventyYears)) 0).
Proof.
  intros Hlen. unfold parse, seconds1900.
  rewrite !(nth_error_nth_some d _ x00) by lia.
  pose proof (byte_val_range (nth 40 d x00)) as H0.
  pose proof (byte_val_range (nth 41 d x00)) as H1.
  pose proof (byte_val_range (nth 42 d x00)) as H2.
  pose proof (byte_val_range (nth 43 d x00)) as H3.
  set (a := byte_val (nth 40 d x00)) in *.
  set (b := byte_val (nth 41 d x00)) in *.
  set (c := byte_val (nth 42 d x00)) in *.
  set (e := byte_val (nth 43 d x00)) in *.
  clearbody a b c e.
  rewrite !Z.shiftl_mul_pow2 by lia.
  rewrite (u32_small (a * 2 ^ 24)), (u32_small (b * 2 ^ 16)),
    (u32_small (c * 2 ^ 8)) by lia.
  rewrite big_endian_lor by assumption.
  f_equal. f_equal.
  apply i64_small.
  unfold u32, wrapU.
  pose proof (Z.mod_pos_bound
                (a * 2 ^ 24 + b * 2 ^ 16 + c * 2 ^ 8 + e - seventyYears)
                (2 ^ 32) ltac:(lia)).
  lia.
Qed.

(** C9, as the code has it.  For a 48-byte buffer, [parse] reads bytes 40 to
    43 as a big-endian 32-bit count of seconds since 1900 and subtracts
    2208988800 in 32-bit unsigned arithmetic, so modulo 2^32: the plain
    difference when the count is at least 2208988800.  No other byte matters,
    so bytes 44 to 47 are ignored.  With D3 4A 9F 80 in bytes 40 to 43 the
    time is Unix(0xD34A9F80 - 2208988800, 0). *)
Theorem parse_transmit_timestamp :
  forall d : datagram,
    List.length d = 48%nat ->
    parse d = Some (Unix ((seconds1900 d - seventyYears) mod 2 ^ 32) 0) /\
    (seventyYears <= seconds1900 d ->
     parse d = Some (Unix (seconds1900 d - seventyYears) 0)) /\
    (forall d' : datagram,
       List.length d' = 48%nat ->
       (forall i, (40 <= i < 44)%nat -> nth i d' x00 = nth i d x00) ->
       parse d' = parse d) /\
    (firstn 4 (skipn 40 d) = [xd3; x4a; x9f; x80] ->
     parse d = Some (Unix (0xD34A9F80 - 2208988800) 0)).
Proof.
  intros d Hlen.
  assert (Hv := parse_value d ltac:(lia)).
  assert (Hrange : 0 <= seconds1900 d < 2 ^ 32).
  { unfold seconds1900.
    pose proof (byte_val_range (nth 40 d x00)).
    pose proof (byte_val_range (nth 41 d x00)).
    pose proof (byte_val_range (nth 42 d x00)).
    pose proof (byte_val_range (nth 43 d x00)). lia. }
  split; [exact Hv|]. split; [|split].
  - intros Hge. rewrite Hv. unfold u32, wrapU.
    rewrite Z.mod_small; [reflexivity|]. unfold seventyYears in *. lia.
  - intros d' Hlen' Hsame.
    rewrite Hv, (parse_value d') by lia.
    unfold seconds1900. rewrite !Hsame by lia. reflexivity.
  - intros Hbytes. rewrite Hv.
    assert (Hs : seconds1900 d = 0xD34A9F80).
    { unfold seconds1900.
      do 44 (destruct d as [|? d]; [discriminate Hlen|]).
      simpl in Hbytes. injection Hbytes as -> -> -> ->. reflexivity. }
    rewrite Hs. reflexivity.
Qed.

(** The buffer of the example: the four bytes at 40 to 43, zeros around. *)
Lemma parse_transmit_timestamp_witness :
  parse (repeat x00 40 ++ [xd3; x4a; x9f; x80] ++ repeat x00 4)
  = Some (Unix 1335894272 0).
Proof.
  destruct (parse_transmit_timestamp
              (repeat x00 40 ++ [xd3; x4a; x9f; x80] ++ repeat x00 4)
              eq_refl) as [_ [_ [_ H]]].
  exact (H eq_refl).
Defined.

(** C9 as stated, with the plain difference, fails below seventy years: a
    buffer of zeros has the count 0 and is parsed as 2^32 - 2208988800
    seconds after 1970, not 2208988800 seconds before. *)
Lemma parse_not_plain_difference :
  List.length (repeat x00 48) = 48%nat /\
  seconds1900 (repeat x00 48) = 0 /\
  parse (repeat x00 48) = Some (Unix 2085978496 0) /\
  parse (repeat x00 48)
  <> Some (Unix (seconds1900 (repeat x00 48) - 2208988800) 0).
Proof.
  split; [reflexivity|]. split; [reflexivity|]. split; [reflexivity|].
  intros H. vm_compute in H. discriminate H.
Qed.

(** What [write] does on a 48-byte buffer, whatever the buffer held and
    whatever the configuration: it fills the buffer with [request_bytes] and
    hands it to [conn.Write], whose error it returns. *)
Lemma write_sends (w : World) :
  List.length (dgram (host w)) = 48%nat ->
  write w =
  Ret (conn_write (env w) (calls w) request_bytes)
    (with_call
       (with_elapsed (Z.of_N (latency (env w) (calls w)))
          (with_event (EvWrite request_bytes)
             (with_host (set_dgram request_bytes) w)))).
Proof.
  destruct w as [e k nt off sh ip [[srv rp lp tz iv pr leap] lc ls lpst d] tr].
  simpl. intros Hlen.
  do 48 (destruct d as [|? d]; [discriminate Hlen|]).
  destruct d; [|discriminate Hlen].
  destruct leap; reflexivity.
Qed.

(** C8.  For every configuration and every 48-byte buffer, [write] hands
    [conn.Write] 48 bytes with byte 0 = 0b11100011 (227), the alarm bits
    0b00000011 OR-ed in when the server does not leap-smear; byte 1 = 0,
    byte 2 = 6, byte 3 = 0xEC; bytes 12 to 15 = 49, 0x4E, 49, 52, the text
    1N14; and zero everywhere else. *)
Theorem request_layout :
  forall w : World,
    List.length (dgram (host w)) = 48%nat ->
    exists (w' : World) (d : datagram),
      write w = Ret (conn_write (env w) (calls w) d) w' /\
      trace w' = trace w ++ [EvWrite d] /\
      List.length d = 48%nat /\
      byte_val (nth 0 d x00)
      = Z.lor 227 (if LeapSmear (config (host w)) then 0 else 3) /\
      map byte_val (firstn 4 d) = [227; 0; 6; 0xEC] /\
      map byte_val (firstn 4 (skipn 12 d)) = [49; 0x4E; 49; 52] /\
      firstn 4 (skipn 12 d) = list_byte_of_string "1N14" /\
      (forall i, (i < 48)%nat -> ~ List.In i semantic_offsets ->
                 nth i d x00 = x00).
Proof.
  intros w Hlen. eexists. exists request_bytes.
  split; [apply write_sends; exact Hlen|].
  split; [reflexivity|]. split; [reflexivity|].
  split; [destruct (LeapSmear (config (host w))); reflexivity|].
  split; [reflexivity|]. split; [reflexivity|]. split; [reflexivity|].
  intros i Hi Hout.
  do 48 (destruct i as [|i];
         [try reflexivity; exfalso; apply Hout; simpl; tauto|]).
  lia.
Qed.

(** A fresh client at boot. *)
Lemma request_layout_witness :
  exists (w' : World) (d : datagram),
    write (boot env_down (New no_config)) = Ret (Some (ErrDriver 4)) w' /\
    trace w' = [EvWrite d] /\
    map byte_val (firstn 4 d) = [227; 0; 6; 236].
Proof.
  destruct (request_layout (boot env_down (New no_config)) eq_refl)
    as [w' [d [Hrun [Htrace [_ [_ [Hhead _]]]]]]].
  exists w', d. split; [exact Hrun|]. split; [exact Htrace|]. exact Hhead.
Defined.

(** C10.  Two configurations that differ only in [LeapSmear] send the same
    datagram: [write] returns the same, leaves the same trace and the same
    buffer, with byte 0 = 0b11100011 in both runs, as OR-ing 0b00000011 into
    0b11100011 changes nothing. *)
Theorem LeapSmear_not_observable :
  forall (w : World) (b : bool),
    List.length (dgram (host w)) = 48%nat ->
    exists (r : option error) (w1 w2 : World),
      write (with_host (with_LeapSmear b) w) = Ret r w1 /\
      write (with_host (with_LeapSmear (negb b)) w) = Ret r w2 /\
      trace w1 = trace w2 /\
      sent (trace w1) = sent (trace w) ++ [dgram (host w1)] /\
      dgram (host w1) = dgram (host w2) /\
      nth_error (dgram (host w1)) 0 = Some xe3 /\
      byte_val xe3 = 227 /\
      byte_or xe3 x03 = xe3.
Proof.
  intros w b Hlen.
  exists (conn_write (env w) (calls w) request_bytes). do 2 eexists.
  split; [rewrite write_sends by exact Hlen; reflexivity|].
  split; [rewrite write_sends by exact Hlen; reflexivity|].
  split; [reflexivity|].
  split.
  { simpl. unfold sent. rewrite flat_map_app. reflexivity. }
  repeat split.
Qed.

Lemma LeapSmear_not_observable_witness :
  exists (r : option error) (w1 w2 : World),
    write (with_host (with_LeapSmear true) (boot env_down (New no_config)))
    = Ret r w1 /\
    write (with_host (with_LeapSmear false) (boot env_down (New no_config)))
    = Ret r w2 /\
    sent (trace w1) = sent (trace w2).
Proof.
  destruct (LeapSmear_not_observable (boot env_down (New no_config)) true
              eq_refl) as [r [w1 [w2 [H1 [H2 [H3 _]]]]]].
  exists r, w1, w2. split; [exact H1|]. split; [exact H2|].
  rewrite H3. reflexivity.
Defined.

End Wire.

(** ** Waiting for the link *)

Section Backoff.

Import GoTime WiFi.

Lemma sleeps_app (t1 t2 : list event) :
  sleeps (t1 ++ t2) = sleeps t1 ++ sleeps t2.
Proof. unfold sleeps. apply flat_map_app. Qed.

Lemma status_polls_app (t1 t2 : list event) :
  status_polls (t1 ++ t2) = (status_polls t1 + status_polls t2)%nat.
Proof. unfold status_polls. rewrite filter_app, length_app. reflexivity. Qed.

(** While the link is down, the loop only uses up its fuel: after [fuel]
    polls and [fuel] sleeps it is still running, [attempt] still 0. *)
Lemma waitLoop_spins (fuel : nat) :
  forall (w : World) (t : Duration),
    never_linked (env w) ->
    exists w',
      waitLoop fuel isConnected false 0 t w = Spin w' /\
      env w' = env w /\
      sleeps (trace w') = sleeps (trace w) ++ backoff fuel t /\
      status_polls (trace w') = (status_polls (trace w) + fuel)%nat.
Proof.
  induction fuel as [|fuel IH]; intros w t Hdown.
  - exists w. simpl. rewrite app_nil_r, Nat.add_0_r. repeat split.
  - set (w2 :=
           with_elapsed (Z.max 0 t)
             (with_event (EvSleep t)
                (with_call
                   (with_elapsed (Z.of_N (latency (env w) (calls w)))
                      (with_event EvGetConnectionStatus w))))).
    destruct (IH w2 (i64 (Z.shiftl t 1)) Hdown) as [w' [Hrun [Henv [Hsl Hpo]]]].
    exists w'.
    split.
    { rewrite <- Hrun. simpl. unfold bind, isConnected, bind, driver, world.
      simpl. rewrite (Hdown (calls w)). reflexivity. }
    split; [exact Henv|].
    split.
    + rewrite Hsl. unfold w2. simpl.
      rewrite !sleeps_app. simpl. rewrite !app_nil_r, <- app_assoc.
      reflexivity.
    + rewrite Hpo. unfold w2. simpl.
      rewrite !status_polls_app.
      change (status_polls [EvGetConnectionStatus]) with 1%nat.
      change (status_polls [EvSleep t]) with 0%nat. lia.
Qed.

(** When the loop does return, it returns [true], whatever [ready] is: the
    condition [attempt < maxAttempts] never turns false. *)
Lemma waitLoop_returns_true (fuel : nat) (ready : M bool) :
  forall (ok : bool) (t : Duration) (w w' : World) (r : bool),
    waitLoop fuel ready ok 0 t w = Ret r w' -> r = true.
Proof.
  induction fuel as [|fuel IH]; intros ok t w w' r Hrun.
  - destruct ok; simpl in Hrun; [|discriminate Hrun].
    injection Hrun as <- _. reflexivity.
  - destruct ok; simpl in Hrun.
    + injection Hrun as <- _. reflexivity.
    + unfold bind at 1 in Hrun.
      destruct (ready w) as [ok' w1 | w1 | w1]; try discriminate Hrun.
      destruct ok'; simpl in Hrun.
      * eapply IH. exact Hrun.
      * unfold bind at 1 in Hrun. simpl in Hrun. eapply IH. exact Hrun.
Qed.

Lemma backoff_nine :
  backoff 9 baseTimeout
  = map (fun ms => ms * Millisecond)
      [125; 250; 500; 1000; 2000; 4000; 8000; 16000; 32000].
Proof. reflexivity. Qed.

(** [Connect] returns no error at all: both of its waits can only return
    [true]. *)
Lemma Connect_returns_nil (fuel : nat) (ap : AP) (w w' : World)
  (e : option error) :
  Connect fuel ap w = Ret e w' -> e = None.
Proof.
  unfold Connect, waitWithTimeout. intros Hrun.
  unfold bind at 1 2 3 in Hrun. simpl in Hrun.
  match type of Hrun with
  | context [waitLoop fuel isConnected false 0 baseTimeout ?w0] =>
      destruct (waitLoop fuel isConnected false 0 baseTimeout w0)
        as [linked w1 | w1 | w1] eqn:Hlink; try discriminate Hrun
  end.
  apply waitLoop_returns_true in Hlink. subst linked. simpl in Hrun.
  unfold bind at 1 in Hrun.
  destruct (waitLoop fuel hasIP false 0 baseTimeout w1)
    as [leased w2 | w2 | w2] eqn:Hlease; try discriminate Hrun.
  apply waitLoop_returns_true in Hlease. subst leased. simpl in Hrun.
  unfold bind, world, Set_, update, ret in Hrun.
  injection Hrun as <- _. reflexivity.
Qed.

(** C1 on the code.  With a link that never comes up, [Connect] does not
    return, whatever the fuel: after [fuel] polls it is still in its first
    wait, and has slept the two seconds before the attempt and then one
    delay per poll, doubling from 125 ms without a ceiling (the ninth is
    32000 ms).  No [ErrConnectToAP] is returned. *)
Theorem Connect_polls_without_ceiling :
  forall (w : World) (ap : AP) (fuel : nat),
    never_linked (env w) ->
    (exists w',
       Connect fuel ap w = Spin w' /\
       status_polls (trace w') = (status_polls (trace w) + fuel)%nat /\
       sleeps (trace w')
       = sleeps (trace w) ++ 2 * Second :: backoff fuel baseTimeout) /\
    (forall (e : option error) (w' : World), Connect fuel ap w <> Ret e w').
Proof.
  intros w ap fuel Hdown.
  set (w0 :=
         with_call
           (with_elapsed (Z.of_N (latency (env w) (calls w)))
              (with_event (EvSetPassphrase (SSID ap) (Pass ap))
                 (with_elapsed (Z.max 0 (2 * Second))
                    (with_event (EvSleep (2 * Second)) w))))).
  destruct (waitLoop_spins fuel w0 baseTimeout Hdown)
    as [w' [Hrun [_ [Hsl Hpo]]]].
  assert (Hconnect : Connect fuel ap w = Spin w').
  { unfold Connect, waitWithTimeout.
    erewrite bind_ret by reflexivity.
    erewrite bind_ret by reflexivity.
    apply bind_spin. exact Hrun. }
  split.
  - exists w'. split; [exact Hconnect|]. split.
    + rewrite Hpo. unfold w0. cbn [trace with_call with_elapsed with_event].
      rewrite !status_polls_app.
      change (status_polls [EvSleep (2 * Second)]) with 0%nat.
      change (status_polls [EvSetPassphrase (SSID ap) (Pass ap)]) with 0%nat.
      lia.
    + rewrite Hsl. unfold w0. cbn [trace with_call with_elapsed with_event].
      rewrite !sleeps_app.
      change (sleeps [EvSleep (2 * Second)]) with [2 * Second].
      change (sleeps [EvSetPassphrase (SSID ap) (Pass ap)])
        with (@nil Duration).
      rewrite app_nil_r, <- app_assoc. reflexivity.
  - intros e w1 Hret. rewrite Hconnect in Hret. discriminate Hret.
Qed.

(** Nine polls against [env_down]: the delays slept, in milliseconds. *)
Lemma Connect_polls_without_ceiling_witness :
  exists w',
    Connect 9 (mkAP "home" "secret") (boot env_down (NTPClient.New no_config))
    = Spin w' /\
    status_polls (trace w') = 9%nat /\
    sleeps (trace w')
    = map (fun ms => ms * Millisecond)
        [2000; 125; 250; 500; 1000; 2000; 4000; 8000; 16000; 32000].
Proof.
  destruct (Connect_polls_without_ceiling
              (boot env_down (NTPClient.New no_config)) (mkAP "home" "secret") 9
              (fun k => eq_refl)) as [[w' [Hrun [Hpolls Hsleeps]]] _].
  exists w'. split; [exact Hrun|]. split; [exact Hpolls|]. exact Hsleeps.
Defined.

End Backoff.

(** ** Waiting for the reply *)

Section ReadLoop.

Import GoTime NTPClient.

Lemma Now_clock (w : World) : Now w = Ret (clock w) w.
Proof. reflexivity. Qed.

Lemma reply_at_0 (w : World) : reply_at w 0 = conn_read (env w) (calls w).
Proof. unfold reply_at. rewrite Nat.add_0_r. reflexivity. Qed.

Lemma reply_at_polled (w : World) (i : nat) :
  reply_at (polled w) i = reply_at w (S i).
Proof.
  unfold reply_at. simpl. rewrite Nat.add_succ_r. reflexivity.
Qed.

Lemma readLoop_done (fuel : nat) (start : Time) (w : World) :
  (Sub (clock w) start <=? timeout) = false ->
  readLoop fuel start w = Ret (Some ErrReadNoResponse) w.
Proof.
  intros H. destruct fuel; simpl; unfold bind, Since, bind;
    rewrite Now_clock; simpl; rewrite H; reflexivity.
Qed.

Lemma readLoop_pass (fuel : nat) (start : Time) (w : World) :
  (Sub (clock w) start <=? timeout) = true ->
  readLoop (S fuel) start w =
  if no_packet (reply_at w 0) then readLoop fuel start (polled w)
  else Ret (verdict (reply_at w 0)) (polled w).
Proof.
  intros H. rewrite reply_at_0.
  simpl. unfold bind at 1. unfold Since, bind at 1.
  rewrite Now_clock. simpl. rewrite H.
  unfold no_packet, verdict.
  unfold bind at 1. simpl. unfold bind at 1. simpl.
  unfold bind at 1. simpl. unfold bind at 1. simpl.
  fold (polled w). 
  destruct (rd_err (conn_read (env w) (calls w))) as [e|]; simpl.
  - reflexivity.
  - destruct (rd_n (conn_read (env w) (calls w)) =? 0) eqn:H0; simpl.
    + reflexivity.
    + destruct (rd_n (conn_read (env w) (calls w)) =? datagramSize);
        reflexivity.
Qed.

Lemma trace_polled (w : World) :
  trace (polled w) = trace w ++ [EvSleep pollInterval; EvRead].
Proof.
  unfold polled. cbn [trace with_host with_call with_elapsed with_event].
  rewrite <- app_assoc. reflexivity.
Qed.

Lemma polls_S (n : nat) :
  polls (S n) = [EvSleep pollInterval; EvRead] ++ polls n.
Proof. reflexivity. Qed.

Lemma clamp_le_timeout (x : Z) :
  0 <= x -> (clamp x <=? timeout) = true -> x <= timeout.
Proof.
  intros Hx H. apply Z.leb_le in H.
  unfold clamp, timeout, maxDuration, minDuration, Second in *. lia.
Qed.

Lemma clamp_gt_timeout (x : Z) :
  (clamp x <=? timeout) = false -> timeout < x.
Proof.
  intros H. apply Z.leb_gt in H.
  unfold clamp, timeout, maxDuration, minDuration, Second in *. lia.
Qed.

Lemma nanotime_polled (w : World) :
  nanotime (polled w)
  = nanotime w + pollInterval + Z.of_N (latency (env w) (calls w)).
Proof.
  unfold polled. cbn [nanotime with_host with_call with_elapsed with_event
                      env calls].
  unfold pollInterval, Millisecond. lia.
Qed.

Lemma overlay_length (bytes : list byte) (d : datagram) :
  List.length (overlay bytes d) = List.length d.
Proof.
  unfold overlay. rewrite length_app, length_firstn, length_skipn. lia.
Qed.

Lemma received_length (e : Env) (n : nat) :
  forall (k : nat) (d : datagram),
    List.length (received e k n d) = List.length d.
Proof.
  induction n as [|n IH]; intros k d; cbn [received]; [reflexivity|].
  rewrite IH. apply overlay_length.
Qed.

Lemma received_last (e : Env) (n : nat) :
  forall (k : nat) (d : datagram),
    received e k (S n) d
    = overlay (rd_data (conn_read e (k + n))) (received e k n d).
Proof.
  induction n as [|n IH]; intros k d.
  - cbn [received]. rewrite Nat.add_0_r. reflexivity.
  - change (received e k (S (S n)) d)
      with (received e (S k) (S n) (overlay (rd_data (conn_read e k)) d)).
    rewrite IH. change (received e k (S n) d)
      with (received e (S k) n (overlay (rd_data (conn_read e k)) d)).
    rewrite Nat.add_succ_r. reflexivity.
Qed.

(** The loop of [read] with fuel for the time that is left: it returns,
    after [n] polls; all but the last found no packet; either time ran out
    or the last one decided.  The time that passed is that of the sleeps
    and of the reads, each poll was begun within the timeout, and the
    buffer holds what the reads laid over it. *)
Lemma readLoop_spec (fuel : nat) :
  forall (w : World) (start : Time) (s : Z),
    mono start = Some s ->
    s <= nanotime w ->
    timeout - (nanotime w - s) < Z.of_nat fuel * pollInterval ->
    exists (n : nat) (r : option error) (w' : World),
      readLoop fuel start w = Ret r w' /\
      (n <= fuel)%nat /\
      trace w' = trace w ++ polls n /\
      (forall i, (i + 1 < n)%nat -> no_packet (reply_at w i) = true) /\
      ((r = Some ErrReadNoResponse /\
        (forall i, (i < n)%nat -> no_packet (reply_at w i) = true) /\
        timeout < nanotime w' - s)
       \/
       (exists last,
          n = S last /\ no_packet (reply_at w last) = false /\
          r = verdict (reply_at w last))) /\
      calls w' = (calls w + n)%nat /\
      nanotime w'
      = nanotime w + Z.of_nat n * pollInterval
        + latency_sum (env w) (calls w) n /\
      (forall i, (i < n)%nat ->
                 nanotime w - s + Z.of_nat i * pollInterval
                 + latency_sum (env w) (calls w) i <= timeout) /\
      env w' = env w /\
      dgram (host w') = received (env w) (calls w) n (dgram (host w)).
Proof.
  induction fuel as [|fuel IH]; intros w start s Hs Hle Hfuel;
    assert (Hsub : Sub (clock w) start = clamp (nanotime w - s))
      by (unfold Sub, clock; cbn [mono]; rewrite Hs; reflexivity);
    destruct (Sub (clock w) start <=? timeout) eqn:Hcond.
  - rewrite Hsub in Hcond. apply clamp_le_timeout in Hcond; [|lia].
    unfold pollInterval, Millisecond in Hfuel.
    change (Z.of_nat 0) with 0 in Hfuel. lia.
  - exists 0%nat, (Some ErrReadNoResponse), w.
    split; [apply readLoop_done; exact Hcond|].
    split; [lia|]. split; [cbn [polls repeat List.concat]; rewrite app_nil_r; reflexivity|].
    split; [intros i Hi; lia|]. split.
    { left. split; [reflexivity|]. split; [intros i Hi; lia|].
      rewrite Hsub in Hcond. apply clamp_gt_timeout in Hcond. exact Hcond. }
    split; [rewrite Nat.add_0_r; reflexivity|].
    split; [cbn [latency_sum]; change (Z.of_nat 0) with 0; lia|].
    split; [intros i Hi; lia|]. split; reflexivity.
  - rewrite (readLoop_pass fuel start w Hcond).
    assert (Hin : nanotime w - s <= timeout).
    { rewrite Hsub in Hcond. apply clamp_le_timeout in Hcond; [exact Hcond|lia]. }
    pose proof (nanotime_polled w) as Hnano.
    destruct (no_packet (reply_at w 0)) eqn:Hfirst.
    + destruct (IH (polled w) start s Hs)
        as [n [r [w' [Hrun [Hn [Htr [Hno [Hend [Hcalls [Htime [Hbudget
           [Henv Hbuf]]]]]]]]]]]].
      { unfold pollInterval, Millisecond in *. lia. }
      { unfold pollInterval, Millisecond in *. lia. }
      change (env (polled w)) with (env w) in *.
      change (calls (polled w)) with (S (calls w)) in *.
      exists (S n), r, w'.
      split; [exact Hrun|]. split; [lia|].
      split.
      { rewrite Htr, trace_polled, polls_S, app_assoc. reflexivity. }
      split.
      { intros [|i] Hi; [exact Hfirst|].
        rewrite <- reply_at_polled. apply Hno. lia. }
      split.
      { destruct Hend as [[Hr [Hall Hlate]] | [last [Hlast [Hans Hr]]]].
        * left. split; [exact Hr|]. split; [|exact Hlate].
          intros [|i] Hi; [exact Hfirst|].
          rewrite <- reply_at_polled. apply Hall. lia.
        * right. exists (S last). rewrite <- !reply_at_polled.
          split; [lia|]. split; [exact Hans|exact Hr]. }
      split; [rewrite Hcalls; lia|].
      split.
      { rewrite Htime, Hnano. cbn [latency_sum].
        rewrite Nat2Z.inj_succ. lia. }
      split.
      { intros [|i] Hi.
        - cbn [latency_sum]. change (Z.of_nat 0) with 0. lia.
        - specialize (Hbudget i ltac:(lia)). rewrite Hnano in Hbudget.
          cbn [latency_sum]. rewrite Nat2Z.inj_succ. lia. }
      split; [exact Henv|]. rewrite Hbuf. reflexivity.
    + exists 1%nat, (verdict (reply_at w 0)), (polled w).
      split; [reflexivity|]. split; [lia|].
      split; [rewrite trace_polled; reflexivity|].
      split; [intros i Hi; lia|]. split.
      { right. exists 0%nat.
        split; [reflexivity|]. split; [exact Hfirst|reflexivity]. }
      split; [change (calls (polled w)) with (S (calls w)); lia|].
      split.
      { rewrite Hnano. cbn [latency_sum]. change (Z.of_nat 1) with 1. lia. }
      split.
      { intros i Hi. assert (i = 0%nat) as -> by lia.
        cbn [latency_sum]. change (Z.of_nat 0) with 0. lia. }
      split; reflexivity.
  - exists 0%nat, (Some ErrReadNoResponse), w.
    split; [apply readLoop_done; exact Hcond|].
    split; [lia|]. split; [cbn [polls repeat List.concat]; rewrite app_nil_r; reflexivity|].
    split; [intros i Hi; lia|]. split.
    { left. split; [reflexivity|]. split; [intros i Hi; lia|].
      rewrite Hsub in Hcond. apply clamp_gt_timeout in Hcond. exact Hcond. }
    split; [rewrite Nat.add_0_r; reflexivity|].
    split; [cbn [latency_sum]; change (Z.of_nat 0) with 0; lia|].
    split; [intros i Hi; lia|]. split; reflexivity.
Qed.

Lemma pollBudget_value : pollBudget = 401%nat.
Proof. reflexivity. Qed.

(** [read], from its first line: the loop run on the cleared buffer. *)
Lemma read_spec (w : World) :
  exists (n : nat) (r : option error) (w' : World),
    read w = Ret r w' /\
    (n <= 401)%nat /\
    trace w' = trace w ++ polls n /\
    (forall i, (i + 1 < n)%nat -> no_packet (reply_at w i) = true) /\
    ((r = Some ErrReadNoResponse /\
      (forall i, (i < n)%nat -> no_packet (reply_at w i) = true) /\
      timeout < nanotime w' - nanotime w)
     \/
     (exists last,
        n = S last /\ no_packet (reply_at w last) = false /\
        r = verdict (reply_at w last))) /\
    calls w' = (calls w + n)%nat /\
    nanotime w'
    = nanotime w + Z.of_nat n * pollInterval
      + latency_sum (env w) (calls w) n /\
    (forall i, (i < n)%nat ->
               Z.of_nat i * pollInterval + latency_sum (env w) (calls w) i
               <= timeout) /\
    env w' = env w /\
    dgram (host w')
    = received (env w) (calls w) n (reset (dgram (host w))).
Proof.
  set (w1 := with_host (fun n => set_dgram (reset (dgram n)) n) w).
  destruct (readLoop_spec pollBudget w1 (clock w1) (nanotime w1) eq_refl)
    as [n [r [w' [Hrun [Hn [Htr [Hno [Hend [Hcalls [Htime [Hbudget
       [Henv Hbuf]]]]]]]]]]]].
  { lia. }
  { rewrite pollBudget_value. unfold timeout, pollInterval, Second, Millisecond.
    change (Z.of_nat 401) with 401. lia. }
  exists n, r, w'.
  split; [exact Hrun|].
  split; [rewrite <- pollBudget_value; exact Hn|].
  split; [exact Htr|]. split; [exact Hno|]. split; [exact Hend|].
  split; [exact Hcalls|]. split; [exact Htime|].
  split.
  { intros i Hi. specialize (Hbudget i Hi).
    change (env w1) with (env w) in Hbudget.
    change (calls w1) with (calls w) in Hbudget. lia. }
  split; [exact Henv|exact Hbuf].
Qed.

(** C7.  [read] always returns.  It makes [n] polls, at most 401, each a
    sleep of 5 ms and then one read of the socket, and it does nothing
    else: the time that passes is the [n] sleeps of 5 ms and the time the
    [n] reads take, and every poll is begun no more than 2 s after the
    first line of [read].  All polls but the last found no packet.  Either
    every poll found no packet, more than 2 s have passed and the result is
    [ErrReadNoResponse]; or the last poll decided: an error of the read is
    returned as it is, a count other than 48 gives [ErrReadDatagramSize], a
    count of 48 gives success.  So success means that the last read
    returned 48 bytes and no error. *)
Theorem read_polls_until_reply_or_timeout :
  forall w : World,
    exists (n : nat) (r : option error) (w' : World),
      read w = Ret r w' /\
      trace w'
      = trace w ++ List.concat (repeat [EvSleep (5 * Millisecond); EvRead] n) /\
      (n <= 401)%nat /\
      (forall i, (i + 1 < n)%nat -> no_packet (reply_at w i) = true) /\
      ((r = Some ErrReadNoResponse /\
        (forall i, (i < n)%nat -> no_packet (reply_at w i) = true) /\
        2 * Second < nanotime w' - nanotime w)
       \/
       (exists last,
          n = S last /\ no_packet (reply_at w last) = false /\
          match rd_err (reply_at w last) with
          | Some e => r = Some e
          | None =>
              if rd_n (reply_at w last) =? 48 then r = None
              else r = Some ErrReadDatagramSize
          end)) /\
      (r = None ->
       exists last,
         n = S last /\ rd_err (reply_at w last) = None /\
         rd_n (reply_at w last) = 48) /\
      calls w' = (calls w + n)%nat /\
      nanotime w' - nanotime w
      = Z.of_nat n * (5 * Millisecond) + latency_sum (env w) (calls w) n /\
      (forall i, (i < n)%nat ->
                 Z.of_nat i * (5 * Millisecond)
                 + latency_sum (env w) (calls w) i <= 2 * Second).
Proof.
  intros w.
  destruct (read_spec w)
    as [n [r [w' [Hrun [Hn [Htr [Hno [Hcases [Hcalls [Htime [Hbudget _]]]]]]]]]]].
  exists n, r, w'.
  split; [exact Hrun|]. split; [exact Htr|].
  split; [exact Hn|].
  split; [exact Hno|]. split; [|split; [|split; [|split]]].
  - destruct Hcases as [Hto | [last [Hlast [Hans Hr]]]]; [left; exact Hto|].
    right. exists last. split; [exact Hlast|]. split; [exact Hans|].
    rewrite Hr. unfold verdict, datagramSize.
    destruct (rd_err (reply_at w last)); [reflexivity|].
    destruct (rd_n (reply_at w last) =? 48); reflexivity.
  - intros Hok. destruct Hcases as [[Hr _] | [last [Hlast [_ Hr]]]].
    + rewrite Hr in Hok. discriminate Hok.
    + exists last. split; [exact Hlast|]. rewrite Hok in Hr.
      unfold verdict, datagramSize in Hr.
      destruct (rd_err (reply_at w last)); [discriminate Hr|].
      destruct (rd_n (reply_at w last) =? 48) eqn:H48; [|discriminate Hr].
      split; [reflexivity|]. apply Z.eqb_eq. exact H48.
  - exact Hcalls.
  - rewrite Htime. change pollInterval with (5 * Millisecond). lia.
  - exact Hbudget.
Qed.

(** With no datagram ever arriving, [read] gives up after 401 polls. *)
Lemma read_times_out_when_silent :
  exists w',
    read (boot env_down (New no_config)) = Ret (Some ErrReadNoResponse) w' /\
    reads (trace w') = 401%nat /\
    nanotime w' = 2005 * Millisecond.
Proof. eexists. split; [vm_compute; reflexivity|]. split; reflexivity. Qed.

End ReadLoop.

(** ** Sync *)

Section Quiet.

Import GoTime WiFi NTPClient.

Lemma displays_app (t1 t2 : list event) :
  displays (t1 ++ t2) = displays t1 ++ displays t2.
Proof. unfold displays. apply flat_map_app. Qed.

Lemma view_with_event (e : event) (w : World) :
  displays [e] = [] -> view (with_event e w) = view w.
Proof.
  intros H. unfold view, with_event. cbn [env host trace shared timeOffset].
  rewrite displays_app, H, app_nil_r. reflexivity.
Qed.

Lemma quiet_ret {A} (a : A) : quiet (ret a).
Proof. intros w a' w' H. apply Ret_inj in H as [_ <-]. reflexivity. Qed.

Lemma quiet_panic {A} : quiet (@panic A).
Proof. intros w a w' H. discriminate H. Qed.

Lemma quiet_spin {A} : quiet (@spin A).
Proof. intros w a w' H. discriminate H. Qed.

Lemma quiet_bind {A B} (c : M A) (k : A -> M B) :
  quiet c -> (forall a, quiet (k a)) -> quiet (bind c k).
Proof.
  intros Hc Hk w b w' H. unfold bind in H.
  destruct (c w) as [a w1 | w1 | w1] eqn:Hcw; try discriminate H.
  rewrite (Hk a w1 b w' H). exact (Hc w a w1 Hcw).
Qed.

Lemma quiet_world : quiet world.
Proof. intros w a w' H. apply Ret_inj in H as [_ <-]. reflexivity. Qed.

Lemma quiet_Now : quiet Now.
Proof. intros w a w' H. apply Ret_inj in H as [_ <-]. reflexivity. Qed.

Lemma quiet_update (f : World -> World) :
  (forall w, view (f w) = view w) -> quiet (update f).
Proof. intros Hf w a w' H. apply Ret_inj in H as [_ <-]. apply Hf. Qed.

Lemma quiet_driver (e : event) : displays [e] = [] -> quiet (driver e).
Proof.
  intros He w a w' H. apply Ret_inj in H as [_ <-].
  rewrite <- (view_with_event e w He). reflexivity.
Qed.

Lemma quiet_Sleep (d : Duration) : quiet (Sleep d).
Proof.
  apply quiet_update. intros w.
  rewrite <- (view_with_event (EvSleep d) w eq_refl). reflexivity.
Qed.

Lemma quiet_set_dgram (f : datagram -> datagram) :
  (forall d, List.length (f d) = List.length d) ->
  quiet (update (with_host (fun n => set_dgram (f (dgram n)) n))).
Proof.
  intros Hf. apply quiet_update. intros w. unfold view.
  cbn [env host with_host dgram set_dgram config locale lastPost lastSync
       trace shared timeOffset].
  rewrite Hf. reflexivity.
Qed.

Lemma reset_length (d : datagram) : List.length (reset d) = List.length d.
Proof. unfold reset. apply length_map. Qed.

Lemma store_length (i : nat) (v : byte) :
  forall d d', store i v d = Some d' -> List.length d' = List.length d.
Proof.
  induction i as [|i IH]; intros [|b d] d' H; simpl in H;
    try discriminate H.
  - injection H as <-. reflexivity.
  - destruct (store i v d) as [d1|] eqn:Hs; [|discriminate H].
    injection H as <-. simpl. f_equal. apply IH. exact Hs.
Qed.

Ltac quiet_step :=
  first
    [ apply quiet_ret
    | apply quiet_panic
    | apply quiet_spin
    | apply quiet_world
    | apply quiet_Now
    | apply quiet_Sleep
    | apply quiet_set_dgram; first [apply reset_length | apply overlay_length]
    | apply quiet_driver; reflexivity
    | apply quiet_update; intros ?; reflexivity
    | apply quiet_bind; [|intros ?]
    | match goal with
      | |- quiet (match ?x with _ => _ end) => destruct x
      | |- quiet (if ?x then _ else _) => destruct x
      | |- quiet (let '(_, _) := ?x in _) => destruct x
      end ].

Ltac quiet_auto := repeat quiet_step.

Lemma quiet_Since (t : Time) : quiet (Since t).
Proof. unfold Since. quiet_auto. Qed.

Lemma quiet_isConnected : quiet isConnected.
Proof. unfold isConnected. quiet_auto. Qed.

Lemma quiet_hasIP : quiet hasIP.
Proof. unfold hasIP. quiet_auto. Qed.

Lemma quiet_GetHostByName (name : string) : quiet (GetHostByName name).
Proof.
  unfold GetHostByName.
  apply quiet_bind; [apply quiet_isConnected|intros linked].
  destruct (negb linked); [quiet_auto|].
  apply quiet_bind; [apply quiet_hasIP|intros leased].
  quiet_auto.
Qed.

Lemma quiet_DialUDP (lport : Z) (rhost : string) (rport : Z) :
  quiet (DialUDP lport rhost rport).
Proof. unfold DialUDP. quiet_auto. Qed.

Lemma quiet_Close : quiet Close.
Proof. unfold Close. quiet_auto. Qed.

Lemma quiet_poke (i : nat) (v : byte) : quiet (poke i v).
Proof.
  intros w a w' H. unfold poke, bind, world in H.
  destruct (store i v (dgram (host w))) as [d|] eqn:Hs; [|discriminate H].
  apply Ret_inj in H as [_ <-]. unfold view.
  cbn [env host with_host dgram set_dgram config locale lastPost lastSync
       trace shared timeOffset].
  rewrite (store_length i v _ _ Hs). reflexivity.
Qed.

Lemma quiet_peek (i : nat) : quiet (peek i).
Proof. unfold peek. quiet_auto. Qed.

Lemma quiet_write : quiet write.
Proof.
  unfold write.
  repeat first
    [ apply quiet_poke | apply quiet_peek
    | apply quiet_bind; [|intros ?] | quiet_step ].
Qed.

Lemma quiet_readLoop (fuel : nat) (start : Time) :
  quiet (readLoop fuel start).
Proof.
  induction fuel as [|fuel IH]; simpl.
  - apply quiet_bind; [apply quiet_Since|intros el]. quiet_auto.
  - apply quiet_bind; [apply quiet_Since|intros el].
    destruct (el <=? timeout); [|quiet_auto].
    apply quiet_bind; [apply quiet_Sleep|intros _].
    apply quiet_bind; [apply quiet_driver; reflexivity|intros k].
    apply quiet_bind; [apply quiet_world|intros w].
    apply quiet_bind;
      [apply quiet_set_dgram; apply overlay_length|intros _].
    destruct (rd_err (conn_read (env w) k)); [apply quiet_ret|].
    destruct (rd_n (conn_read (env w) k) =? 0); [exact IH|].
    quiet_auto.
Qed.

Lemma quiet_read : quiet read.
Proof.
  unfold read.
  apply quiet_bind; [apply quiet_set_dgram; apply reset_length|intros _].
  apply quiet_bind; [apply quiet_Now|intros start].
  apply quiet_readLoop.
Qed.

Lemma quiet_request : quiet request.
Proof.
  unfold request.
  apply quiet_bind; [apply quiet_write|intros e].
  destruct e; [apply quiet_ret|].
  apply quiet_bind; [apply quiet_read|intros e].
  destruct e; [apply quiet_ret|].
  quiet_auto.
Qed.

End Quiet.

Section SyncSteps.

Import GoTime WiFi NTPClient.

Lemma view_kept (w w' : World) : view w' = view w -> kept w' = kept w.
Proof.
  unfold view, kept. intros H.
  injection H as H1 H2 H3 H4 H5 H6 H7 H8 H9.
  rewrite H1, H2, H3, H4, H5, H6, H9. reflexivity.
Qed.

Lemma view_length (w w' : World) :
  view w' = view w ->
  List.length (dgram (host w')) = List.length (dgram (host w)).
Proof. unfold view. intros H. injection H as _ _ _ _ _ _ _ _ H. exact H. Qed.

Lemma Get_run (w : World) :
  Get w
  = Ret (ModelState.changed (shared w), ModelState.data (shared w))
      (after_Get w).
Proof. reflexivity. Qed.

Lemma returns_ret {A} (a : A) : returns (ret a).
Proof. intros w. exists a, w. reflexivity. Qed.

Lemma returns_bind {A B} (c : M A) (k : A -> M B) :
  returns c -> (forall a, returns (k a)) -> returns (bind c k).
Proof.
  intros Hc Hk w. destruct (Hc w) as [a [w1 Hcw]].
  destruct (Hk a w1) as [b [w2 Hkw]].
  exists b, w2. rewrite (bind_ret _ _ _ _ _ Hcw). exact Hkw.
Qed.

Lemma returns_world : returns world.
Proof. intros w. exists w, w. reflexivity. Qed.

Lemma returns_update (f : World -> World) : returns (update f).
Proof. intros w. exists tt, (f w). reflexivity. Qed.

Lemma returns_driver (e : event) : returns (driver e).
Proof. intros w. eexists. eexists. reflexivity. Qed.

Ltac returns_step :=
  first
    [ apply returns_ret
    | apply returns_world
    | apply returns_update
    | apply returns_driver
    | apply returns_bind; [|intros ?]
    | match goal with
      | |- returns (match ?x with _ => _ end) => destruct x
      | |- returns (if ?x then _ else _) => destruct x
      | |- returns (let '(_, _) := ?x in _) => destruct x
      end ].

Lemma GetHostByName_returns (name : string) (w : World) :
  exists r w', GetHostByName name w = Ret r w'.
Proof.
  revert w. change (returns (GetHostByName name)).
  unfold GetHostByName, isConnected, hasIP. repeat returns_step.
Qed.

Lemma DialUDP_returns (lport : Z) (rhost : string) (rport : Z) (w : World) :
  exists r w', DialUDP lport rhost rport w = Ret r w'.
Proof. eexists. eexists. reflexivity. Qed.

Lemma read_returns (w : World) : exists r w', read w = Ret r w'.
Proof.
  destruct (read_spec w) as [n [r [w' [Hrun _]]]].
  exists r, w'. exact Hrun.
Qed.

Lemma request_returns (w : World) :
  List.length (dgram (host w)) = 48%nat ->
  exists r w', request w = Ret r w'.
Proof.
  intros Hlen. unfold request.
  rewrite (bind_ret _ _ _ _ _ (write_sends w Hlen)).
  destruct (conn_write (env w) (calls w) request_bytes) as [e|];
    [eexists; eexists; reflexivity|].
  match goal with
  | |- context [bind read _ ?w1] =>
      destruct (read_returns w1) as [r [w2 Hread]];
      pose proof (quiet_read _ _ _ Hread) as Hview;
      rewrite (bind_ret _ _ _ _ _ Hread)
  end.
  destruct r as [e|]; [eexists; eexists; reflexivity|].
  apply view_length in Hview.
  cbn [dgram host with_call with_elapsed with_event with_host set_dgram]
    in Hview.
  change (List.length request_bytes) with 48%nat in Hview.
  unfold bind, world.
  rewrite parse_value by lia.
  eexists. eexists. reflexivity.
Qed.

Lemma server_count (n : NTP) :
  wellformed n ->
  0 < uint (Z.of_nat (List.length (Server (config n))))
  <= Z.of_nat (List.length (Server (config n))).
Proof.
  intros [Hsrv [Hlt _]]. unfold uint, wrapU.
  rewrite Z.mod_small by lia.
  destruct (Server (config n)); [contradiction|]. simpl List.length. lia.
Qed.

Lemma New_wellformed (c : Config) :
  Z.of_nat (List.length (Server c)) < 2 ^ 32 -> wellformed (New c).
Proof.
  intros Hlt. unfold wellformed, New. cbn [config dgram Server].
  destruct (Server c) as [|name rest].
  - split; [discriminate|]. split; reflexivity.
  - split; [discriminate|]. split; [exact Hlt|reflexivity].
Qed.

(** The last part of a fetch that succeeded: close, set the clock, note the
    time. *)
Lemma commit_kept (curr : Time) (w : World) :
  exists w1,
    (Close ;;
     d <- Since curr ;;
     AdjustTimeOffset (i64 (-1 * d)) ;;
     t <- Now ;;
     update (with_host (set_lastSync t)) ;;
     ret None) w = Ret (@None error) w1 /\
    kept w1 = kept w.
Proof.
  eexists. split; [reflexivity|].
  unfold kept.
  cbn [env host trace shared config locale lastPost dgram with_host
       with_call with_elapsed with_event with_timeOffset set_lastSync].
  rewrite !displays_app. cbn [displays flat_map app].
  rewrite !app_nil_r. reflexivity.
Qed.

(** The fetch step of a well-formed client returns.  It has cleared the
    flag, and left the model, the renderer and the time of the last publish
    alone; when it returns an error it has left the clock and the time of the
    last fetch alone too. *)
Lemma fetch_spec (w : World) :
  wellformed (host w) ->
  exists r w1,
    fetch w = Ret r w1 /\
    kept w1 = kept (after_Get w) /\
    (r <> None -> view w1 = view (after_Get w)).
Proof.
  intros Hwf. pose proof (server_count _ Hwf) as Hcount.
  destruct Hwf as [Hsrv [Hlt Hlen]].
  unfold fetch.
  rewrite (bind_ret _ _ _ _ _ (Get_run w)). cbv beta iota.
  rewrite (bind_ret world _ (after_Get w) (after_Get w) (after_Get w) eq_refl).
  cbv beta zeta.
  change (host (after_Get w)) with (host w).
  set (servers := Server (config (host w))) in *.
  set (len := uint (Z.of_nat (List.length servers))) in *.
  destruct (len =? 0) eqn:Hzero; [apply Z.eqb_eq in Hzero; lia|].
  pose proof (Z.mod_pos_bound (mRetry (ModelState.data (shared w))) len
                ltac:(lia)) as Hidx.
  destruct (nth_error servers
              (Z.to_nat (mRetry (ModelState.data (shared w)) mod len)))
    as [name|] eqn:Hname;
    [|apply nth_error_None in Hname; lia].
  destruct (GetHostByName_returns name (after_Get w)) as [[ip err] [w2 Hres]].
  pose proof (quiet_GetHostByName _ _ _ _ Hres) as Hv2.
  rewrite (bind_ret _ _ _ _ _ Hres). cbv beta iota.
  destruct err as [e|].
  { exists (Some e), w2. split; [reflexivity|].
    split; [apply view_kept; exact Hv2|intros _; exact Hv2]. }
  destruct (DialUDP_returns (LocalPort (config (host w))) ip
              (RemotePort (config (host w))) w2) as [err [w3 Hdial]].
  pose proof (quiet_DialUDP _ _ _ _ _ _ Hdial) as Hv3.
  rewrite (bind_ret _ _ _ _ _ Hdial).
  destruct err as [e|].
  { exists (Some e), w3. split; [reflexivity|].
    rewrite Hv2 in Hv3.
    split; [apply view_kept; exact Hv3|intros _; exact Hv3]. }
  rewrite Hv2 in Hv3.
  destruct (request_returns w3) as [[curr err] [w4 Hreq]].
  { rewrite (view_length _ _ Hv3). exact Hlen. }
  pose proof (quiet_request _ _ _ Hreq) as Hv4. rewrite Hv3 in Hv4.
  rewrite (bind_ret _ _ _ _ _ Hreq). cbv beta iota.
  destruct err as [e|].
  { exists (Some e), w4. split; [reflexivity|].
    split; [apply view_kept; exact Hv4|intros _; exact Hv4]. }
  destruct (commit_kept curr w4) as [w5 [Hcommit Hk5]].
  exists None, w5. split; [exact Hcommit|].
  split; [|intros H; contradiction].
  rewrite Hk5. apply view_kept. exact Hv4.
Qed.

Lemma publish_run (w : World) : publish w = Ret tt (published w).
Proof. reflexivity. Qed.

(** [Sync] when the fetch is due, from what the fetch step gives. *)
Lemma Sync_run (w w1 : World) (r : option error) :
  fetch_due w = true ->
  fetch w = Ret r w1 ->
  Sync w =
  match r with
  | Some e => Ret (Some e) w1
  | None => Ret None (if publish_due w then published w1 else w1)
  end.
Proof.
  unfold fetch_due, publish_due, NTP_isExpired. cbn [fst snd].
  intros Hdue Hfetch. unfold Sync.
  rewrite (bind_ret Now _ w w (clock w) eq_refl).
  rewrite (bind_ret world _ w w w eq_refl).
  unfold NTP_isExpired. cbv beta iota. rewrite Hdue.
  rewrite (bind_ret _ _ _ _ _ Hfetch).
  destruct r as [e|]; [reflexivity|].
  destruct (isExpired (clock w) (lastPost (host w)) (Precision (config (host w)))).
  - rewrite (bind_ret _ _ _ _ _ (publish_run w1)). reflexivity.
  - reflexivity.
Qed.

(** The fetch step does not look at the flag it clears. *)
Lemma fetch_forgets_flag (b : bool) (w : World) :
  fetch (flagged b w) = fetch (flagged false w).
Proof.
  unfold fetch.
  rewrite (bind_ret _ _ _ _ _ (Get_run (flagged b w))).
  rewrite (bind_ret _ _ _ _ _ (Get_run (flagged false w))).
  reflexivity.
Qed.

Lemma kept_parts (w w' : World) :
  kept w' = kept w ->
  displays (trace w') = displays (trace w) /\
  shared w' = shared w /\
  lastPost (host w') = lastPost (host w).
Proof.
  unfold kept. intros H. injection H as _ _ _ H4 H5 H6 _.
  repeat split; assumption.
Qed.

Lemma view_parts (w w' : World) :
  view w' = view w ->
  lastSync (host w') = lastSync (host w) /\ timeOffset w' = timeOffset w.
Proof.
  unfold view. intros H. injection H as _ _ _ _ _ _ H7 H8 _.
  split; assumption.
Qed.

(** C2, as the code has it.  When both steps are due and the fetch step
    fails with [e], at whichever of its calls, [Sync] returns [e] there and
    then: the publish step does not run.  The model holds what it held, with
    no write flagged, and neither time stamp of the client nor the clock has
    moved. *)
Theorem Sync_aborts_on_fetch_failure :
  forall (w w1 : World) (e : error),
    wellformed (host w) ->
    fetch_due w = true ->
    publish_due w = true ->
    fetch w = Ret (Some e) w1 ->
    Sync w = Ret (Some e) w1 /\
    ModelState.data (shared w1) = ModelState.data (shared w) /\
    ModelState.changed (shared w1) = false /\
    lastPost (host w1) = lastPost (host w) /\
    lastSync (host w1) = lastSync (host w) /\
    timeOffset w1 = timeOffset w.
Proof.
  intros w w1 e Hwf Hfetch_due Hpublish_due Hfail.
  split; [exact (Sync_run w w1 (Some e) Hfetch_due Hfail)|].
  destruct (fetch_spec w Hwf) as [r [w1' [Hrun [Hkept Hview]]]].
  rewrite Hfail in Hrun. apply Ret_inj in Hrun as [<- <-].
  destruct (kept_parts _ _ Hkept) as [_ [Hshared Hpost]].
  destruct (view_parts _ _ (Hview ltac:(discriminate))) as [Hsync Hoff].
  rewrite Hshared. repeat split; assumption.
Qed.

(** With the link down the host name cannot be resolved. *)
Lemma Sync_aborts_on_fetch_failure_witness :
  exists w1,
    Sync (boot env_down (New no_config)) = Ret (Some ErrNotConnected) w1 /\
    lastPost (host w1) = zero /\
    mTime (ModelState.data (shared w1)) = zero.
Proof.
  assert (Hwf : wellformed (host (boot env_down (New no_config)))).
  { split; [discriminate|]. split; reflexivity. }
  eexists.
  destruct (Sync_aborts_on_fetch_failure
              (boot env_down (New no_config)) _ ErrNotConnected
              Hwf eq_refl eq_refl eq_refl) as [Hrun [Hdata [_ [Hpost _]]]].
  split; [exact Hrun|]. split; [rewrite Hpost|rewrite Hdata]; reflexivity.
Defined.

(** C2 as stated fails: at boot both steps are due; with the link down the
    fetch fails, and [Sync] returns with nothing published: the time of the
    last publish is still unset and the model untouched. *)
Lemma Sync_fetch_failure_blocks_publish :
  fetch_due (boot env_down (New no_config)) = true /\
  publish_due (boot env_down (New no_config)) = true /\
  exists w1,
    Sync (boot env_down (New no_config)) = Ret (Some ErrNotConnected) w1 /\
    lastPost (host w1) = zero /\
    mTime (ModelState.data (shared w1)) = zero /\
    ModelState.changed (shared w1) = false.
Proof.
  split; [reflexivity|]. split; [reflexivity|].
  eexists. split; [reflexivity|]. repeat split.
Qed.

(** The same at each of the other calls of the fetch step: the socket that
    cannot be opened, the send that fails, the read that fails, and the
    reply of the wrong size. *)
Lemma Sync_fails_where_fetch_fails :
  (exists w1,
     Sync (boot (env_linked (Some (ErrDriver 7)) None (mkReply 0 None []))
             (New no_config)) = Ret (Some (ErrDriver 7)) w1 /\
     lastPost (host w1) = zero /\
     mTime (ModelState.data (shared w1)) = zero) /\
  (exists w1,
     Sync (boot (env_linked None (Some (ErrDriver 8)) (mkReply 0 None []))
             (New no_config)) = Ret (Some (ErrDriver 8)) w1 /\
     lastPost (host w1) = zero /\
     mTime (ModelState.data (shared w1)) = zero) /\
  (exists w1,
     Sync (boot (env_linked None None (mkReply 0 (Some (ErrDriver 9)) []))
             (New no_config)) = Ret (Some (ErrDriver 9)) w1 /\
     lastPost (host w1) = zero /\
     mTime (ModelState.data (shared w1)) = zero) /\
  (exists w1,
     Sync (boot (env_linked None None (mkReply 4 None [x01; x02; x03; x04]))
             (New no_config)) = Ret (Some ErrReadDatagramSize) w1 /\
     lastPost (host w1) = zero /\
     mTime (ModelState.data (shared w1)) = zero).
Proof.
  repeat split;
    (eexists; split; [vm_compute; reflexivity|split; reflexivity]).
Qed.

(** C6, as the code has it.  When the fetch is due, [Sync] returns the same
    and leaves the same world whether or not a change was flagged before:
    its [Get] clears the flag, and nothing is shown to the renderer.  After
    it the next read returns [changed = true] exactly when [Sync] went on to
    publish; when it returned an error, or the publish was not due, the read
    returns [changed = false] and the model is as written before the
    call. *)
Theorem Sync_read_clears_change_flag :
  forall w : World,
    wellformed (host w) ->
    fetch_due w = true ->
    exists (r : option error) (w' : World),
      Sync (flagged true w) = Ret r w' /\
      Sync (flagged false w) = Ret r w' /\
      displays (trace w') = displays (trace w) /\
      fst (fst (ModelState.Get (shared w'))) = is_nil r && publish_due w /\
      (is_nil r && publish_due w = false ->
       ModelState.data (shared w') = ModelState.data (shared w)).
Proof.
  intros w Hwf Hdue.
  destruct (fetch_spec (flagged false w) Hwf) as [r [w1 [Hrun [Hkept _]]]].
  destruct (kept_parts _ _ Hkept) as [Hdisp [Hshared _]].
  assert (Hrun' : fetch (flagged true w) = Ret r w1)
    by (rewrite fetch_forgets_flag; exact Hrun).
  pose proof (Sync_run (flagged true w) w1 r Hdue Hrun') as Htrue.
  pose proof (Sync_run (flagged false w) w1 r Hdue Hrun) as Hfalse.
  change (publish_due (flagged true w)) with (publish_due w) in Htrue.
  change (publish_due (flagged false w)) with (publish_due w) in Hfalse.
  destruct r as [e|].
  - exists (Some e), w1. split; [exact Htrue|]. split; [exact Hfalse|].
    split; [exact Hdisp|]. rewrite Hshared. split; [reflexivity|].
    intros _. reflexivity.
  - exists None, (if publish_due w then published w1 else w1).
    split; [exact Htrue|]. split; [exact Hfalse|].
    destruct (publish_due w).
    + split; [exact Hdisp|]. split; [reflexivity|].
      intros H. discriminate H.
    + split; [exact Hdisp|]. rewrite Hshared. split; [reflexivity|].
      intros _. reflexivity.
Qed.

(** A change flagged at boot, the link down: the flag is gone. *)
Lemma Sync_read_clears_change_flag_witness :
  exists w',
    Sync (flagged true (boot env_down (New no_config)))
    = Ret (Some ErrNotConnected) w' /\
    displays (trace w') = [] /\
    fst (fst (ModelState.Get (shared w'))) = false.
Proof.
  assert (Hwf : wellformed (host (boot env_down (New no_config)))).
  { split; [discriminate|]. split; reflexivity. }
  destruct (Sync_read_clears_change_flag
              (boot env_down (New no_config)) Hwf eq_refl)
    as [r [w' [Hrun [_ [Hdisp [Hflag _]]]]]].
  assert (Hr : r = Some ErrNotConnected).
  { assert (Hc : Sync (flagged true (boot env_down (New no_config)))
                 = Ret (Some ErrNotConnected)
                     (with_call
                        (with_elapsed 0
                           (with_event EvGetConnectionStatus
                              (after_Get
                                 (flagged true
                                    (boot env_down (New no_config)))))))).
    { reflexivity. }
    rewrite Hc in Hrun. apply Ret_inj in Hrun as [Hr _].
    symmetry. exact Hr. }
  subst r. exists w'. split; [exact Hrun|]. split; [exact Hdisp|].
  exact Hflag.
Defined.

(** C6 as stated fails: with the link up and a reply received, a [Sync]
    whose fetch is due goes on to publish, and the read after it returns
    [changed = true]. *)
Lemma Sync_that_publishes_flags_again :
  fetch_due (flagged true (boot (env_up sample_reply) (New no_config)))
  = true /\
  exists w',
    Sync (flagged true (boot (env_up sample_reply) (New no_config)))
    = Ret None w' /\
    fst (fst (ModelState.Get (shared w'))) = true.
Proof.
  split; [reflexivity|].
  eexists. split; [vm_compute; reflexivity|]. reflexivity.
Qed.

End SyncSteps.

(** ** The connecting state *)

Section Connecting.

Import GoTime Run.

Variable Network : list AP.
Variable connect : AP -> M (option error).
Variable sync : M (option error).

(** [connect] changes no status: [Connect] writes the access point and the
    address only. *)
Hypothesis connect_keeps_status :
  forall ap w r w1, connect ap w = Ret r w1 -> status_of w1 = status_of w.

Lemma connectEach_attempted (aps : list AP) :
  forall w w',
    connectEach connect aps w = Ret tt w' ->
    exists rs, Attempted connect aps w rs w'.
Proof.
  induction aps as [|ap rest IH]; intros w w' Hrun.
  - apply Ret_inj in Hrun as [_ <-]. exists []. constructor.
  - cbn [connectEach] in Hrun. unfold bind at 1 in Hrun.
    destruct (connect ap w) as [[e|] w1 | w1 | w1] eqn:Hc;
      try discriminate Hrun.
    + change (connectEach connect rest
                (with_event (EvPrintln (SSID ap ++ ": " ++ Error e)) w1)
              = Ret tt w') in Hrun.
      destruct (IH _ _ Hrun) as [rs Hrs].
      exists (Some e :: rs).
      eapply Attempted_fail; [exact Hc|reflexivity|exact Hrs].
    + change (connectEach connect rest
                (with_shared
                   (ModelState.Set_ (set_Status StatusUnsynchronized)) w1)
              = Ret tt w') in Hrun.
      destruct (IH _ _ Hrun) as [rs Hrs].
      exists (None :: rs).
      eapply Attempted_ok; [exact Hc|reflexivity|exact Hrs].
Qed.

Lemma Attempted_length (aps : list AP) (w w' : World)
  (rs : list (option error)) :
  Attempted connect aps w rs w' -> List.length rs = List.length aps.
Proof. induction 1; simpl; congruence. Qed.

Lemma Attempted_status (aps : list AP) (w w' : World)
  (rs : list (option error)) :
  Attempted connect aps w rs w' ->
  status_of w' =
  if existsb is_nil rs then StatusUnsynchronized else status_of w.
Proof.
  induction 1 as [w | ap rest w e w1 w2 rs w' Hc Hp _ IH
                    | ap rest w w1 w2 rs w' Hc Hp _ IH].
  - reflexivity.
  - rewrite IH. simpl.
    apply Ret_inj in Hp as [_ <-].
    change (status_of (with_event (EvPrintln (SSID ap ++ ": " ++ Error e)) w1))
      with (status_of w1).
    rewrite (connect_keeps_status _ _ _ _ Hc). reflexivity.
  - rewrite IH. simpl.
    apply Ret_inj in Hp as [_ <-].
    destruct (existsb is_nil rs); reflexivity.
Qed.

Lemma Attempted_runs (aps : list AP) (w w' : World)
  (rs : list (option error)) :
  Attempted connect aps w rs w' -> connectEach connect aps w = Ret tt w'.
Proof.
  induction 1 as [w | ap rest w e w1 w2 rs w' Hc Hp _ IH
                    | ap rest w w1 w2 rs w' Hc Hp _ IH].
  - reflexivity.
  - cbn [connectEach]. rewrite (bind_ret _ _ _ _ _ Hc).
    rewrite (bind_ret _ _ _ _ _ Hp). exact IH.
  - cbn [connectEach]. rewrite (bind_ret _ _ _ _ _ Hc).
    rewrite (bind_ret _ _ _ _ _ Hp). exact IH.
Qed.

Lemma connectEach_returns (aps : list AP) :
  (forall ap, returns (connect ap)) -> returns (connectEach connect aps).
Proof.
  intros Hret. induction aps as [|ap rest IH]; simpl.
  - apply returns_ret.
  - apply returns_bind; [apply Hret|intros r].
    apply returns_bind; [|intros _; exact IH].
    destruct r; [apply returns_update|apply returns_update].
Qed.

Lemma tick_connecting (w : World) :
  ModelState.changed (shared w) = true ->
  status_of w = StatusConnecting ->
  tick Network connect sync w =
  (connectEach connect Network ;; Sleep (10 * Millisecond))
    (with_event (EvDisplay (ModelState.data (shared w))) (after_Get w)).
Proof.
  unfold status_of. intros Hc Hs. unfold tick.
  rewrite (bind_ret _ _ _ _ _ (Get_run w)). cbv beta iota.
  rewrite Hc, Hs. reflexivity.
Qed.

(** C3, as the code has it.  In state Connecting on a change tick the loop
    goes through all the candidates.  The tick returns exactly when every
    candidate, in the configured order, has had its connect return, each
    from the world the one before left, also after one that succeeded; so
    it returns whenever every connect does.  The status then is
    Unsynchronized if some connect succeeded and Connecting if every one
    failed. *)
Theorem connecting_tries_every_candidate :
  forall w : World,
    ModelState.changed (shared w) = true ->
    status_of w = StatusConnecting ->
    (forall w',
       tick Network connect sync w = Ret tt w' <->
       exists (rs : list (option error)) (w1 : World),
         Attempted connect Network
           (with_event (EvDisplay (ModelState.data (shared w))) (after_Get w))
           rs w1 /\
         Sleep (10 * Millisecond) w1 = Ret tt w') /\
    (forall (rs : list (option error)) (w1 w' : World),
       Attempted connect Network
         (with_event (EvDisplay (ModelState.data (shared w))) (after_Get w))
         rs w1 ->
       Sleep (10 * Millisecond) w1 = Ret tt w' ->
       List.length rs = List.length Network /\
       status_of w' =
       (if existsb is_nil rs then StatusUnsynchronized
        else StatusConnecting)) /\
    ((forall ap, returns (connect ap)) ->
     exists w', tick Network connect sync w = Ret tt w').
Proof.
  intros w Hchanged Hstatus.
  rewrite (tick_connecting w Hchanged Hstatus).
  set (w0 := with_event (EvDisplay (ModelState.data (shared w))) (after_Get w)).
  split; [|split].
  - intros w'. split.
    + intros Hrun. unfold bind in Hrun.
      destruct (connectEach connect Network w0) as [[] w1 | w1 | w1] eqn:Heach;
        try discriminate Hrun.
      destruct (connectEach_attempted _ _ _ Heach) as [rs Hrs].
      exists rs, w1. split; [exact Hrs|exact Hrun].
    + intros [rs [w1 [Hrs Hsleep]]].
      rewrite (bind_ret _ _ _ _ _ (Attempted_runs _ _ _ _ Hrs)).
      exact Hsleep.
  - intros rs w1 w' Hrs Hsleep.
    split; [exact (Attempted_length _ _ _ _ Hrs)|].
    apply Ret_inj in Hsleep as [_ <-].
    change (status_of w1 =
            (if existsb is_nil rs then StatusUnsynchronized
             else StatusConnecting)).
    rewrite (Attempted_status _ _ _ _ Hrs).
    change (status_of w0) with (status_of w). rewrite Hstatus. reflexivity.
  - intros Hret.
    destruct (connectEach_returns Network Hret w0) as [[] [w1 Heach]].
    eexists. rewrite (bind_ret _ _ _ _ _ Heach). reflexivity.
Qed.

End Connecting.

Section ConnectingRuns.

Import GoTime Run.

Lemma quiet_waitLoop (fuel : nat) (ready : M bool) :
  quiet ready ->
  forall (ok : bool) (attempt : Z) (t : Duration),
    quiet (WiFi.waitLoop fuel ready ok attempt t).
Proof.
  intros Hready. induction fuel as [|fuel IH]; intros ok attempt t;
    cbn [WiFi.waitLoop];
    destruct (negb ok && (attempt <? WiFi.maxAttempts));
    try apply quiet_ret; [apply quiet_spin|].
  apply quiet_bind; [exact Hready|intros ok'].
  destruct (negb ok'); [|apply IH].
  apply quiet_bind; [apply quiet_Sleep|intros _]. apply IH.
Qed.

Lemma quiet_status (w w' : World) :
  view w' = view w -> status_of w' = status_of w.
Proof.
  intros H. apply view_kept, kept_parts in H as [_ [H _]].
  unfold status_of. rewrite H. reflexivity.
Qed.

(** [Connect] writes the access point and the address, not the status. *)
Lemma Connect_keeps_status (fuel : nat) (ap : AP) (w : World)
  (r : option error) (w1 : World) :
  WiFi.Connect fuel ap w = Ret r w1 -> status_of w1 = status_of w.
Proof.
  unfold WiFi.Connect, WiFi.waitWithTimeout. intros H.
  rewrite (bind_ret (Sleep _) _ _ _ _ eq_refl) in H.
  rewrite (bind_ret (driver _) _ _ _ _ eq_refl) in H.
  unfold bind at 1 in H.
  match type of H with
  | context [WiFi.waitLoop fuel WiFi.isConnected false 0 WiFi.baseTimeout ?w0] =>
      destruct (WiFi.waitLoop fuel WiFi.isConnected false 0
                  WiFi.baseTimeout w0) as [linked w2 | w2 | w2] eqn:Hlink;
      try discriminate H;
      apply (quiet_waitLoop fuel _ quiet_isConnected) in Hlink;
      apply quiet_status in Hlink;
      change (status_of w0) with (status_of w) in Hlink
  end.
  destruct (negb linked).
  { apply Ret_inj in H as [_ <-]. exact Hlink. }
  unfold bind at 1 in H.
  destruct (WiFi.waitLoop fuel WiFi.hasIP false 0 WiFi.baseTimeout w2)
    as [leased w3 | w3 | w3] eqn:Hlease; try discriminate H.
  apply (quiet_waitLoop fuel _ quiet_hasIP) in Hlease.
  apply quiet_status in Hlease.
  destruct (negb leased).
  { apply Ret_inj in H as [_ <-]. congruence. }
  rewrite (bind_ret world _ w3 w3 w3 eq_refl) in H.
  rewrite (bind_ret (Set_ _) _ _ _ _ eq_refl) in H.
  apply Ret_inj in H as [_ <-].
  change (status_of w3 = status_of w). congruence.
Qed.

(** The program with two candidates, the link up: both connects succeed,
    one after the other. *)
Lemma connecting_tries_every_candidate_witness :
  exists w',
    tick_main [mkAP "home" "h"; mkAP "guest" "g"] 1
      (entered StatusConnecting
         (boot (env_up sample_reply) (NTPClient.New no_config)))
    = Ret tt w' /\
    status_of w' = StatusUnsynchronized.
Proof.
  destruct (connecting_tries_every_candidate
              [mkAP "home" "h"; mkAP "guest" "g"] (WiFi.Connect 1)
              NTPClient.Sync (Connect_keeps_status 1)
              (entered StatusConnecting
                 (boot (env_up sample_reply) (NTPClient.New no_config)))
              eq_refl eq_refl) as [Hiff [Hstatus _]].
  assert (Hchain :
            exists w1,
              Attempted (WiFi.Connect 1) [mkAP "home" "h"; mkAP "guest" "g"]
                (with_event
                   (EvDisplay
                      (ModelState.data
                         (shared
                            (entered StatusConnecting
                               (boot (env_up sample_reply)
                                  (NTPClient.New no_config))))))
                   (after_Get
                      (entered StatusConnecting
                         (boot (env_up sample_reply)
                            (NTPClient.New no_config)))))
                [None; None] w1).
  { eexists.
    eapply Attempted_ok; [vm_compute; reflexivity|reflexivity|].
    eapply Attempted_ok; [vm_compute; reflexivity|reflexivity|].
    apply Attempted_nil. }
  destruct Hchain as [w1 Hchain].
  eexists. split.
  - apply Hiff. exists [None; None], w1. split; [exact Hchain|reflexivity].
  - exact (proj2 (Hstatus [None; None] w1 _ Hchain eq_refl)).
Defined.

(** A tick whose first connect fails: the second candidate is tried and the
    status becomes Unsynchronized. *)
Lemma connecting_after_a_failure :
  exists w',
    tick [mkAP "guest" "g"; mkAP "home" "h"] connect_but_guest (ret None)
      (entered StatusConnecting (boot env_down (NTPClient.New no_config)))
    = Ret tt w' /\
    begun (trace w') = [mkAP "guest" "g"; mkAP "home" "h"] /\
    status_of w' = StatusUnsynchronized.
Proof. eexists. split; [reflexivity|]. split; reflexivity. Qed.

(** C3 as stated fails on the program itself: with the link up, the connect
    to the first candidate succeeds, and the connect to the second is begun
    all the same. *)
Lemma connecting_goes_on_after_success :
  exists w1 w',
    WiFi.Connect 1 (mkAP "home" "h")
      (with_event
         (EvDisplay
            (ModelState.data
               (shared
                  (entered StatusConnecting
                     (boot (env_up sample_reply) (NTPClient.New no_config))))))
         (after_Get
            (entered StatusConnecting
               (boot (env_up sample_reply) (NTPClient.New no_config)))))
    = Ret None w1 /\
    tick_main [mkAP "home" "h"; mkAP "guest" "g"] 1
      (entered StatusConnecting
         (boot (env_up sample_reply) (NTPClient.New no_config)))
    = Ret tt w' /\
    begun (trace w') = [mkAP "home" "h"; mkAP "guest" "g"] /\
    status_of w' = StatusUnsynchronized.
Proof.
  eexists. eexists. split; [vm_compute; reflexivity|].
  split; [vm_compute; reflexivity|]. split; reflexivity.
Qed.

End ConnectingRuns.

(** * Further properties *)

(** ** Clipping and filling rectangles *)

Section Rectangles.

Import Display.

Lemma i16_range (z : Z) : int16 (i16 z).
Proof.
  unfold int16, i16, wrapS.
  pose proof (Z.mod_pos_bound (z + 2 ^ (16 - 1)) (2 ^ 16) ltac:(lia)).
  change (2 ^ (16 - 1)) with 32768 in *. change (2 ^ 16) with 65536 in *.
  lia.
Qed.

Lemma i16_id (z : Z) : int16 z -> i16 z = z.
Proof.
  unfold int16, i16, wrapS. intros H.
  change (2 ^ (16 - 1)) with 32768. change (2 ^ 16) with 65536.
  rewrite Z.mod_small; lia.
Qed.

Lemma clipRect_axes (sx sy x y w h : Z) :
  clipRect sx sy x y w h =
  match clipAxis sx x w, clipAxis sy y h with
  | Some (x', w'), Some (y', h') => (true, x', y', w', h')
  | _, _ => (false, 0, 0, 0, 0)
  end.
Proof.
  unfold clipRect, clipAxis.
  destruct (w <? 0); destruct (h <? 0);
    repeat match goal with
           | |- context [if ?c then _ else _] => destruct c
           end; reflexivity.
Qed.

Lemma zrange_bounds (n : nat) :
  forall lo i, List.In i (zrange lo n) -> lo <= i < lo + Z.of_nat n.
Proof.
  induction n as [|n IH]; intros lo i Hin; [destruct Hin|].
  destruct Hin as [<- | Hin]; [lia|].
  apply IH in Hin. lia.
Qed.

Lemma zrange_length (n : nat) (lo : Z) : List.length (zrange lo n) = n.
Proof.
  revert lo. induction n as [|n IH]; intros lo; [reflexivity|].
  simpl. rewrite IH. reflexivity.
Qed.

(** A loop with fuel for its span runs over the span. *)
Lemma for16_run {A} (g : Z -> list A) (fuel : nat) :
  forall (lo hi : Z) (body : Z -> option (list A)),
    - 32768 <= lo -> hi <= 32767 ->
    (Z.to_nat (hi - lo) <= fuel)%nat ->
    (forall i, lo <= i < hi -> body i = Some (g i)) ->
    for16 fuel lo hi body = Some (flat_map g (zrange lo (Z.to_nat (hi - lo)))).
Proof.
  induction fuel as [|fuel IH]; intros lo hi body Hlo Hhi Hfuel Hbody;
    destruct (lo <? hi) eqn:Hlt.
  - apply Z.ltb_lt in Hlt. lia.
  - apply Z.ltb_ge in Hlt. cbn [for16]. rewrite (proj2 (Z.ltb_ge lo hi) Hlt).
    replace (Z.to_nat (hi - lo)) with 0%nat by lia. reflexivity.
  - apply Z.ltb_lt in Hlt. cbn [for16]. rewrite (proj2 (Z.ltb_lt lo hi) Hlt).
    rewrite (Hbody lo) by lia.
    rewrite i16_id by (unfold int16; lia).
    rewrite (IH (lo + 1) hi body) by (try lia; intros i Hi; apply Hbody; lia).
    replace (Z.to_nat (hi - lo)) with (S (Z.to_nat (hi - (lo + 1)))) by lia.
    reflexivity.
  - apply Z.ltb_ge in Hlt. cbn [for16]. rewrite (proj2 (Z.ltb_ge lo hi) Hlt).
    replace (Z.to_nat (hi - lo)) with 0%nat by lia. reflexivity.
Qed.

Lemma flat_map_single {A B} (f : A -> B) (l : list A) :
  flat_map (fun a => [f a]) l = map f l.
Proof. induction l as [|a l IH]; [reflexivity|]. simpl. rewrite IH. reflexivity. Qed.

Lemma raster_no_columns (rows : list Z) : raster [] rows = [].
Proof. induction rows as [|r rows IH]; [reflexivity|exact IH]. Qed.

(** On one axis: the clipped origin is not negative and the end of the
    clipped extent, as the loop computes it, is not beyond the size. *)
Lemma clipAxis_safe (size x w x' w' : Z) :
  int16 size -> int16 x -> int16 w ->
  clipAxis size x w = Some (x', w') ->
  0 <= x' <= 32767 /\ i16 (x' + w') <= size.
Proof.
  unfold clipAxis. intros Hs Hx Hw.
  set (xn := if w <? 0 then i16 (x + w) else x).
  set (wn := if w <? 0 then i16 (- w) else w).
  assert (Hxn : int16 xn) by (unfold xn; destruct (w <? 0); [apply i16_range|exact Hx]).
  replace (if w <? 0 then (i16 (x + w), i16 (- w)) else (x, w))
    with (xn, wn) by (unfold xn, wn; destruct (w <? 0); reflexivity).
  clearbody xn wn. unfold int16 in *.
  destruct (xn <? 0) eqn:Hneg.
  - destruct (i16 (0 + i16 (wn + xn)) >=? size) eqn:Hclip;
      intros H; injection H as <- <-.
    + split; [lia|]. rewrite Z.sub_0_r, (i16_id size) by exact Hs.
      rewrite Z.add_0_l, (i16_id size) by exact Hs. lia.
    + split; [lia|]. rewrite Z.geb_leb in Hclip. apply Z.leb_gt in Hclip. lia.
  - apply Z.ltb_ge in Hneg. destruct (xn >=? size) eqn:Hout; [discriminate|].
    rewrite Z.geb_leb in Hout. apply Z.leb_gt in Hout.
    destruct (i16 (xn + wn) >=? size) eqn:Hclip;
      intros H; injection H as <- <-.
    + split; [lia|].
      rewrite (i16_id (size - xn)) by (unfold int16; lia).
      replace (xn + (size - xn)) with size by lia.
      rewrite (i16_id size) by exact Hs. lia.
    + split; [lia|]. rewrite Z.geb_leb in Hclip. apply Z.leb_gt in Hclip. lia.
Qed.

(** [fillRect] on [int16] arguments, by axis. *)
Lemma fillRect_run (sx sy x y w h : Z) :
  int16 sx -> int16 sy -> int16 x -> int16 y -> int16 w -> int16 h ->
  fillRect sx sy x y w h =
  Some match clipAxis sx x w, clipAxis sy y h with
       | Some (x', w'), Some (y', h') => raster (span x' w') (span y' h')
       | _, _ => []
       end.
Proof.
  intros Hsx Hsy Hx Hy Hw Hh. unfold fillRect. rewrite clipRect_axes.
  destruct (clipAxis sx x w) as [[x' w']|] eqn:Hax; [|reflexivity].
  destruct (clipAxis sy y h) as [[y' h']|] eqn:Hay; [|reflexivity].
  destruct (clipAxis_safe _ _ _ _ _ Hsx Hx Hw Hax) as [Hx' _].
  destruct (clipAxis_safe _ _ _ _ _ Hsy Hy Hh Hay) as [Hy' _].
  pose proof (i16_range (x' + w')) as Hxe.
  pose proof (i16_range (y' + h')) as Hye.
  unfold int16 in Hxe, Hye.
  cbv beta iota.
  apply (for16_run (fun row => map (fun col => (col, row)) (span x' w')));
    try lia.
  intros row _.
  rewrite (for16_run (fun col => [(col, row)])) by (try lia; reflexivity).
  rewrite flat_map_single. reflexivity.
Qed.

Lemma in_raster (cols rows : list Z) (p : Z * Z) :
  List.In p (raster cols rows) -> List.In (fst p) cols /\ List.In (snd p) rows.
Proof.
  unfold raster. intros H. apply in_flat_map in H as [row [Hrow H]].
  apply in_map_iff in H as [col [<- Hcol]]. split; assumption.
Qed.

Lemma in_span (x w size i : Z) :
  0 <= x -> i16 (x + w) <= size -> List.In i (span x w) -> 0 <= i < size.
Proof.
  unfold span. intros Hx Hend Hin. apply zrange_bounds in Hin. lia.
Qed.

(** X1.  Whatever rectangle [fillRect] is asked for, every pixel it sets is
    on the panel. *)
Theorem fillRect_stays_on_panel :
  forall sx sy x y w h : Z,
    int16 sx -> int16 sy -> int16 x -> int16 y -> int16 w -> int16 h ->
    exists ps,
      fillRect sx sy x y w h = Some ps /\
      Forall (fun p => 0 <= fst p < sx /\ 0 <= snd p < sy) ps.
Proof.
  intros sx sy x y w h Hsx Hsy Hx Hy Hw Hh.
  rewrite (fillRect_run sx sy x y w h Hsx Hsy Hx Hy Hw Hh).
  eexists. split; [reflexivity|].
  destruct (clipAxis sx x w) as [[x' w']|] eqn:Hax; [|constructor].
  destruct (clipAxis sy y h) as [[y' h']|] eqn:Hay; [|constructor].
  destruct (clipAxis_safe _ _ _ _ _ Hsx Hx Hw Hax) as [Hx' Hxe].
  destruct (clipAxis_safe _ _ _ _ _ Hsy Hy Hh Hay) as [Hy' Hye].
  apply Forall_forall. intros p Hp. apply in_raster in Hp as [Hc Hr].
  split; [eapply in_span; [| |exact Hc]|eapply in_span; [| |exact Hr]];
    first [lia | assumption].
Qed.

(** A rectangle hanging over the right and lower edges of a 64 by 32
    panel. *)
Lemma fillRect_stays_on_panel_witness :
  exists ps,
    fillRect 64 32 60 30 10 10 = Some ps /\
    Forall (fun p => 0 <= fst p < 64 /\ 0 <= snd p < 32) ps.
Proof.
  apply fillRect_stays_on_panel; unfold int16; lia.
Defined.

(** On one axis, for arguments far from the ends of [int16]: the loop of
    [fillRect] visits the visible part of the span asked for. *)
Lemma clipAxis_exact (size x w : Z) :
  0 <= size <= 32767 ->
  - 16384 <= x <= 16383 -> - 16384 <= w <= 16383 ->
  match clipAxis size x w with
  | Some (x', w') => span x' w' = visible size x w
  | None => visible size x w = []
  end.
Proof.
  intros Hs Hx Hw. unfold clipAxis, visible.
  set (xn := if w <? 0 then x + w else x).
  replace (if w <? 0 then (i16 (x + w), i16 (- w)) else (x, w))
    with (xn, Z.abs w).
  2:{ unfold xn. destruct (w <? 0) eqn:Hneg.
      - apply Z.ltb_lt in Hneg.
        rewrite !i16_id by (unfold int16; lia). f_equal. lia.
      - apply Z.ltb_ge in Hneg. f_equal. lia. }
  assert (Hxn : - 32768 <= xn <= 16383)
    by (unfold xn; destruct (w <? 0) eqn:Hneg;
        [apply Z.ltb_lt in Hneg|apply Z.ltb_ge in Hneg]; lia).
  assert (Hwn : 0 <= Z.abs w <= 16384) by lia.
  clearbody xn. set (wn := Z.abs w) in *. clearbody wn.
  destruct (xn <? 0) eqn:Hneg.
  - apply Z.ltb_lt in Hneg.
    rewrite (i16_id (wn + xn)) by (unfold int16; lia).
    rewrite Z.add_0_l, (i16_id (wn + xn)) by (unfold int16; lia).
    destruct (wn + xn >=? size) eqn:Hclip; rewrite Z.geb_leb in Hclip;
      [apply Z.leb_le in Hclip|apply Z.leb_gt in Hclip]; unfold span.
    + rewrite (Z.sub_0_r size), (i16_id size) by (unfold int16; lia).
      rewrite Z.add_0_l, (i16_id size) by (unfold int16; lia).
      f_equal; lia.
    + rewrite Z.add_0_l, (i16_id (wn + xn)) by (unfold int16; lia).
      f_equal; lia.
  - apply Z.ltb_ge in Hneg.
    destruct (xn >=? size) eqn:Hout; rewrite Z.geb_leb in Hout;
      [apply Z.leb_le in Hout|apply Z.leb_gt in Hout].
    + replace (Z.to_nat (Z.min size (xn + wn) - Z.max 0 xn)) with 0%nat by lia.
      reflexivity.
    + rewrite (i16_id (xn + wn)) by (unfold int16; lia).
      destruct (xn + wn >=? size) eqn:Hclip; rewrite Z.geb_leb in Hclip;
        [apply Z.leb_le in Hclip|apply Z.leb_gt in Hclip]; unfold span.
      * rewrite (i16_id (size - xn)) by (unfold int16; lia).
        replace (xn + (size - xn)) with size by lia.
        rewrite (i16_id size) by (unfold int16; lia).
        f_equal; lia.
      * rewrite (i16_id (xn + wn)) by (unfold int16; lia).
        f_equal; lia.
Qed.

(** X2.  For a panel of any size and a rectangle whose origin and extents
    are far from the ends of [int16], also with negative extents,
    [fillRect] sets exactly the pixels of the rectangle that are on the
    panel, each once, row by row. *)
Theorem fillRect_fills_visible_part :
  forall sx sy x y w h : Z,
    0 <= sx <= 32767 -> 0 <= sy <= 32767 ->
    - 16384 <= x <= 16383 -> - 16384 <= y <= 16383 ->
    - 16384 <= w <= 16383 -> - 16384 <= h <= 16383 ->
    fillRect sx sy x y w h
    = Some (raster (visible sx x w) (visible sy y h)).
Proof.
  intros sx sy x y w h Hsx Hsy Hx Hy Hw Hh.
  rewrite fillRect_run by (unfold int16; lia).
  pose proof (clipAxis_exact sx x w Hsx Hx Hw) as Hcols.
  pose proof (clipAxis_exact sy y h Hsy Hy Hh) as Hrows.
  destruct (clipAxis sx x w) as [[x' w']|].
  - destruct (clipAxis sy y h) as [[y' h']|].
    + rewrite Hcols, Hrows. reflexivity.
    + rewrite Hrows. reflexivity.
  - rewrite Hcols, raster_no_columns. reflexivity.
Qed.

(** The box behind the clock of [Update] on the 64 by 32 panel, and a
    rectangle given from its lower right corner. *)
Lemma fillRect_fills_visible_part_witness :
  fillRect 64 32 34 2 30 6 = Some (raster (zrange 34 30) (zrange 2 6)) /\
  fillRect 64 32 3 2 (-5) (-4) = Some (raster (zrange 0 3) (zrange 0 2)).
Proof.
  split.
  - rewrite (fillRect_fills_visible_part 64 32 34 2 30 6) by lia.
    reflexivity.
  - rewrite (fillRect_fills_visible_part 64 32 3 2 (-5) (-4)) by lia.
    reflexivity.
Defined.

End Rectangles.

(** ** What is added to the trace *)

Section Emits.

Import GoTime.

Lemma emits_weaken {A} (P Q : event -> Prop) (c : M A) :
  (forall e, P e -> Q e) -> emits P c -> emits Q c.
Proof.
  intros HPQ Hc w a w' H. destruct (Hc w a w' H) as [es [Htr Hes]].
  exists es. split; [exact Htr|].
  eapply Forall_impl; [exact HPQ|exact Hes].
Qed.

Lemma emits_ret {A} (P : event -> Prop) (a : A) : emits P (ret a).
Proof.
  intros w a' w' H. apply Ret_inj in H as [_ <-].
  exists []. split; [symmetry; apply app_nil_r|constructor].
Qed.

Lemma emits_panic {A} (P : event -> Prop) : emits P (@panic A).
Proof. intros w a w' H. discriminate H. Qed.

Lemma emits_spin {A} (P : event -> Prop) : emits P (@spin A).
Proof. intros w a w' H. discriminate H. Qed.

Lemma emits_bind {A B} (P : event -> Prop) (c : M A) (k : A -> M B) :
  emits P c -> (forall a, emits P (k a)) -> emits P (bind c k).
Proof.
  intros Hc Hk w b w' H. unfold bind in H.
  destruct (c w) as [a w1 | w1 | w1] eqn:Hcw; try discriminate H.
  destruct (Hc w a w1 Hcw) as [es1 [Htr1 Hes1]].
  destruct (Hk a w1 b w' H) as [es2 [Htr2 Hes2]].
  exists (es1 ++ es2). split.
  - rewrite Htr2, Htr1, app_assoc. reflexivity.
  - apply Forall_app. split; assumption.
Qed.

Lemma emits_world (P : event -> Prop) : emits P world.
Proof.
  intros w a w' H. apply Ret_inj in H as [_ <-].
  exists []. split; [symmetry; apply app_nil_r|constructor].
Qed.

Lemma emits_Now (P : event -> Prop) : emits P Now.
Proof.
  intros w a w' H. apply Ret_inj in H as [_ <-].
  exists []. split; [symmetry; apply app_nil_r|constructor].
Qed.

(** An update that leaves the trace alone. *)
Lemma emits_update (P : event -> Prop) (f : World -> World) :
  (forall w, trace (f w) = trace w) -> emits P (update f).
Proof.
  intros Hf w a w' H. apply Ret_inj in H as [_ <-].
  exists []. split; [rewrite Hf; symmetry; apply app_nil_r|constructor].
Qed.

Lemma emits_driver (P : event -> Prop) (e : event) :
  P e -> emits P (driver e).
Proof.
  intros He w a w' H. apply Ret_inj in H as [_ <-].
  exists [e]. split; [reflexivity|]. constructor; [exact He|constructor].
Qed.

Lemma emits_Sleep (P : event -> Prop) (d : Duration) :
  P (EvSleep d) -> emits P (Sleep d).
Proof.
  intros He w a w' H. apply Ret_inj in H as [_ <-].
  exists [EvSleep d]. split; [reflexivity|].
  constructor; [exact He|constructor].
Qed.

Lemma emits_emit (P : event -> Prop) (e : event) : P e -> emits P (emit e).
Proof.
  intros He w a w' H. apply Ret_inj in H as [_ <-].
  exists [e]. split; [reflexivity|]. constructor; [exact He|constructor].
Qed.

Lemma emits_AdjustTimeOffset (P : event -> Prop) (o : Z) :
  P (EvAdjustTimeOffset o) -> emits P (AdjustTimeOffset o).
Proof.
  intros He w a w' H. apply Ret_inj in H as [_ <-].
  exists [EvAdjustTimeOffset o]. split; [reflexivity|].
  constructor; [exact He|constructor].
Qed.

Lemma emits_Get (P : event -> Prop) : emits P Get.
Proof.
  intros w a w' H. rewrite Get_run in H. apply Ret_inj in H as [_ <-].
  exists []. split; [symmetry; apply app_nil_r|constructor].
Qed.

Ltac emits_step :=
  first
    [ apply emits_ret
    | apply emits_panic
    | apply emits_spin
    | apply emits_world
    | apply emits_Now
    | apply emits_Get
    | apply emits_driver; solve [cbn; auto]
    | apply emits_Sleep; solve [cbn; auto]
    | apply emits_emit; solve [cbn; auto]
    | apply emits_AdjustTimeOffset; solve [cbn; auto]
    | apply emits_update; intros ?; reflexivity
    | apply emits_bind; [|intros ?]
    | match goal with
      | |- emits _ (match ?x with _ => _ end) => destruct x
      | |- emits _ (if ?x then _ else _) => destruct x
      | |- emits _ (let '(_, _) := ?x in _) => destruct x
      end ].

Ltac emits_auto := repeat emits_step.

Lemma emits_Since (P : event -> Prop) (t : Time) : emits P (Since t).
Proof. unfold Since. emits_auto. Qed.

Lemma emits_Set (P : event -> Prop) (f : Model -> Model) : emits P (Set_ f).
Proof. unfold Set_. emits_auto. Qed.

Lemma emits_Mod (P : event -> Prop) (f : Model -> Model) : emits P (Mod f).
Proof. unfold Mod. emits_auto. Qed.

Lemma emits_isConnected (P : event -> Prop) :
  P EvGetConnectionStatus -> emits P WiFi.isConnected.
Proof. intros H. unfold WiFi.isConnected. emits_auto. Qed.

Lemma emits_hasIP (P : event -> Prop) : P EvGetIP -> emits P WiFi.hasIP.
Proof. intros H. unfold WiFi.hasIP. emits_auto. Qed.

Lemma emits_waitLoop (P : event -> Prop) (fuel : nat) (ready : M bool) :
  emits P ready -> (forall d, P (EvSleep d)) ->
  forall (ok : bool) (attempt : Z) (t : Duration),
    emits P (WiFi.waitLoop fuel ready ok attempt t).
Proof.
  intros Hready Hsleep. induction fuel as [|fuel IH]; intros ok attempt t;
    cbn [WiFi.waitLoop];
    destruct (negb ok && (attempt <? WiFi.maxAttempts));
    try apply emits_ret; [apply emits_spin|].
  apply emits_bind; [exact Hready|intros ok'].
  destruct (negb ok'); [|apply IH].
  apply emits_bind; [apply emits_Sleep; apply Hsleep|intros _]. apply IH.
Qed.

End Emits.

(** ** The connector *)

Section Connector.

Import GoTime WiFi.

Lemma driver_run (e : event) (w : World) :
  driver e w = Ret (calls w) (called e w).
Proof. reflexivity. Qed.

Lemma isConnected_run (w : World) :
  isConnected w
  = Ret (connection_status (env w) (calls w)) (called EvGetConnectionStatus w).
Proof. reflexivity. Qed.

Lemma hasIP_run (w : World) :
  hasIP w
  = Ret (is_nil (snd (get_ip (env w) (calls w))))
      (with_wifi_ip (fst (get_ip (env w) (calls w))) (called EvGetIP w)).
Proof.
  unfold hasIP. rewrite (bind_ret _ _ _ _ _ (driver_run EvGetIP w)).
  rewrite (bind_ret world _ _ _ (called EvGetIP w) eq_refl).
  change (env (called EvGetIP w)) with (env w).
  destruct (get_ip (env w) (calls w)) as [ip err]. reflexivity.
Qed.

(** X3.  [GetHostByName] asks the resolver only when the link is up and an
    address is held.  With the link down it returns [ErrNotConnected] after
    the status poll alone; with the link up and no address, after the two
    polls; otherwise it returns what the resolver gave, the address or the
    error.  The model is never touched; the address of the [WiFi] is the one
    the poll gave, if it was made. *)
Theorem GetHostByName_resolves_only_when_linked :
  forall (name : string) (w : World),
    exists (r : string * option error) (w' : World),
      GetHostByName name w = Ret r w' /\
      shared w' = shared w /\
      match connection_status (env w) (calls w),
            get_ip (env w) (S (calls w)) with
      | false, _ =>
          r = (EmptyString, Some ErrNotConnected) /\
          trace w' = trace w ++ [EvGetConnectionStatus] /\
          wifi_ip w' = wifi_ip w
      | true, (ip, Some _) =>
          r = (EmptyString, Some ErrNotConnected) /\
          trace w' = trace w ++ [EvGetConnectionStatus; EvGetIP] /\
          wifi_ip w' = ip
      | true, (ip, None) =>
          trace w'
          = trace w ++ [EvGetConnectionStatus; EvGetIP; EvGetHostByName name] /\
          wifi_ip w' = ip /\
          match host_by_name (env w) (S (S (calls w))) name with
          | (addr, None) => r = (addr, None)
          | (_, Some e) => r = (EmptyString, Some e)
          end
      end.
Proof.
  intros name w. unfold GetHostByName.
  rewrite (bind_ret _ _ _ _ _ (isConnected_run w)).
  destruct (connection_status (env w) (calls w)); cbn [negb].
  2:{ eexists. eexists. split; [reflexivity|]. repeat split. }
  rewrite (bind_ret _ _ _ _ _ (hasIP_run _)).
  change (env (called EvGetConnectionStatus w)) with (env w).
  change (calls (called EvGetConnectionStatus w)) with (S (calls w)).
  destruct (get_ip (env w) (S (calls w))) as [ip [e|]]; cbn [snd fst is_nil negb].
  { eexists. eexists. split; [reflexivity|]. split; [reflexivity|].
    split; [reflexivity|]. split; [|reflexivity].
    cbn [trace called with_wifi_ip with_call with_elapsed with_event].
    rewrite <- app_assoc. reflexivity. }
  rewrite (bind_ret _ _ _ _ _ (driver_run _ _)).
  match goal with
  | |- context [bind world _ ?w3] =>
      rewrite (bind_ret world _ w3 w3 w3 eq_refl)
  end.
  cbn [env calls called with_wifi_ip with_call with_elapsed with_event].
  destruct (host_by_name (env w) (S (S (calls w))) name) as [addr [e|]];
    (eexists; eexists; split; [reflexivity|]; split; [reflexivity|];
     split; [|split; reflexivity];
     cbn [trace called with_wifi_ip with_call with_elapsed with_event];
     rewrite <- !app_assoc; reflexivity).
Qed.

End Connector.

Section WaitUntil.

Import GoTime WiFi.

(** A [ready] that is one poll of the driver: it answers from the oracle at
    the current call and leaves the world [after] it. *)
Variable ready : M bool.
Variable answer : Env -> nat -> bool.
Variable after : World -> World.
Hypothesis ready_run :
  forall w, ready w = Ret (answer (env w) (calls w)) (after w).
Hypothesis after_env : forall w, env (after w) = env w.
Hypothesis after_calls : forall w, calls (after w) = S (calls w).
Hypothesis after_sleeps :
  forall w, sleeps (trace (after w)) = sleeps (trace w).

(** With the [k] next answers false and the one after them true, the loop
    returns [true] from the poll that was answered so, having slept [k]
    delays, doubling from [t]. *)
Lemma waitLoop_until (k : nat) :
  forall (fuel : nat) (w : World) (t : Duration),
    (forall i, (i < k)%nat -> answer (env w) (calls w + i) = false) ->
    answer (env w) (calls w + k) = true ->
    (k < fuel)%nat ->
    exists w0,
      waitLoop fuel ready false 0 t w = Ret true (after w0) /\
      env w0 = env w /\
      calls w0 = (calls w + k)%nat /\
      sleeps (trace (after w0)) = sleeps (trace w) ++ backoff k t.
Proof.
  induction k as [|k IH]; intros fuel w t Hfalse Htrue Hfuel;
    (destruct fuel as [|fuel]; [lia|]); cbn [waitLoop negb andb];
    change (0 <? maxAttempts) with true; cbv iota;
    rewrite (bind_ret _ _ _ _ _ (ready_run w)).
  - rewrite Nat.add_0_r in Htrue. rewrite Htrue. cbn [negb].
    exists w. split; [destruct fuel; reflexivity|].
    split; [reflexivity|]. split; [lia|].
    rewrite after_sleeps. cbn [backoff]. rewrite app_nil_r. reflexivity.
  - assert (H0 : answer (env w) (calls w) = false)
      by (rewrite <- (Nat.add_0_r (calls w)); apply Hfalse; lia).
    rewrite H0. cbn [negb].
    rewrite (bind_ret (Sleep t) _ _ _ tt eq_refl).
    set (w2 := with_elapsed (Z.max 0 t) (with_event (EvSleep t) (after w))).
    destruct (IH fuel w2 (i64 (Z.shiftl t 1))) as [w0 [Hrun [Henv [Hcalls Hsl]]]].
    + intros i Hi. change (env w2) with (env (after w)).
      change (calls w2) with (calls (after w)).
      rewrite after_env, after_calls.
      replace (S (calls w) + i)%nat with (calls w + S i)%nat by lia.
      apply Hfalse. lia.
    + change (env w2) with (env (after w)).
      change (calls w2) with (calls (after w)).
      rewrite after_env, after_calls.
      replace (S (calls w) + k)%nat with (calls w + S k)%nat by lia.
      exact Htrue.
    + lia.
    + exists w0. split; [exact Hrun|].
      split; [rewrite Henv; change (env w2) with (env (after w)); apply after_env|].
      split.
      * rewrite Hcalls. change (calls w2) with (calls (after w)).
        rewrite after_calls. lia.
      * rewrite Hsl. unfold w2.
        cbn [trace with_elapsed with_event].
        rewrite sleeps_app, after_sleeps. cbn [backoff].
        change (sleeps [EvSleep t]) with [t].
        rewrite <- app_assoc. reflexivity.
Qed.

End WaitUntil.

Section Connects.

Import GoTime WiFi.

Lemma begun_app (t1 t2 : list event) : begun (t1 ++ t2) = begun t1 ++ begun t2.
Proof. unfold begun. apply flat_map_app. Qed.

Lemma begun_waiting (es : list event) : Forall waiting es -> begun es = [].
Proof.
  induction 1 as [|e es He _ IH]; [reflexivity|].
  destruct e; try contradiction; exact IH.
Qed.

Lemma displays_waiting (es : list event) :
  Forall waiting es -> displays es = [].
Proof.
  induction 1 as [|e es He _ IH]; [reflexivity|].
  destruct e; try contradiction; exact IH.
Qed.

Lemma view_shared (w w' : World) : view w' = view w -> shared w' = shared w.
Proof. intros H. apply view_kept, kept_parts in H as [_ [H _]]. exact H. Qed.

Lemma sleeps_after_status (w : World) :
  sleeps (trace (called EvGetConnectionStatus w)) = sleeps (trace w).
Proof.
  unfold called. cbn [trace with_call with_elapsed with_event].
  rewrite sleeps_app. apply app_nil_r.
Qed.

Lemma sleeps_after_ip (w : World) :
  sleeps
    (trace (with_wifi_ip (fst (get_ip (env w) (calls w))) (called EvGetIP w)))
  = sleeps (trace w).
Proof.
  unfold called. cbn [trace with_wifi_ip with_call with_elapsed with_event].
  rewrite sleeps_app. apply app_nil_r.
Qed.

(** [Connect], taken apart where it returns. *)
Lemma Connect_inv (fuel : nat) (ap : AP) (w w' : World) (r : option error) :
  Connect fuel ap w = Ret r w' ->
  r = None /\
  ModelState.data (shared w')
  = set_AP_IP ap (wifi_ip w') (ModelState.data (shared w)) /\
  ModelState.changed (shared w') = true /\
  begun (trace w') = begun (trace w) ++ [ap] /\
  displays (trace w') = displays (trace w).
Proof.
  unfold Connect, waitWithTimeout. intros H.
  rewrite (bind_ret (Sleep _) _ _ _ tt eq_refl) in H.
  rewrite (bind_ret _ _ _ _ _ (driver_run _ _)) in H.
  unfold bind at 1 in H.
  match type of H with
  | context [waitLoop fuel isConnected false 0 baseTimeout ?w0] =>
      set (wb := w0) in *
  end.
  destruct (waitLoop fuel isConnected false 0 baseTimeout wb)
    as [linked w2 | w2 | w2] eqn:Hlink; try discriminate H.
  pose proof (waitLoop_returns_true _ _ _ _ _ _ _ Hlink) as ->.
  pose proof (quiet_waitLoop fuel _ quiet_isConnected _ _ _ _ _ _ Hlink) as Hv2.
  destruct (emits_waitLoop waiting fuel _ (emits_isConnected waiting I)
              (fun _ => I) _ _ _ _ _ _ Hlink) as [es1 [Ht2 He1]].
  cbn [negb] in H. unfold bind at 1 in H.
  destruct (waitLoop fuel hasIP false 0 baseTimeout w2)
    as [leased w3 | w3 | w3] eqn:Hlease; try discriminate H.
  pose proof (waitLoop_returns_true _ _ _ _ _ _ _ Hlease) as ->.
  pose proof (quiet_waitLoop fuel _ quiet_hasIP _ _ _ _ _ _ Hlease) as Hv3.
  destruct (emits_waitLoop waiting fuel _ (emits_hasIP waiting I)
              (fun _ => I) _ _ _ _ _ _ Hlease) as [es2 [Ht3 He2]].
  cbn [negb] in H.
  rewrite (bind_ret world _ w3 w3 w3 eq_refl) in H.
  rewrite (bind_ret (Set_ _) _ _ _ tt eq_refl) in H.
  apply Ret_inj in H as [<- <-].
  apply view_shared in Hv2, Hv3.
  assert (Hs : shared w3 = shared w) by (rewrite Hv3, Hv2; reflexivity).
  assert (Ht : trace w3
               = trace w
                 ++ [EvSleep (2 * Second); EvSetPassphrase (SSID ap) (Pass ap)]
                 ++ es1 ++ es2).
  { rewrite Ht3, Ht2. unfold wb.
    cbn [trace called with_call with_elapsed with_event].
    rewrite <- !app_assoc. reflexivity. }
  split; [reflexivity|].
  cbn [shared with_shared ModelState.data ModelState.changed ModelState.Set_
       wifi_ip trace].
  rewrite Hs, Ht. split; [reflexivity|]. split; [reflexivity|].
  rewrite !begun_app, !displays_app.
  rewrite (begun_waiting _ He1), (begun_waiting _ He2).
  rewrite (displays_waiting _ He1), (displays_waiting _ He2).
  destruct ap as [ssid pass]. cbn. rewrite !app_nil_r. split; reflexivity.
Qed.

Lemma view_env (w w' : World) : view w' = view w -> env w' = env w.
Proof.
  unfold view. intros H. injection H as H _ _ _ _ _ _ _ _. exact H.
Qed.

(** The wait for the lease, where it returns: the last call into the
    driver was a [GetIP] that gave no error, and its address is held. *)
Lemma waitLoop_hasIP_last (fuel : nat) :
  forall (t : Duration) (w w' : World) (r : bool),
    waitLoop fuel hasIP false 0 t w = Ret r w' ->
    exists k : nat,
      calls w' = S k /\ (calls w <= k)%nat /\
      get_ip (env w) k = (wifi_ip w', None).
Proof.
  induction fuel as [|fuel IH]; intros t w w' r H.
  - discriminate H.
  - cbn [waitLoop negb andb] in H.
    change (0 <? maxAttempts) with true in H. cbv iota in H.
    rewrite (bind_ret _ _ _ _ _ (hasIP_run w)) in H.
    destruct (get_ip (env w) (calls w)) as [ip err] eqn:Hip.
    cbn [fst snd] in H. destruct err as [e|]; cbn [is_nil negb] in H.
    + rewrite (bind_ret (Sleep t) _ _ _ tt eq_refl) in H.
      destruct (IH _ _ _ _ H) as [k [Hc [Hle Hget]]].
      exists k. split; [exact Hc|].
      cbn [calls env with_elapsed with_event with_wifi_ip called with_call]
        in Hle, Hget.
      split; [lia|exact Hget].
    + assert (Hdone : waitLoop fuel hasIP true 0 t
                        (with_wifi_ip ip (called EvGetIP w))
                      = Ret true (with_wifi_ip ip (called EvGetIP w)))
        by (destruct fuel; reflexivity).
      rewrite Hdone in H. apply Ret_inj in H as [_ <-].
      exists (calls w). split; [reflexivity|]. split; [lia|exact Hip].
Qed.

(** [Connect], where it returns: the address it holds is the one the last
    call into the driver gave, a [GetIP] without error. *)
Lemma Connect_address (fuel : nat) (ap : AP) (w w' : World)
  (r : option error) :
  Connect fuel ap w = Ret r w' ->
  exists k : nat,
    calls w' = S k /\ (calls w < k)%nat /\
    get_ip (env w) k = (wifi_ip w', None).
Proof.
  unfold Connect, waitWithTimeout. intros H.
  rewrite (bind_ret (Sleep _) _ _ _ tt eq_refl) in H.
  rewrite (bind_ret _ _ _ _ _ (driver_run _ _)) in H.
  unfold bind at 1 in H.
  match type of H with
  | context [waitLoop fuel isConnected false 0 baseTimeout ?w0] =>
      set (wb := w0) in *
  end.
  destruct (waitLoop fuel isConnected false 0 baseTimeout wb)
    as [linked w2 | w2 | w2] eqn:Hlink; try discriminate H.
  pose proof (waitLoop_returns_true _ _ _ _ _ _ _ Hlink) as ->.
  pose proof (quiet_waitLoop fuel _ quiet_isConnected _ _ _ _ _ _ Hlink) as Hv2.
  assert (Hc2 : (calls wb <= calls w2)%nat).
  { clear H Hv2. revert Hlink. generalize baseTimeout. generalize wb.
    clear wb. induction fuel as [|fuel IH]; intros w0 t Hl.
    - discriminate Hl.
    - cbn [waitLoop negb andb] in Hl.
      change (0 <? maxAttempts) with true in Hl. cbv iota in Hl.
      rewrite (bind_ret _ _ _ _ _ (isConnected_run w0)) in Hl.
      destruct (connection_status (env w0) (calls w0)); cbn [negb] in Hl.
      + assert (Hdone : waitLoop fuel isConnected true 0 t
                          (called EvGetConnectionStatus w0)
                        = Ret true (called EvGetConnectionStatus w0))
          by (destruct fuel; reflexivity).
        rewrite Hdone in Hl. apply Ret_inj in Hl as [_ <-].
        cbn [calls called with_call with_elapsed with_event]. lia.
      + rewrite (bind_ret (Sleep t) _ _ _ tt eq_refl) in Hl.
        apply IH in Hl.
        cbn [calls called with_call with_elapsed with_event] in Hl. lia. }
  cbn [negb] in H. unfold bind at 1 in H.
  destruct (waitLoop fuel hasIP false 0 baseTimeout w2)
    as [leased w3 | w3 | w3] eqn:Hlease; try discriminate H.
  pose proof (waitLoop_returns_true _ _ _ _ _ _ _ Hlease) as ->.
  destruct (waitLoop_hasIP_last _ _ _ _ _ Hlease) as [k [Hc [Hle Hget]]].
  cbn [negb] in H.
  rewrite (bind_ret world _ w3 w3 w3 eq_refl) in H.
  rewrite (bind_ret (Set_ _) _ _ _ tt eq_refl) in H.
  apply Ret_inj in H as [_ <-].
  apply view_env in Hv2. rewrite Hv2 in Hget.
  exists k. cbn [calls wifi_ip with_shared env].
  split; [exact Hc|]. split; [|exact Hget].
  unfold wb in Hc2.
  cbn [calls called with_call with_elapsed with_event] in Hc2. lia.
Qed.

(** X4.  Whenever [Connect] returns, it returns no error: neither
    [ErrConnectToAP] nor [ErrNoIPAddress] is ever returned.  It has then
    begun one attempt, for the candidate given, written the candidate and
    the address last read from the driver into the model with the change
    flag set, left the other fields of the model alone and shown the renderer
    nothing.  That address is the one the last call into the driver gave, a
    [GetIP] that returned no error. *)
Theorem Connect_returns_connected :
  forall (fuel : nat) (ap : AP) (w w' : World) (r : option error),
    Connect fuel ap w = Ret r w' ->
    r = None /\
    ModelState.data (shared w')
    = set_AP_IP ap (wifi_ip w') (ModelState.data (shared w)) /\
    ModelState.changed (shared w') = true /\
    begun (trace w') = begun (trace w) ++ [ap] /\
    displays (trace w') = displays (trace w) /\
    exists k : nat,
      calls w' = S k /\ (calls w < k)%nat /\
      get_ip (env w) k = (wifi_ip w', None).
Proof.
  intros fuel ap w w' r H.
  destruct (Connect_inv _ _ _ _ _ H) as [Hr [Hdata [Hflag [Hbegun Hdisp]]]].
  split; [exact Hr|]. split; [exact Hdata|]. split; [exact Hflag|].
  split; [exact Hbegun|]. split; [exact Hdisp|].
  exact (Connect_address _ _ _ _ _ H).
Qed.

Lemma Connect_returns_connected_witness :
  exists w',
    Connect 1 (mkAP "home" "h")
      (boot (env_up sample_reply) (NTPClient.New no_config)) = Ret None w' /\
    mAP (ModelState.data (shared w')) = mkAP "home" "h" /\
    mIP (ModelState.data (shared w')) = "192.168.1.7"%string /\
    begun (trace w') = [mkAP "home" "h"].
Proof.
  eexists. split; [vm_compute; reflexivity|].
  match goal with
  | |- context [shared ?w1] =>
      destruct (Connect_returns_connected 1 (mkAP "home" "h")
                  (boot (env_up sample_reply) (NTPClient.New no_config))
                  w1 None ltac:(vm_compute; reflexivity))
        as [_ [Hdata [_ [Hbegun _]]]]
  end.
  rewrite Hdata, Hbegun. repeat split.
Defined.

(** X5.  [Connect] returns as soon as the link and then the lease are
    there, however late.  With the link reported up at the poll after [k]
    failed ones, and an address given at the poll after [j] further failed
    ones, it returns no error, having slept 2 s, then [k] delays doubling
    from 125 ms, then [j] delays doubling from 125 ms again; the model holds
    the candidate and that address. *)
Theorem Connect_when_link_comes_up :
  forall (fuel k j : nat) (ap : AP) (ip : string) (w : World),
    (forall i, (i < k)%nat ->
               connection_status (env w) (S (calls w) + i) = false) ->
    connection_status (env w) (S (calls w) + k) = true ->
    (forall i, (i < j)%nat ->
               is_nil (snd (get_ip (env w) (S (calls w) + S k + i))) = false) ->
    get_ip (env w) (S (calls w) + S k + j) = (ip, None) ->
    (k < fuel)%nat -> (j < fuel)%nat ->
    exists w',
      Connect fuel ap w = Ret None w' /\
      sleeps (trace w')
      = sleeps (trace w)
        ++ 2 * Second :: backoff k baseTimeout ++ backoff j baseTimeout /\
      ModelState.data (shared w')
      = set_AP_IP ap ip (ModelState.data (shared w)) /\
      ModelState.changed (shared w') = true.
Proof.
  intros fuel k j ap ip w Hdown Hup Hnone Hip Hk Hj.
  set (wb := called (EvSetPassphrase (SSID ap) (Pass ap))
               (with_elapsed (Z.max 0 (2 * Second))
                  (with_event (EvSleep (2 * Second)) w))).
  destruct (waitLoop_until isConnected connection_status
              (called EvGetConnectionStatus) isConnected_run
              (fun _ => eq_refl) (fun _ => eq_refl) sleeps_after_status
              k fuel wb baseTimeout Hdown Hup Hk)
    as [w0 [Hrun1 [Henv0 [Hcalls0 Hsl1]]]].
  set (w1 := called EvGetConnectionStatus w0) in *.
  assert (Henv1 : env w1 = env w) by exact Henv0.
  assert (Hcalls1 : calls w1 = (S (calls w) + S k)%nat).
  { change (calls w1) with (S (calls w0)). rewrite Hcalls0.
    change (calls wb) with (S (calls w)). lia. }
  destruct (waitLoop_until hasIP
              (fun e n => is_nil (snd (get_ip e n)))
              (fun w0 => with_wifi_ip (fst (get_ip (env w0) (calls w0)))
                           (called EvGetIP w0))
              hasIP_run (fun _ => eq_refl) (fun _ => eq_refl) sleeps_after_ip
              j fuel w1 baseTimeout)
    as [w2 [Hrun2 [Henv2 [Hcalls2 Hsl2]]]].
  { intros i Hi. rewrite Henv1, Hcalls1. apply Hnone. exact Hi. }
  { rewrite Henv1, Hcalls1, Hip. reflexivity. }
  { exact Hj. }
  assert (Hconnect :
            Connect fuel ap w
            = Ret None
                (with_shared
                   (ModelState.Set_ (set_AP_IP ap ip))
                   (with_wifi_ip ip (called EvGetIP w2)))).
  { unfold Connect, waitWithTimeout.
    rewrite (bind_ret (Sleep _) _ _ _ tt eq_refl).
    rewrite (bind_ret _ _ _ _ _ (driver_run _ _)).
    fold wb. rewrite (bind_ret _ _ _ _ _ Hrun1). cbn [negb]. fold w1.
    rewrite (bind_ret _ _ _ _ _ Hrun2). cbn [negb].
    rewrite Henv2, Henv1, Hcalls2, Hcalls1, Hip. reflexivity. }
  eexists. split; [exact Hconnect|].
  destruct (Connect_inv _ _ _ _ _ Hconnect) as [_ [Hdata [Hflag _]]].
  split; [|split; [exact Hdata|exact Hflag]].
  cbn [trace with_shared with_wifi_ip].
  rewrite Henv2, Henv1, Hcalls2, Hcalls1, Hip in Hsl2. cbn [fst] in Hsl2.
  cbn [trace with_wifi_ip] in Hsl2. rewrite Hsl2.
  fold w1 in Hsl1. rewrite Hsl1. unfold wb.
  cbn [trace called with_call with_elapsed with_event].
  rewrite !sleeps_app.
  change (sleeps [EvSleep (2 * Second)]) with [2 * Second].
  change (sleeps [EvSetPassphrase (SSID ap) (Pass ap)]) with (@nil Duration).
  rewrite app_nil_r, <- !app_assoc. reflexivity.
Qed.

(** The link up at the third poll, the address at the second after it. *)
Lemma Connect_when_link_comes_up_witness :
  exists w',
    Connect 3 (mkAP "home" "h")
      (boot (env_late 3 5) (NTPClient.New no_config)) = Ret None w' /\
    sleeps (trace w')
    = map (fun ms => ms * Millisecond) [2000; 125; 250; 125] /\
    mIP (ModelState.data (shared w')) = "192.168.1.7"%string.
Proof.
  destruct (Connect_when_link_comes_up 3 2 1 (mkAP "home" "h") "192.168.1.7"
              (boot (env_late 3 5) (NTPClient.New no_config)))
    as [w' [Hrun [Hsleeps [Hdata _]]]].
  - intros i Hi. destruct i as [|[|i]]; [reflexivity|reflexivity|lia].
  - reflexivity.
  - intros i Hi. destruct i as [|i]; [reflexivity|lia].
  - reflexivity.
  - lia.
  - lia.
  - exists w'. split; [exact Hrun|]. split; [exact Hsleeps|].
    rewrite Hdata. reflexivity.
Defined.

End Connects.

(** ** The client *)

Section Client.

Import GoTime NTPClient.

(** X6.  [New] leaves none of six fields of the configuration at its zero
    value: the server list is not empty, and neither port, nor the zone
    offset, nor either interval is 0; so a zone offset of 0 cannot be
    configured.  The seventh field, the leap-smear flag, is not defaulted
    this way: it is kept as given, true or false, when servers are given,
    and is false when they are not, whatever was given.  The client starts
    with a buffer of 48 zero bytes, both time stamps unset and the zone of
    its offset, and making a client from its configuration changes
    nothing. *)
Theorem New_fills_every_zero_field :
  forall c : Config,
    Server (config (New c)) <> [] /\
    RemotePort (config (New c)) <> 0 /\
    LocalPort (config (New c)) <> 0 /\
    TZOffset (config (New c)) <> 0 /\
    Interval (config (New c)) <> 0 /\
    Precision (config (New c)) <> 0 /\
    (Server c <> [] ->
     Server (config (New c)) = Server c /\
     LeapSmear (config (New c)) = LeapSmear c) /\
    (Server c = [] ->
     Server (config (New c)) = DefaultServer /\
     LeapSmear (config (New c)) = false) /\
    locale (New c) = FixedZone "localtime" (TZOffset (config (New c))) /\
    dgram (New c) = repeat x00 48 /\
    lastSync (New c) = zero /\ lastPost (New c) = zero /\
    New (config (New c)) = New c.
Proof.
  intros [srv rp lp tz iv pr leap]. unfold New.
  cbn [Server RemotePort LocalPort TZOffset Interval Precision LeapSmear
       config locale dgram lastSync lastPost].
  assert (Hdefault :
            forall z d : Z, d <> 0 -> (if z =? 0 then d else z) <> 0).
  { intros z d Hd. destruct (z =? 0) eqn:Hz; [exact Hd|].
    apply Z.eqb_neq. exact Hz. }
  assert (Hagain :
            forall z d : Z, d <> 0 ->
              (if (if z =? 0 then d else z) =? 0 then d
               else (if z =? 0 then d else z))
              = (if z =? 0 then d else z)).
  { intros z d Hd. pose proof (Hdefault z d Hd) as H.
    apply Z.eqb_neq in H. rewrite H. reflexivity. }
  assert (Hports :
            (if rp =? 0 then DefaultRemotePort else rp) <> 0 /\
            (if lp =? 0 then DefaultLocalPort else lp) <> 0 /\
            (if tz =? 0 then DefaultTZOffset else tz) <> 0 /\
            (if iv =? 0 then DefaultInterval else iv) <> 0 /\
            (if pr =? 0 then DefaultPrecision else pr) <> 0)
    by (repeat split; apply Hdefault; discriminate).
  destruct Hports as [Hrp [Hlp [Htz [Hiv Hpr]]]].
  destruct srv as [|name rest]; cbv iota.
  - split; [discriminate|]. repeat (split; [assumption|]).
    split; [intros H; contradiction|].
    split; [intros _; split; reflexivity|].
    repeat (split; [reflexivity|]).
    cbv iota. rewrite !Hagain by discriminate. reflexivity.
  - split; [discriminate|]. repeat (split; [assumption|]).
    split; [intros _; split; reflexivity|].
    split; [intros H; discriminate H|].
    repeat (split; [reflexivity|]).
    cbv iota. rewrite !Hagain by discriminate. reflexivity.
Qed.

End Client.

Section Fetching.

Import GoTime NTPClient.

Lemma commit_run (curr : Time) (w : World) :
  (Close ;;
   d <- Since curr ;;
   AdjustTimeOffset (i64 (-1 * d)) ;;
   t <- Now ;;
   update (with_host (set_lastSync t)) ;;
   ret None) w = Ret (@None error) (committed curr w).
Proof. reflexivity. Qed.

Lemma Sync_as_steps (w : World) :
  Sync w =
  (err <- (if fetch_due w then fetch else ret None) ;;
   match err with
   | Some e => ret (Some e)
   | None => (if publish_due w then publish else ret tt) ;; ret None
   end) w.
Proof.
  unfold Sync, fetch_due, publish_due, NTP_isExpired. cbn [fst snd].
  rewrite (bind_ret Now _ w w (clock w) eq_refl).
  rewrite (bind_ret world _ w w w eq_refl).
  reflexivity.
Qed.

Lemma emits_GetHostByName (P : event -> Prop) (name : string) :
  P EvGetConnectionStatus -> P EvGetIP -> P (EvGetHostByName name) ->
  emits P (WiFi.GetHostByName name).
Proof.
  intros H1 H2 H3. unfold WiFi.GetHostByName.
  apply emits_bind; [apply emits_isConnected; exact H1|intros linked].
  destruct (negb linked); [apply emits_ret|].
  apply emits_bind; [apply emits_hasIP; exact H2|intros leased].
  destruct (negb leased); [apply emits_ret|].
  apply emits_bind; [apply emits_driver; exact H3|intros k].
  apply emits_bind; [apply emits_world|intros w].
  destruct (host_by_name (env w) k name) as [addr [e|]]; apply emits_ret.
Qed.

Lemma emits_DialUDP (P : event -> Prop) (lport : Z) (rhost : string)
  (rport : Z) :
  P (EvDialUDP lport rhost rport) -> emits P (DialUDP lport rhost rport).
Proof.
  intros H. unfold DialUDP.
  apply emits_bind; [apply emits_driver; exact H|intros k].
  apply emits_bind; [apply emits_world|intros w]. apply emits_ret.
Qed.

Lemma emits_readLoop (P : event -> Prop) (fuel : nat) (start : Time) :
  P (EvSleep pollInterval) -> P EvRead -> emits P (readLoop fuel start).
Proof.
  intros Hsleep Hread. induction fuel as [|fuel IH]; cbn [readLoop].
  - apply emits_bind; [apply emits_Since|intros el].
    destruct (el <=? timeout); [apply emits_spin|apply emits_ret].
  - apply emits_bind; [apply emits_Since|intros el].
    destruct (el <=? timeout); [|apply emits_ret].
    apply emits_bind; [apply emits_Sleep; exact Hsleep|intros _].
    apply emits_bind; [apply emits_driver; exact Hread|intros k].
    apply emits_bind; [apply emits_world|intros w].
    apply emits_bind; [apply emits_update; intros ?; reflexivity|intros _].
    destruct (rd_err (conn_read (env w) k)); [apply emits_ret|].
    destruct (rd_n (conn_read (env w) k) =? 0); [exact IH|].
    destruct (negb (rd_n (conn_read (env w) k) =? datagramSize));
      apply emits_ret.
Qed.

Lemma emits_read (P : event -> Prop) :
  P (EvSleep pollInterval) -> P EvRead -> emits P read.
Proof.
  intros Hsleep Hread. unfold read.
  apply emits_bind; [apply emits_update; intros ?; reflexivity|intros _].
  apply emits_bind; [apply emits_Now|intros start].
  apply emits_readLoop; assumption.
Qed.

Lemma overlay_full (bytes : list byte) (d : datagram) :
  List.length bytes = List.length d -> overlay bytes d = bytes.
Proof.
  intros H. unfold overlay.
  assert (Hf : firstn (List.length d) bytes = bytes)
    by (rewrite <- H; apply firstn_all).
  rewrite Hf, H, skipn_all. apply app_nil_r.
Qed.

(** A [read] that succeeds leaves the bytes of its last poll in the
    buffer. *)
Lemma read_answered (w w' : World) :
  List.length (dgram (host w)) = 48%nat ->
  read w = Ret None w' ->
  answered w' /\ env w' = env w /\ (calls w < calls w')%nat.
Proof.
  intros Hlen H.
  destruct (read_spec w)
    as [n [r [w0 [Hrun [_ [_ [_ [Hcases [Hcalls [_ [_ [Henv Hbuf]]]]]]]]]]]].
  rewrite Hrun in H. apply Ret_inj in H as [-> ->].
  destruct Hcases as [[Hr _] | [last [-> [_ Hr]]]]; [discriminate Hr|].
  unfold verdict, datagramSize, reply_at in Hr.
  split; [|split; [exact Henv|lia]].
  exists (calls w + last)%nat,
    (received (env w) (calls w) last (reset (dgram (host w)))).
  rewrite Henv.
  split; [rewrite Hcalls; lia|].
  destruct (rd_err (conn_read (env w) (calls w + last)));
    [discriminate Hr|].
  destruct (rd_n (conn_read (env w) (calls w + last)) =? 48) eqn:H48;
    [|discriminate Hr].
  split; [reflexivity|]. split; [apply Z.eqb_eq; exact H48|].
  split; [rewrite received_length, reset_length; exact Hlen|].
  rewrite Hbuf. apply received_last.
Qed.

(** [request] on a buffer of 48 bytes, taken apart where it returns. *)
Lemma request_inv (P : event -> Prop) (w w' : World)
  (r : Time * option error) :
  P (EvWrite request_bytes) -> P (EvSleep pollInterval) -> P EvRead ->
  List.length (dgram (host w)) = 48%nat ->
  request w = Ret r w' ->
  (exists es, trace w' = trace w ++ es /\ Forall P es) /\
  (snd r = None ->
   parse (dgram (host w')) = Some (fst r) /\
   answered w' /\ env w' = env w).
Proof.
  intros Hwrite Hsleep Hread Hlen H. unfold request in H.
  rewrite (bind_ret _ _ _ _ _ (write_sends w Hlen)) in H.
  destruct (conn_write (env w) (calls w) request_bytes) as [e|].
  { apply Ret_inj in H as [<- <-]. split; [|intros H; discriminate H].
    exists [EvWrite request_bytes]. split; [reflexivity|].
    constructor; [exact Hwrite|constructor]. }
  unfold bind at 1 in H.
  match type of H with
  | context [read ?w1] =>
      destruct (read w1) as [err w2 | w2 | w2] eqn:Hr; try discriminate H;
      destruct (emits_read P Hsleep Hread _ _ _ Hr) as [es [Htr Hes]]
  end.
  assert (Hexists : exists es0, trace w2 = trace w ++ es0 /\ Forall P es0).
  { exists (EvWrite request_bytes :: es). split.
    - rewrite Htr.
      cbn [trace with_call with_elapsed with_event with_host].
      rewrite <- app_assoc. reflexivity.
    - constructor; assumption. }
  destruct err as [e|].
  { apply Ret_inj in H as [<- <-]. split; [exact Hexists|].
    intros H; discriminate H. }
  unfold bind, world in H.
  destruct (parse (dgram (host w2))) as [t|] eqn:Hparse; [|discriminate H].
  apply Ret_inj in H as [<- <-]. split; [exact Hexists|].
  intros _. split; [exact Hparse|].
  match type of Hr with
  | read ?w1 = _ =>
      destruct (read_answered w1 w2 eq_refl Hr) as [Hans [Henv _]]
  end.
  split; [exact Hans|exact Henv].
Qed.

Lemma trace_committed (curr : Time) (w : World) :
  exists o,
    trace (committed curr w)
    = trace w ++ [EvClose; EvAdjustTimeOffset o].
Proof.
  eexists. unfold committed, called.
  cbn [trace with_host with_timeOffset with_event with_call with_elapsed].
  rewrite <- app_assoc. reflexivity.
Qed.

Lemma kept_committed (curr : Time) (w : World) :
  kept (committed curr w) = kept w.
Proof.
  destruct (commit_kept curr w) as [w1 [Hrun Hkept]].
  rewrite commit_run in Hrun. apply Ret_inj in Hrun as [_ <-]. exact Hkept.
Qed.

(** The fetch step of a well-formed client, step by step: it returns; what
    it adds to the trace is the talk with the server in turn; and when it
    succeeds it has parsed a time from the buffer and committed it. *)
Lemma fetch_steps (w : World) :
  wellformed (host w) ->
  exists (r : option error) (w1 : World) (es : list event),
    fetch w = Ret r w1 /\
    trace w1 = trace w ++ es /\
    Forall (syncing (server_in_turn w) (LocalPort (config (host w)))
              (RemotePort (config (host w)))) es /\
    kept w1 = kept (after_Get w) /\
    (r <> None -> view w1 = view (after_Get w)) /\
    (r = None ->
     exists (w4 : World) (curr : Time),
       parse (dgram (host w4)) = Some curr /\
       view w4 = view (after_Get w) /\
       w1 = committed curr w4 /\
       answered w4).
Proof.
  intros Hwf. pose proof (server_count _ Hwf) as Hcount.
  destruct Hwf as [Hsrv [Hlt Hlen]].
  set (P := syncing (server_in_turn w) (LocalPort (config (host w)))
              (RemotePort (config (host w)))).
  unfold fetch.
  rewrite (bind_ret _ _ _ _ _ (Get_run w)). cbv beta iota.
  rewrite (bind_ret world _ (after_Get w) (after_Get w) (after_Get w) eq_refl).
  cbv beta zeta.
  change (host (after_Get w)) with (host w).
  assert (Hturn : server_in_turn w
                  = nth (Z.to_nat
                           (mRetry (ModelState.data (shared w))
                            mod uint (Z.of_nat
                                        (List.length (Server (config (host w)))))))
                      (Server (config (host w))) EmptyString) by reflexivity.
  set (servers := Server (config (host w))) in *.
  set (len := uint (Z.of_nat (List.length servers))) in *.
  destruct (len =? 0) eqn:Hzero; [apply Z.eqb_eq in Hzero; lia|].
  pose proof (Z.mod_pos_bound (mRetry (ModelState.data (shared w))) len
                ltac:(lia)) as Hidx.
  destruct (nth_error servers
              (Z.to_nat (mRetry (ModelState.data (shared w)) mod len)))
    as [name|] eqn:Hname;
    [|apply nth_error_None in Hname; lia].
  assert (Hn : name = server_in_turn w).
  { rewrite Hturn. symmetry. apply nth_error_nth. exact Hname. }
  destruct (GetHostByName_returns name (after_Get w)) as [[ip err] [w2 Hres]].
  pose proof (quiet_GetHostByName _ _ _ _ Hres) as Hv2.
  destruct (emits_GetHostByName P name I I Hn _ _ _ Hres) as [es2 [Ht2 He2]].
  change (trace (after_Get w)) with (trace w) in Ht2.
  rewrite (bind_ret _ _ _ _ _ Hres). cbv beta iota.
  destruct err as [e|].
  { exists (Some e), w2, es2. split; [reflexivity|].
    split; [exact Ht2|]. split; [exact He2|].
    split; [apply view_kept; exact Hv2|].
    split; [intros _; exact Hv2|intros H; discriminate H]. }
  destruct (DialUDP_returns (LocalPort (config (host w))) ip
              (RemotePort (config (host w))) w2) as [err [w3 Hdial]].
  pose proof (quiet_DialUDP _ _ _ _ _ _ Hdial) as Hv3.
  destruct (emits_DialUDP P _ ip _ (conj eq_refl eq_refl) _ _ _ Hdial)
    as [es3 [Ht3 He3]].
  rewrite (bind_ret _ _ _ _ _ Hdial). rewrite Hv2 in Hv3.
  destruct err as [e|].
  { exists (Some e), w3, (es2 ++ es3). split; [reflexivity|].
    split; [rewrite Ht3, Ht2, app_assoc; reflexivity|].
    split; [apply Forall_app; split; assumption|].
    split; [apply view_kept; exact Hv3|].
    split; [intros _; exact Hv3|intros H; discriminate H]. }
  assert (Hlen3 : List.length (dgram (host w3)) = 48%nat)
    by (rewrite (view_length _ _ Hv3); exact Hlen).
  destruct (request_returns w3 Hlen3) as [[curr err] [w4 Hreq]].
  pose proof (quiet_request _ _ _ Hreq) as Hv4. rewrite Hv3 in Hv4.
  destruct (request_inv P w3 w4 _ eq_refl eq_refl I Hlen3 Hreq)
    as [[es4 [Ht4 He4]] Hparse].
  rewrite (bind_ret _ _ _ _ _ Hreq). cbv beta iota.
  destruct err as [e|].
  { exists (Some e), w4, (es2 ++ es3 ++ es4). split; [reflexivity|].
    split; [rewrite Ht4, Ht3, Ht2, <- !app_assoc; reflexivity|].
    split; [repeat (apply Forall_app; split); assumption|].
    split; [apply view_kept; exact Hv4|].
    split; [intros _; exact Hv4|intros H; discriminate H]. }
  destruct (trace_committed curr w4) as [o Ht5].
  exists None, (committed curr w4),
    (es2 ++ es3 ++ es4 ++ [EvClose; EvAdjustTimeOffset o]).
  split; [apply commit_run|].
  split; [rewrite Ht5, Ht4, Ht3, Ht2, <- !app_assoc; reflexivity|].
  split.
  { repeat (apply Forall_app; split); try assumption.
    repeat constructor. }
  split; [rewrite kept_committed; apply view_kept; exact Hv4|].
  split; [intros H; contradiction|].
  intros _. exists w4, curr. destruct (Hparse eq_refl) as [Hp [Hans _]].
  split; [exact Hp|]. split; [exact Hv4|]. split; [reflexivity|exact Hans].
Qed.

Lemma wellformed_kept (w w' : World) :
  kept w' = kept w -> wellformed (host w) -> wellformed (host w').
Proof.
  unfold kept, wellformed. intros H Hwf.
  injection H as _ Hc _ _ _ _ Hl. rewrite Hc, Hl. exact Hwf.
Qed.

(** The state of the model after [Sync]: the flag cleared if a fetch was
    made, and then the time written if a publish was made. *)
Lemma Sync_steps (w : World) :
  wellformed (host w) ->
  exists (r : option error) (w' : World) (es : list event),
    Sync w = Ret r w' /\
    trace w' = trace w ++ es /\
    Forall (syncing (server_in_turn w) (LocalPort (config (host w)))
              (RemotePort (config (host w)))) es /\
    (fetch_due w = false -> r = None /\ es = []) /\
    wellformed (host w') /\
    config (host w') = config (host w) /\
    shared w'
    = (if is_nil r && publish_due w
       then ModelState.Set_ (set_Time (In (clock w') (locale (host w))))
       else fun s => s)
        (if fetch_due w
         then ModelState.mkState (ModelState.data (shared w)) false
         else shared w) /\
    (is_nil r && publish_due w = true -> lastPost (host w') = clock w') /\
    (is_nil r && fetch_due w = true ->
     exists (w4 : World) (curr : Time),
       parse (dgram (host w4)) = Some curr /\
       view w4 = view (after_Get w) /\
       w' = (if publish_due w then published else fun w0 => w0)
              (committed curr w4) /\
       answered w4).
Proof.
  intros Hwf. rewrite Sync_as_steps.
  destruct (fetch_due w) eqn:Hdue.
  - destruct (fetch_steps w Hwf)
      as [r [w1 [es [Hrun [Htr [Hes [Hkept [Hview Hok]]]]]]]].
    rewrite (bind_ret _ _ _ _ _ Hrun).
    pose proof (wellformed_kept _ _ Hkept Hwf) as Hwf1.
    assert (Hc1 : config (host w1) = config (host w))
      by (unfold kept in Hkept; injection Hkept as _ Hc _ _ _ _ _; exact Hc).
    assert (Hl1 : locale (host w1) = locale (host w))
      by (unfold kept in Hkept; injection Hkept as _ _ Hl _ _ _ _; exact Hl).
    destruct (kept_parts _ _ Hkept) as [_ [Hs1 _]].
    destruct r as [e|].
    + exists (Some e), w1, es. split; [reflexivity|].
      split; [exact Htr|]. split; [exact Hes|].
      split; [intros H; discriminate H|]. split; [exact Hwf1|].
      split; [exact Hc1|]. split; [exact Hs1|].
      split; intros H; discriminate H.
    + destruct (Hok eq_refl) as [w4 [curr [Hparse [Hv4 [Hw1 Hans]]]]].
      destruct (publish_due w) eqn:Hpub.
      * rewrite (bind_ret _ _ _ _ _ (publish_run w1)).
        exists None, (published w1), es. split; [reflexivity|].
        split; [exact Htr|]. split; [exact Hes|].
        split; [intros H; discriminate H|]. split; [exact Hwf1|].
        split; [exact Hc1|].
        split.
        { cbn [is_nil andb]. unfold published.
          cbn [shared with_shared with_host]. rewrite Hs1, Hl1. reflexivity. }
        split; [intros _; reflexivity|].
        intros _. exists w4, curr. rewrite Hw1.
        split; [exact Hparse|]. split; [exact Hv4|].
        split; [reflexivity|exact Hans].
      * exists None, w1, es. split; [reflexivity|].
        split; [exact Htr|]. split; [exact Hes|].
        split; [intros H; discriminate H|]. split; [exact Hwf1|].
        split; [exact Hc1|]. split; [exact Hs1|].
        split; [intros H; discriminate H|].
        intros _. exists w4, curr.
        split; [exact Hparse|]. split; [exact Hv4|].
        split; [exact Hw1|exact Hans].
  - rewrite (bind_ret (ret None) _ w w None eq_refl).
    destruct (publish_due w) eqn:Hpub.
    + rewrite (bind_ret _ _ _ _ _ (publish_run w)).
      exists None, (published w), []. split; [reflexivity|].
      split; [symmetry; apply app_nil_r|]. split; [constructor|].
      split; [intros _; split; reflexivity|]. split; [exact Hwf|].
      split; [reflexivity|]. split; [reflexivity|].
      split; [intros _; reflexivity|intros H; discriminate H].
    + exists None, w, []. split; [reflexivity|].
      split; [symmetry; apply app_nil_r|]. split; [constructor|].
      split; [intros _; split; reflexivity|]. split; [exact Hwf|].
      split; [reflexivity|]. split; [reflexivity|].
      split; intros H; discriminate H.
Qed.



Lemma committed_clock (curr : Time) (w : World) (s : Z) :
  curr = Unix s 0 -> 0 <= s < 2 ^ 32 ->
  - 2 ^ 61 <= timeOffset w <= 2 ^ 61 ->
  0 <= nanotime (committed curr w) <= 2 ^ 61 ->
  abs (clock (committed curr w)) = abs curr /\
  lastSync (host (committed curr w)) = clock (committed curr w).
Proof.
  intros -> Hs Hoff Hnano. split; [|reflexivity].
  unfold committed, called, clock, Sub, Unix in *.
  cbn [abs mono nanotime timeOffset host with_host with_timeOffset with_event
       with_call with_elapsed] in *.
  set (nt := nanotime w + Z.of_N (latency (env w) (calls w))) in *.
  set (off := timeOffset w) in *.
  clearbody nt off.
  unfold unixToInternal, Second in *.
  rewrite clamp_id
    by (unfold minDuration, maxDuration; lia).
  rewrite (i64_small (-1 * _)) by lia.
  rewrite i64_small by lia.
  lia.
Qed.

(** X8.  A fetch sets the clock to the server's time.  When the [Sync] of a
    well-formed client whose fetch is due returns no error, its last two
    calls into the driver were a read of the socket that returned a count
    of 48 and no error, and the close.  The wall clock then reads, at that
    moment, exactly the seconds that [parse] makes of bytes 40 to 43 of the
    buffer, whatever it read before; and where the driver wrote as many
    bytes as it counted, the buffer is the reply itself, so that these are
    bytes 40 to 43 of the reply.  That moment is noted as the time of the
    fetch; and if the publish was due, that time, in the zone of the client
    and without a monotonic reading, is the time in the model.  (The offset
    before and the time since boot are taken to be below 2^61 ns, some 73
    years.) *)
Theorem Sync_sets_the_clock :
  forall w : World,
    wellformed (host w) ->
    fetch_due w = true ->
    - 2 ^ 61 <= timeOffset w <= 2 ^ 61 ->
    exists (r : option error) (w' : World),
      Sync w = Ret r w' /\
      (r = None ->
       0 <= nanotime w' <= 2 ^ 61 ->
       exists k : nat,
         calls w' = S (S k) /\
         rd_err (conn_read (env w) k) = None /\
         rd_n (conn_read (env w) k) = 48 /\
         (List.length (rd_data (conn_read (env w) k)) = 48%nat ->
          dgram (host w') = rd_data (conn_read (env w) k) /\
          abs (clock w')
          = (seconds1970 (rd_data (conn_read (env w) k)) + unixToInternal)
            * Second) /\
         abs (clock w')
         = (seconds1970 (dgram (host w')) + unixToInternal) * Second /\
         lastSync (host w') = clock w' /\
         (publish_due w = true ->
          lastPost (host w') = clock w' /\
          mTime (ModelState.data (shared w'))
          = mkTime (abs (clock w')) None (locale (host w)))).
Proof.
  intros w Hwf Hdue Hoff.
  destruct (Sync_steps w Hwf)
    as [r [w' [es [Hrun [_ [_ [_ [_ [_ [Hshared [Hpost Hok]]]]]]]]]]].
  exists r, w'. split; [exact Hrun|]. intros -> Hnano.
  rewrite Hdue in Hok.
  destruct (Hok eq_refl) as [w4 [curr [Hparse [Hv4 [Hw' Hans]]]]].
  assert (Hlen : List.length (dgram (host w4)) = 48%nat).
  { rewrite (view_length _ _ Hv4). destruct Hwf as [_ [_ H]]. exact H. }
  rewrite parse_value in Hparse by lia.
  injection Hparse as Hcurr. symmetry in Hcurr.
  assert (Hs : 0 <= u32 (seconds1900 (dgram (host w4)) - seventyYears) < 2 ^ 32)
    by (unfold u32, wrapU; apply Z.mod_pos_bound; lia).
  assert (Hoff4 : - 2 ^ 61 <= timeOffset w4 <= 2 ^ 61).
  { destruct (view_parts _ _ Hv4) as [_ H]. rewrite H. exact Hoff. }
  assert (Hsame :
            clock w' = clock (committed curr w4) /\
            nanotime w' = nanotime (committed curr w4) /\
            dgram (host w') = dgram (host w4) /\
            lastSync (host w') = lastSync (host (committed curr w4)) /\
            calls w' = S (calls w4))
    by (rewrite Hw'; destruct (publish_due w); repeat split).
  destruct Hsame as [Hclock [Hnt [Hd [Hls Hcalls]]]].
  rewrite Hnt in Hnano.
  destruct (committed_clock curr w4 _ Hcurr Hs Hoff4 Hnano) as [Habs Hstamp].
  assert (Hsec : abs (clock w')
                 = (seconds1970 (dgram (host w')) + unixToInternal) * Second).
  { rewrite Hclock, Hd, Habs, Hcurr.
    unfold Unix, seconds1970, u32, wrapU. cbn [abs]. lia. }
  destruct Hans as [k [d0 [Hk [Herr [Hn [Hd0 Hbuf]]]]]].
  assert (He : env w4 = env w) by exact (view_env _ _ Hv4).
  rewrite He in Herr, Hn, Hbuf.
  exists k. split; [rewrite Hcalls, Hk; reflexivity|].
  split; [exact Herr|]. split; [exact Hn|].
  split.
  { intros Hfull.
    assert (Hreply : dgram (host w') = rd_data (conn_read (env w) k)).
    { rewrite Hd, Hbuf. apply overlay_full. rewrite Hfull, Hd0.
      reflexivity. }
    split; [exact Hreply|]. rewrite <- Hreply. exact Hsec. }
  split; [exact Hsec|].
  rewrite Hclock, Hls. split; [exact Hstamp|]. intros Hpub.
  rewrite Hpub in Hshared, Hpost. cbn [is_nil andb] in Hshared, Hpost.
  rewrite <- Hclock. split; [exact (Hpost eq_refl)|].
  rewrite Hshared. reflexivity.
Qed.

(** At boot, with the link up and the sample reply. *)
Lemma Sync_sets_the_clock_witness :
  exists w',
    Sync (boot (env_up sample_reply) (New no_config)) = Ret None w' /\
    abs (clock w') = abs (Unix 1335894272 0) /\
    mTime (ModelState.data (shared w'))
    = mkTime (abs (clock w')) None (FixedZone "localtime" (-21600)).
Proof.
  destruct (Sync_sets_the_clock
              (boot (env_up sample_reply) (New no_config))
              (New_wellformed no_config ltac:(cbn; lia)) eq_refl
              ltac:(cbn; lia))
    as [r [w' [Hrun Hok]]].
  assert (Hrun0 : exists w0,
             Sync (boot (env_up sample_reply) (New no_config))
             = Ret None w0 /\ nanotime w0 = 5 * Millisecond /\
             dgram (host w0) = sample_reply).
  { eexists. split; [vm_compute; reflexivity|]. split; reflexivity. }
  destruct Hrun0 as [w0 [Hrun0 [Hnt Hd]]].
  rewrite Hrun0 in Hrun. apply Ret_inj in Hrun as [<- <-].
  destruct (Hok eq_refl) as [k [_ [_ [_ [_ [Habs [_ Hpub]]]]]]].
  { rewrite Hnt. cbn. lia. }
  exists w0. split; [exact Hrun0|]. split.
  - rewrite Habs, Hd. reflexivity.
  - exact (proj2 (Hpub eq_refl)).
Defined.

(** X9.  [Sync] writes nothing but the time into the model, and that only
    when it returns no error and the publish is due: status, retry counter,
    access point and address are as before, and so is the whole model when
    nothing is published.  The client stays well-formed, with the
    configuration it had. *)
Theorem Sync_writes_only_the_time :
  forall w : World,
    wellformed (host w) ->
    exists (r : option error) (w' : World),
      Sync w = Ret r w' /\
      mStatus (ModelState.data (shared w'))
      = mStatus (ModelState.data (shared w)) /\
      mRetry (ModelState.data (shared w'))
      = mRetry (ModelState.data (shared w)) /\
      mAP (ModelState.data (shared w')) = mAP (ModelState.data (shared w)) /\
      mIP (ModelState.data (shared w')) = mIP (ModelState.data (shared w)) /\
      (is_nil r && publish_due w = false ->
       ModelState.data (shared w') = ModelState.data (shared w)) /\
      wellformed (host w') /\
      config (host w') = config (host w).
Proof.
  intros w Hwf.
  destruct (Sync_steps w Hwf)
    as [r [w' [es [Hrun [_ [_ [_ [Hwf' [Hcfg [Hshared _]]]]]]]]]].
  exists r, w'. split; [exact Hrun|]. rewrite Hshared.
  destruct (is_nil r && publish_due w); destruct (fetch_due w);
    repeat split; try assumption; try reflexivity; try congruence;
    apply Hwf'.
Qed.

Lemma Sync_writes_only_the_time_witness :
  exists w',
    Sync (entered StatusSynchronized
            (boot (env_up sample_reply) (New no_config))) = Ret None w' /\
    mStatus (ModelState.data (shared w')) = StatusSynchronized.
Proof.
  destruct (Sync_writes_only_the_time
              (entered StatusSynchronized
                 (boot (env_up sample_reply) (New no_config)))
              (New_wellformed no_config ltac:(cbn; lia)))
    as [r [w' [Hrun [Hstatus _]]]].
  assert (Hr : exists w0,
             Sync (entered StatusSynchronized
                     (boot (env_up sample_reply) (New no_config)))
             = Ret None w0)
    by (eexists; vm_compute; reflexivity).
  destruct Hr as [w0 Hr]. rewrite Hr in Hrun.
  apply Ret_inj in Hrun as [<- <-].
  exists w0. split; [exact Hr|exact Hstatus].
Defined.

(** What is due in a world [ns] nanoseconds after both steps were made,
    by the difference of the monotonic readings. *)
Lemma due_later (w0 : World) (ns off : Z) :
  fetch_due (later ns off w0)
  = IsZero (clock (later ns off w0))
    || (Interval (config (host w0)) <=? clamp ns) /\
  publish_due (later ns off w0)
  = IsZero (clock (later ns off w0))
    || (Precision (config (host w0)) <=? clamp ns).
Proof.
  assert (Hsub : Sub (clock (later ns off w0)) (clock w0) = clamp ns).
  { unfold Sub, clock, later.
    cbn [mono nanotime with_timeOffset with_elapsed with_host].
    f_equal. lia. }
  split.
  - unfold fetch_due, NTP_isExpired, isExpired. cbn [fst].
    change (lastSync (host (later ns off w0))) with (clock w0).
    rewrite Hsub. reflexivity.
  - unfold publish_due, NTP_isExpired, isExpired. cbn [snd].
    change (lastPost (host (later ns off w0))) with (clock w0).
    rewrite Hsub. reflexivity.
Qed.

Lemma monotonic_range_not_zero (w : World) :
  monotonic_range w -> IsZero (clock w) = false.
Proof.
  unfold monotonic_range, IsZero, clock. cbn [abs]. intros H.
  apply Z.eqb_neq. unfold unixToInternal, Second in *. lia.
Qed.

(** X10.  Between its intervals [Sync] rests, by the monotonic clock.  Take
    a world [ns] nanoseconds after both steps were made, with the clock
    offset moved to any value for which the wall clock, then and now, reads
    a time between 1970 and 2157 (where [time.Now] gives a monotonic
    reading).  There a step is due exactly when its interval has passed,
    whatever the wall clock has jumped by.  While neither interval has
    passed, [Sync] returns no error and leaves the world as it is; and
    when only that of the publish has passed, [Sync] makes no call into
    the driver and writes the time into the model. *)
Theorem Sync_rests_between_intervals :
  forall (w0 : World) (ns off : Z),
    monotonic_range w0 ->
    monotonic_range (later ns off w0) ->
    0 <= ns < 2 ^ 63 ->
    fetch_due (later ns off w0) = (Interval (config (host w0)) <=? ns) /\
    publish_due (later ns off w0) = (Precision (config (host w0)) <=? ns) /\
    (ns < Interval (config (host w0)) ->
     ns < Precision (config (host w0)) ->
     Sync (later ns off w0) = Ret None (later ns off w0)) /\
    (ns < Interval (config (host w0)) ->
     Precision (config (host w0)) <= ns ->
     Sync (later ns off w0) = Ret None (published (later ns off w0))).
Proof.
  intros w0 ns off _ Hrange Hns.
  destruct (due_later w0 ns off) as [Hf Hp].
  rewrite (monotonic_range_not_zero _ Hrange) in Hf, Hp.
  cbn [orb] in Hf, Hp.
  assert (Hc : clamp ns = ns)
    by (unfold clamp, minDuration, maxDuration; lia).
  rewrite Hc in Hf, Hp.
  split; [exact Hf|]. split; [exact Hp|]. split.
  - intros Hi Hpr. rewrite Sync_as_steps, Hf, Hp.
    rewrite (proj2 (Z.leb_gt _ _)) by lia.
    rewrite (proj2 (Z.leb_gt _ _)) by lia.
    reflexivity.
  - intros Hi Hpr. rewrite Sync_as_steps, Hf, Hp.
    rewrite (proj2 (Z.leb_gt _ _)) by lia.
    rewrite (proj2 (Z.leb_le _ _)) by lia.
    rewrite (bind_ret (ret None) _ _ _ None eq_refl).
    rewrite (bind_ret _ _ _ _ _ (publish_run (later ns off w0))).
    reflexivity.
Qed.

End Fetching.

(** ** The loop *)

Section IdleLoop.

Import GoTime Run.

Variable Network : list AP.
Variable connect : AP -> M (option error).
Variable sync : M (option error).

Lemma tick_run (w : World) :
  tick Network connect sync w =
  ((if ModelState.changed (shared w) then
      Update (ModelState.data (shared w)) ;;
      match mStatus (ModelState.data (shared w)) with
      | StatusIdle | StatusDisconnected => Set_ (set_Status StatusConnecting)
      | StatusConnecting => connectEach connect Network
      | StatusUnsynchronized => Mod (set_Retry 0) ;; syncOrStay sync
      | StatusSynchronized => syncOrDemote sync
      end
    else
      match mStatus (ModelState.data (shared w)) with
      | StatusUnsynchronized =>
          Mod (fun m => set_Retry (uint (mRetry m + 1)) m) ;; syncOrStay sync
      | StatusSynchronized => syncOrDemote sync
      | _ => ret tt
      end) ;;
   Sleep (10 * Millisecond)) (after_Get w).
Proof.
  unfold tick. rewrite (bind_ret _ _ _ _ _ (Get_run w)). reflexivity.
Qed.

Lemma after_Get_unchanged (w : World) :
  ModelState.changed (shared w) = false -> shared (after_Get w) = shared w.
Proof.
  unfold after_Get. cbn [shared with_shared].
  destruct (shared w) as [d c]. cbn. intros ->. reflexivity.
Qed.

(** X11.  Nothing but a write to the model gets the loop out of the states
    Idle, Disconnected and Connecting.  With the flag clear in one of them,
    any number of ticks calls neither connect nor sync nor the renderer nor
    the driver, and leaves the model and the client as they are: only the
    sleeps of 10 ms go by.  So after a Connecting tick in which every
    connect failed, no further connect is tried. *)
Theorem loop_waits_for_change :
  forall (n : nat) (w : World),
    ModelState.changed (shared w) = false ->
    waits_for_change (status_of w) ->
    exists w',
      loop Network connect sync n w = Spin w' /\
      shared w' = shared w /\
      host w' = host w /\
      calls w' = calls w /\
      trace w' = trace w ++ repeat (EvSleep (10 * Millisecond)) n.
Proof.
  induction n as [|n IH]; intros w Hflag Hstate.
  - exists w. repeat split. symmetry. apply app_nil_r.
  - set (w1 := with_elapsed (Z.max 0 (10 * Millisecond))
                 (with_event (EvSleep (10 * Millisecond)) (after_Get w))).
    assert (Htick : tick Network connect sync w = Ret tt w1).
    { rewrite tick_run, Hflag. unfold status_of in Hstate.
      destruct (mStatus (ModelState.data (shared w)));
        try contradiction; reflexivity. }
    pose proof (after_Get_unchanged w Hflag) as Hshared.
    destruct (IH w1) as [w' [Hrun [Hs [Hh [Hc Ht]]]]].
    + change (shared w1) with (shared (after_Get w)). rewrite Hshared.
      exact Hflag.
    + unfold status_of. change (shared w1) with (shared (after_Get w)).
      rewrite Hshared. exact Hstate.
    + exists w'. cbn [loop]. rewrite (bind_ret _ _ _ _ _ Htick).
      split; [exact Hrun|]. split; [rewrite Hs; exact Hshared|].
      split; [exact Hh|]. split; [exact Hc|].
      rewrite Ht. unfold w1. cbn [trace with_elapsed with_event after_Get
                                  with_shared repeat].
      rewrite <- app_assoc. reflexivity.
Qed.

End IdleLoop.

Section IdleLoopRuns.

Import GoTime Run.

(** The program at boot, before [Run] has written anything. *)
Lemma loop_waits_for_change_witness :
  exists w',
    loop [mkAP "home" "h"] (WiFi.Connect 1) NTPClient.Sync 3
      (boot env_down (NTPClient.New no_config)) = Spin w' /\
    trace w' = repeat (EvSleep (10 * Millisecond)) 3.
Proof.
  destruct (loop_waits_for_change [mkAP "home" "h"] (WiFi.Connect 1)
              NTPClient.Sync 3 (boot env_down (NTPClient.New no_config))
              eq_refl I) as [w' [Hrun [_ [_ [_ Htrace]]]]].
  exists w'. split; [exact Hrun|exact Htrace].
Defined.

End IdleLoopRuns.

(** ** The loop with the program's own [Connect] and [Sync] *)

Section Controller.

Import GoTime Run NTPClient.

Variable Network : list AP.
Variable fuel : nat.

Lemma displays_syncing (name : string) (l r : Z) (es : list event) :
  Forall (syncing name l r) es -> displays es = [].
Proof.
  induction 1 as [|e es He _ IH]; [reflexivity|].
  destruct e; try contradiction; exact IH.
Qed.

Lemma syncOrStay_run (w w2 : World) (r : option error) :
  Sync w = Ret r w2 ->
  syncOrStay Sync w
  = Ret tt
      match r with
      | Some e => with_event (EvPrintln ("error: " ++ Error e)) w2
      | None =>
          with_shared (ModelState.Set_ (set_Status StatusSynchronized)) w2
      end.
Proof.
  intros Hrun. unfold syncOrStay. rewrite (bind_ret _ _ _ _ _ Hrun).
  destruct r; reflexivity.
Qed.

Lemma syncOrDemote_run (w w2 : World) (r : option error) :
  Sync w = Ret r w2 ->
  syncOrDemote Sync w
  = Ret tt
      match r with
      | Some e =>
          with_shared (ModelState.Set_ (set_Status StatusUnsynchronized))
            (with_event (EvPrintln ("error: " ++ Error e)) w2)
      | None => w2
      end.
Proof.
  intros Hrun. unfold syncOrDemote. rewrite (bind_ret _ _ _ _ _ Hrun).
  destruct r; reflexivity.
Qed.

Lemma tick_unsynchronized (w w2 : World) (r : option error) :
  status_of w = StatusUnsynchronized ->
  Sync (retrying w) = Ret r w2 ->
  tick_main Network fuel w
  = Ret tt
      (rested
         match r with
         | Some e => with_event (EvPrintln ("error: " ++ Error e)) w2
         | None =>
             with_shared (ModelState.Set_ (set_Status StatusSynchronized)) w2
         end).
Proof.
  unfold status_of, tick_main. intros Hs Hrun. rewrite tick_run, Hs.
  unfold retrying, told, retry_in_turn in Hrun.
  apply syncOrStay_run in Hrun.
  destruct (ModelState.changed (shared w)).
  - erewrite (bind_ret (_ ;; _) _ (after_Get w)); [reflexivity|].
    rewrite (bind_ret (Update _) _ _ _ tt eq_refl).
    rewrite (bind_ret (Mod _) _ _ _ tt eq_refl).
    exact Hrun.
  - erewrite (bind_ret (_ ;; _) _ (after_Get w)); [reflexivity|].
    rewrite (bind_ret (Mod _) _ _ _ tt eq_refl).
    exact Hrun.
Qed.

Lemma tick_synchronized (w w2 : World) (r : option error) :
  status_of w = StatusSynchronized ->
  Sync (told w) = Ret r w2 ->
  tick_main Network fuel w
  = Ret tt
      (rested
         match r with
         | Some e =>
             with_shared (ModelState.Set_ (set_Status StatusUnsynchronized))
               (with_event (EvPrintln ("error: " ++ Error e)) w2)
         | None => w2
         end).
Proof.
  unfold status_of, tick_main. intros Hs Hrun. rewrite tick_run, Hs.
  unfold told in Hrun. apply syncOrDemote_run in Hrun.
  destruct (ModelState.changed (shared w)).
  - erewrite (bind_ret (_ ;; _) _ (after_Get w)); [reflexivity|].
    rewrite (bind_ret (Update _) _ _ _ tt eq_refl).
    exact Hrun.
  - erewrite (bind_ret _ _ (after_Get w)); [reflexivity|].
    exact Hrun.
Qed.

Lemma trace_told (w : World) : trace (told w) = trace w ++ shown w.
Proof.
  unfold told, shown. destruct (ModelState.changed (shared w)).
  - reflexivity.
  - symmetry. apply app_nil_r.
Qed.

Lemma shared_told (w : World) :
  shared (told w) = ModelState.mkState (ModelState.data (shared w)) false.
Proof. unfold told. destruct (ModelState.changed (shared w)); reflexivity. Qed.

Lemma host_told (w : World) : host (told w) = host w.
Proof. unfold told. destruct (ModelState.changed (shared w)); reflexivity. Qed.

Lemma due_told (w : World) :
  fetch_due (told w) = fetch_due w /\ publish_due (told w) = publish_due w.
Proof.
  unfold told. destruct (ModelState.changed (shared w)); split; reflexivity.
Qed.

Lemma server_in_turn_eq (a b : World) :
  mRetry (ModelState.data (shared a)) = mRetry (ModelState.data (shared b)) ->
  config (host a) = config (host b) ->
  server_in_turn a = server_in_turn b.
Proof. unfold server_in_turn. intros -> ->. reflexivity. Qed.

Lemma shared_retrying (w : World) :
  shared (retrying w)
  = ModelState.mkState
      (set_Retry (retry_in_turn w) (ModelState.data (shared w))) false.
Proof.
  unfold retrying. cbn [shared with_shared]. rewrite shared_told. reflexivity.
Qed.

(** X12.  A tick in state Unsynchronized.  With a well-formed client the
    tick returns.  It calls [Sync] once, in the world in which the snapshot
    was read (and shown, if the flag was set) and the retry count put to 0
    if a change was read and to one more than before (in 32 bits) if none
    was, so that a [Sync] that fetches turns to the server this count
    selects.  What this call returns decides: if it returns no error the
    status becomes Synchronized and the flag is set; if it returns one,
    that error is printed, the status stays Unsynchronized and the flag is
    clear, so that the next tick counts one retry more.  Apart from the
    snapshot shown, what [Sync] did, the error printed and the sleep of
    10 ms that ends it, the tick does nothing to the outside, and it leaves
    the client as [Sync] left it. *)
Theorem unsynchronized_tick :
  forall w : World,
    wellformed (host w) ->
    status_of w = StatusUnsynchronized ->
    exists (r : option error) (w2 w' : World) (es : list event),
      Sync (retrying w) = Ret r w2 /\
      trace w2 = trace w ++ shown w ++ es /\
      host w' = host w2 /\
      tick_main Network fuel w = Ret tt w' /\
      status_of w'
      = (if is_nil r then StatusSynchronized else StatusUnsynchronized) /\
      mRetry (ModelState.data (shared w')) = retry_in_turn w /\
      ModelState.changed (shared w') = is_nil r /\
      trace w'
      = trace w ++ shown w ++ es ++ complaint r
        ++ [EvSleep (10 * Millisecond)] /\
      Forall
        (syncing (server_in_turn w') (LocalPort (config (host w)))
           (RemotePort (config (host w)))) es /\
      config (host w') = config (host w) /\
      wellformed (host w').
Proof.
  intros w Hwf Hs.
  assert (Hwf1 : wellformed (host (retrying w))).
  { change (host (retrying w)) with (host (told w)). rewrite host_told.
    exact Hwf. }
  destruct (Sync_steps (retrying w) Hwf1)
    as [r [w2 [es [Hrun [Htr [Hes [_ [Hwf2 [Hc2 [Hsh _]]]]]]]]]].
  change (host (retrying w)) with (host (told w)) in Hes, Hc2.
  rewrite host_told in Hes, Hc2.
  change (trace (retrying w)) with (trace (told w)) in Htr.
  rewrite trace_told in Htr. rewrite shared_retrying in Hsh.
  exists r, w2. eexists. exists es.
  split; [exact Hrun|].
  split; [rewrite Htr, <- app_assoc; reflexivity|].
  split; [|split; [exact (tick_unsynchronized w w2 r Hs Hrun)|]];
    [destruct r; reflexivity|].
  unfold status_of in *.
  assert (Hdata :
            mRetry (ModelState.data (shared w2)) = retry_in_turn w /\
            mStatus (ModelState.data (shared w2)) = StatusUnsynchronized /\
            (is_nil r = false -> ModelState.changed (shared w2) = false)).
  { rewrite Hsh.
    destruct (is_nil r); destruct (publish_due (retrying w));
      destruct (fetch_due (retrying w)); cbn [andb];
      (split; [reflexivity|split; [exact Hs|]]);
      intros H; try discriminate H; reflexivity. }
  destruct Hdata as [Hretry [Hstatus Hflag]].
  assert (Hturn : server_in_turn (retrying w)
                  = server_in_turn
                      (rested
                         match r with
                         | Some e =>
                             with_event (EvPrintln ("error: " ++ Error e)) w2
                         | None =>
                             with_shared
                               (ModelState.Set_
                                  (set_Status StatusSynchronized)) w2
                         end)).
  { apply server_in_turn_eq.
    - rewrite shared_retrying.
      destruct r; cbn [rested with_elapsed with_event with_shared shared
                       ModelState.data ModelState.Set_ set_Status set_Retry
                       mRetry]; symmetry; exact Hretry.
    - change (host (retrying w)) with (host (told w)). rewrite host_told.
      destruct r; symmetry; exact Hc2. }
  rewrite <- Hturn.
  destruct r as [e|].
  - cbn [rested with_elapsed with_event shared trace host is_nil complaint].
    split; [exact Hstatus|]. split; [exact Hretry|].
    split; [exact (Hflag eq_refl)|].
    split; [rewrite Htr, <- !app_assoc; reflexivity|].
    split; [exact Hes|]. split; [exact Hc2|exact Hwf2].
  - cbn [rested with_elapsed with_event with_shared shared trace host is_nil
         complaint ModelState.data ModelState.changed ModelState.Set_
         set_Status mStatus mRetry].
    split; [reflexivity|]. split; [exact Hretry|]. split; [reflexivity|].
    split; [rewrite Htr, <- !app_assoc; reflexivity|].
    split; [exact Hes|]. split; [exact Hc2|exact Hwf2].
Qed.

(** X13.  A tick in state Synchronized.  With a well-formed client the tick
    returns and leaves the retry count alone.  It calls [Sync] once, in the
    world in which the snapshot was read (and shown, if the flag was set).
    What this call returns decides: if it returns no error the status
    stays Synchronized, and the flag is set exactly when the time was
    published; if it returns one, that error is printed, the status goes
    back to Unsynchronized and the flag is set.  Apart from the snapshot
    shown, what [Sync] did, the error printed and the sleep of 10 ms that
    ends it, the tick does nothing to the outside, and it leaves the client
    as [Sync] left it. *)
Theorem synchronized_tick :
  forall w : World,
    wellformed (host w) ->
    status_of w = StatusSynchronized ->
    exists (r : option error) (w2 w' : World) (es : list event),
      Sync (told w) = Ret r w2 /\
      trace w2 = trace w ++ shown w ++ es /\
      host w' = host w2 /\
      tick_main Network fuel w = Ret tt w' /\
      status_of w'
      = (if is_nil r then StatusSynchronized else StatusUnsynchronized) /\
      mRetry (ModelState.data (shared w'))
      = mRetry (ModelState.data (shared w)) /\
      ModelState.changed (shared w')
      = (if is_nil r then publish_due w else true) /\
      trace w'
      = trace w ++ shown w ++ es ++ complaint r
        ++ [EvSleep (10 * Millisecond)] /\
      Forall
        (syncing (server_in_turn w) (LocalPort (config (host w)))
           (RemotePort (config (host w)))) es /\
      (fetch_due w = false -> r = None /\ es = []) /\
      config (host w') = config (host w) /\
      wellformed (host w').
Proof.
  intros w Hwf Hs.
  assert (Hwf1 : wellformed (host (told w))) by (rewrite host_told; exact Hwf).
  destruct (Sync_steps (told w) Hwf1)
    as [r [w2 [es [Hrun [Htr [Hes [Hidle [Hwf2 [Hc2 [Hsh _]]]]]]]]]].
  destruct (due_told w) as [Hfd Hpd].
  rewrite host_told in Hes, Hc2. rewrite trace_told in Htr.
  rewrite shared_told, Hfd, Hpd in Hsh. rewrite Hfd in Hidle.
  assert (Hturn : server_in_turn (told w) = server_in_turn w).
  { apply server_in_turn_eq; [rewrite shared_told|rewrite host_told];
      reflexivity. }
  rewrite Hturn in Hes.
  exists r, w2. eexists. exists es.
  split; [exact Hrun|].
  split; [rewrite Htr, <- app_assoc; reflexivity|].
  split; [|split; [exact (tick_synchronized w w2 r Hs Hrun)|]];
    [destruct r; reflexivity|].
  unfold status_of in *.
  assert (Hdata :
            mRetry (ModelState.data (shared w2))
            = mRetry (ModelState.data (shared w)) /\
            mStatus (ModelState.data (shared w2)) = StatusSynchronized /\
            ModelState.changed (shared w2) = is_nil r && publish_due w).
  { rewrite Hsh.
    destruct (is_nil r); destruct (publish_due w);
      destruct (fetch_due w); cbn [andb];
      (split; [reflexivity|split; [exact Hs|reflexivity]]). }
  destruct Hdata as [Hretry [Hstatus Hflag]].
  destruct r as [e|].
  - cbn [rested with_elapsed with_event with_shared shared trace host is_nil
         complaint ModelState.data ModelState.changed ModelState.Set_
         set_Status mStatus mRetry].
    split; [reflexivity|]. split; [exact Hretry|]. split; [reflexivity|].
    split; [rewrite Htr, <- !app_assoc; reflexivity|].
    split; [exact Hes|]. split; [exact Hidle|].
    split; [exact Hc2|exact Hwf2].
  - cbn [rested with_elapsed with_event shared trace host is_nil complaint].
    split; [exact Hstatus|]. split; [exact Hretry|].
    split; [exact Hflag|].
    split; [rewrite Htr, <- !app_assoc; reflexivity|].
    split; [exact Hes|]. split; [exact Hidle|].
    split; [exact Hc2|exact Hwf2].
Qed.

Lemma last_candidate_cons (ap : AP) (rest : list AP) :
  rest <> [] -> last_candidate (ap :: rest) = last_candidate rest.
Proof. destruct rest; [contradiction|reflexivity]. Qed.

(** The loop over the candidates with the program's own [Connect], taken
    apart where it returns. *)
Lemma connectEach_inv (aps : list AP) :
  forall w w' : World,
    connectEach (WiFi.Connect fuel) aps w = Ret tt w' ->
    displays (trace w') = displays (trace w) /\
    begun (trace w') = begun (trace w) ++ aps /\
    (aps = [] -> w' = w) /\
    (aps <> [] ->
     status_of w' = StatusUnsynchronized /\
     mAP (ModelState.data (shared w')) = last_candidate aps /\
     ModelState.changed (shared w') = true).
Proof.
  induction aps as [|ap rest IH]; intros w w' H.
  - apply Ret_inj in H as [_ <-].
    split; [reflexivity|]. split; [symmetry; apply app_nil_r|].
    split; [reflexivity|intros Hne; contradiction].
  - cbn [connectEach] in H. unfold bind at 1 in H.
    destruct (WiFi.Connect fuel ap w) as [r w1 | w1 | w1] eqn:Hc;
      try discriminate H.
    destruct (Connect_inv _ _ _ _ _ Hc) as [-> [Hdata [_ [Hbegun Hdisp]]]].
    rewrite (bind_ret (Set_ _) _ _ _ tt eq_refl) in H.
    destruct (IH _ _ H) as [Hd [Hb [Hnil Hcons]]].
    cbn [trace with_shared] in Hd, Hb.
    split; [rewrite Hd; exact Hdisp|].
    split; [rewrite Hb, Hbegun, <- app_assoc; reflexivity|].
    split; [intros Hne; discriminate Hne|]. intros _.
    destruct rest as [|ap' rest'].
    + rewrite (Hnil eq_refl). unfold status_of.
      cbn [shared with_shared ModelState.data ModelState.changed
           ModelState.Set_ set_Status mStatus mAP].
      rewrite Hdata. repeat split.
    + rewrite last_candidate_cons by discriminate.
      apply Hcons. discriminate.
Qed.

Lemma tick_main_connecting (w w' : World) :
  ModelState.changed (shared w) = true ->
  status_of w = StatusConnecting ->
  tick_main Network fuel w = Ret tt w' ->
  exists w1,
    connectEach (WiFi.Connect fuel) Network
      (with_event (EvDisplay (ModelState.data (shared w))) (after_Get w))
    = Ret tt w1 /\
    w' = rested w1.
Proof.
  intros Hc Hs H. unfold tick_main in H.
  rewrite (tick_connecting _ _ _ w Hc Hs) in H. unfold bind at 1 in H.
  destruct (connectEach _ _ _) as [[] w1 | w1 | w1]; try discriminate H.
  exists w1. split; [reflexivity|].
  apply Ret_inj in H as [_ <-]. reflexivity.
Qed.

(** X14.  A tick in state Connecting, with the program's own [Connect].
    Where a tick that read a change returns, every candidate has had its
    attempt, in the configured order, and with a candidate to try the
    status is Unsynchronized, the flag is set, and the access point in the
    model is the last candidate of the list, whichever of them the device
    joined first.  With no candidate at all the status stays Connecting
    and the flag stays clear. *)
Theorem connecting_tick_records_last_candidate :
  forall w w' : World,
    ModelState.changed (shared w) = true ->
    status_of w = StatusConnecting ->
    tick_main Network fuel w = Ret tt w' ->
    begun (trace w') = begun (trace w) ++ Network /\
    (Network <> [] ->
     status_of w' = StatusUnsynchronized /\
     mAP (ModelState.data (shared w')) = last_candidate Network /\
     ModelState.changed (shared w') = true) /\
    (Network = [] ->
     status_of w' = StatusConnecting /\
     ModelState.changed (shared w') = false).
Proof.
  intros w w' Hc Hs H.
  destruct (tick_main_connecting w w' Hc Hs H) as [w1 [Hrun ->]].
  destruct (connectEach_inv _ _ _ Hrun) as [_ [Hb [Hnil Hcons]]].
  split.
  - cbn [rested trace with_elapsed with_event]. rewrite begun_app, Hb.
    cbn [trace with_event after_Get with_shared]. rewrite begun_app.
    cbn. rewrite !app_nil_r. reflexivity.
  - split.
    + intros Hne. exact (Hcons Hne).
    + intros He. rewrite (Hnil He). split; [exact Hs|reflexivity].
Qed.

Lemma displays_shown (w : World) :
  displays (shown w)
  = if ModelState.changed (shared w) then [ModelState.data (shared w)]
    else [].
Proof. unfold shown. destruct (ModelState.changed (shared w)); reflexivity. Qed.

Lemma displays_complaint (r : option error) : displays (complaint r) = [].
Proof. destruct r; reflexivity. Qed.

(** X15.  The renderer is told once on every tick that read a change, and
    never on one that read none: in each of the five states, a tick that
    returns has called [disp.Update] with the snapshot it read if the flag
    was set, and has not called it otherwise. *)
Theorem renderer_told_once_per_change :
  forall w w' : World,
    wellformed (host w) ->
    tick_main Network fuel w = Ret tt w' ->
    displays (trace w')
    = displays (trace w)
      ++ (if ModelState.changed (shared w)
          then [ModelState.data (shared w)] else []).
Proof.
  intros w w' Hwf H. rewrite <- displays_shown.
  destruct (status_of w) eqn:Hs.
  1, 2:
    unfold tick_main in H; rewrite tick_run in H; unfold status_of in Hs;
    rewrite Hs in H; unfold shown;
    destruct (ModelState.changed (shared w));
    apply Ret_inj in H as [_ <-];
    cbn [trace with_elapsed with_event with_shared after_Get];
    rewrite !displays_app; cbn; rewrite ?app_nil_r; reflexivity.
  - unfold shown. destruct (ModelState.changed (shared w)) eqn:Hc.
    + destruct (tick_main_connecting w w' Hc Hs H) as [w1 [Hrun ->]].
      destruct (connectEach_inv _ _ _ Hrun) as [Hd _].
      cbn [rested trace with_elapsed with_event]. rewrite displays_app, Hd.
      cbn [trace with_event after_Get with_shared]. rewrite displays_app.
      cbn. rewrite !app_nil_r. reflexivity.
    + unfold tick_main in H; rewrite tick_run in H; unfold status_of in Hs.
      rewrite Hs, Hc in H. apply Ret_inj in H as [_ <-].
      cbn [trace with_elapsed with_event with_shared after_Get].
      rewrite !displays_app. cbn. rewrite ?app_nil_r. reflexivity.
  - assert (Hwf1 : wellformed (host (retrying w))).
    { change (host (retrying w)) with (host (told w)). rewrite host_told.
      exact Hwf. }
    destruct (Sync_steps (retrying w) Hwf1)
      as [r [w2 [es [Hrun [Htr [Hes _]]]]]].
    rewrite (tick_unsynchronized w w2 r Hs Hrun) in H.
    apply Ret_inj in H as [_ <-].
    change (trace (retrying w)) with (trace (told w)) in Htr.
    rewrite trace_told in Htr.
    assert (Ht : trace
                   match r with
                   | Some e => with_event (EvPrintln ("error: " ++ Error e)) w2
                   | None =>
                       with_shared
                         (ModelState.Set_ (set_Status StatusSynchronized)) w2
                   end
                 = trace w2 ++ complaint r).
    { destruct r; [reflexivity|symmetry; apply app_nil_r]. }
    cbn [rested trace with_elapsed with_event]. rewrite Ht, Htr.
    rewrite !displays_app, displays_complaint, (displays_syncing _ _ _ _ Hes).
    cbn. rewrite !app_nil_r. reflexivity.
  - assert (Hwf1 : wellformed (host (told w)))
      by (rewrite host_told; exact Hwf).
    destruct (Sync_steps (told w) Hwf1)
      as [r [w2 [es [Hrun [Htr [Hes _]]]]]].
    rewrite (tick_synchronized w w2 r Hs Hrun) in H.
    apply Ret_inj in H as [_ <-].
    rewrite trace_told in Htr.
    assert (Ht : trace
                   match r with
                   | Some e =>
                       with_shared
                         (ModelState.Set_ (set_Status StatusUnsynchronized))
                         (with_event (EvPrintln ("error: " ++ Error e)) w2)
                   | None => w2
                   end
                 = trace w2 ++ complaint r).
    { destruct r; [reflexivity|symmetry; apply app_nil_r]. }
    cbn [rested trace with_elapsed with_event]. rewrite Ht, Htr.
    rewrite !displays_app, displays_complaint, (displays_syncing _ _ _ _ Hes).
    cbn. rewrite !app_nil_r. reflexivity.
Qed.

End Controller.

Section ControllerRuns.

Import GoTime Run NTPClient.

(** The first tick after the link came up, with a server that answers. *)
Lemma unsynchronized_tick_witness :
  exists (r : option error) (w' : World),
    tick_main [] 1
      (entered StatusUnsynchronized
         (boot (env_up sample_reply) (New no_config))) = Ret tt w' /\
    status_of w'
    = (if is_nil r then StatusSynchronized else StatusUnsynchronized) /\
    mRetry (ModelState.data (shared w')) = 0 /\
    ModelState.changed (shared w') = is_nil r.
Proof.
  destruct (unsynchronized_tick [] 1
              (entered StatusUnsynchronized
                 (boot (env_up sample_reply) (New no_config)))
              (New_wellformed no_config ltac:(cbn; lia)) eq_refl)
    as [r [w2 [w' [es [_ [_ [_ [Hrun [Hstatus [Hretry [Hflag _]]]]]]]]]]].
  exists r, w'. split; [exact Hrun|]. split; [exact Hstatus|].
  split; [exact Hretry|exact Hflag].
Defined.

(** A tick in state Synchronized with no link: the fetch fails. *)
Lemma synchronized_tick_witness :
  exists (r : option error) (w' : World),
    tick_main [] 1
      (entered StatusSynchronized (boot env_down (New no_config)))
    = Ret tt w' /\
    status_of w'
    = (if is_nil r then StatusSynchronized else StatusUnsynchronized) /\
    mRetry (ModelState.data (shared w')) = 0.
Proof.
  destruct (synchronized_tick [] 1
              (entered StatusSynchronized (boot env_down (New no_config)))
              (New_wellformed no_config ltac:(cbn; lia)) eq_refl)
    as [r [w2 [w' [es [_ [_ [_ [Hrun [Hstatus [Hretry _]]]]]]]]]].
  exists r, w'. split; [exact Hrun|]. split; [exact Hstatus|exact Hretry].
Defined.

(** Two candidates, and a link that is up at the first poll: the model
    names the second. *)
Lemma connecting_tick_records_last_candidate_witness :
  exists w',
    tick_main [mkAP "home" "h"; mkAP "guest" "g"] 1
      (entered StatusConnecting
         (boot (env_up sample_reply) (New no_config))) = Ret tt w' /\
    begun (trace w') = [mkAP "home" "h"; mkAP "guest" "g"] /\
    status_of w' = StatusUnsynchronized /\
    mAP (ModelState.data (shared w')) = mkAP "guest" "g".
Proof.
  eexists. split; [vm_compute; reflexivity|].
  match goal with
  | |- context [shared ?w1] =>
      destruct (connecting_tick_records_last_candidate
                  [mkAP "home" "h"; mkAP "guest" "g"] 1
                  (entered StatusConnecting
                     (boot (env_up sample_reply) (New no_config)))
                  w1 eq_refl eq_refl ltac:(vm_compute; reflexivity))
        as [Hbegun [Hsome _]]
  end.
  destruct (Hsome ltac:(discriminate)) as [Hstatus [Hap _]].
  split; [exact Hbegun|]. split; [exact Hstatus|exact Hap].
Defined.

(** The tick that leaves state Disconnected shows the renderer the
    snapshot it read. *)
Lemma renderer_told_once_per_change_witness :
  exists w',
    tick_main [] 1
      (entered StatusDisconnected (boot env_down (New no_config)))
    = Ret tt w' /\
    List.length (displays (trace w')) = 1%nat.
Proof.
  eexists. split; [vm_compute; reflexivity|].
  match goal with
  | |- context [trace ?w1] =>
      rewrite (renderer_told_once_per_change [] 1
                 (entered StatusDisconnected (boot env_down (New no_config)))
                 w1 (New_wellformed no_config ltac:(cbn; lia))
                 ltac:(vm_compute; reflexivity))
  end.
  reflexivity.
Defined.

End ControllerRuns.

(** ** After the connect *)

Section Joined.

Import GoTime Run NTPClient.

Variable Network : list AP.
Variable fuel : nat.

Lemma begun_syncing (name : string) (l r : Z) (es : list event) :
  Forall (syncing name l r) es -> begun es = [].
Proof.
  induction 1 as [|e es He _ IH]; [reflexivity|].
  destruct e; try contradiction; exact IH.
Qed.

Lemma begun_shown (w : World) : begun (shown w) = [].
Proof. unfold shown. destruct (ModelState.changed (shared w)); reflexivity. Qed.

Lemma begun_complaint (r : option error) : begun (complaint r) = [].
Proof. destruct r; reflexivity. Qed.

(** A tick in one of the two states: it returns, stays in the two states,
    and begins no connect. *)
Lemma joined_tick (w : World) :
  wellformed (host w) ->
  joined (status_of w) ->
  exists w',
    tick_main Network fuel w = Ret tt w' /\
    joined (status_of w') /\
    begun (trace w') = begun (trace w) /\
    wellformed (host w').
Proof.
  intros Hwf Hj. destruct (status_of w) eqn:Hs; try contradiction.
  - assert (Hwf1 : wellformed (host (retrying w))).
    { change (host (retrying w)) with (host (told w)). rewrite host_told.
      exact Hwf. }
    destruct (Sync_steps (retrying w) Hwf1)
      as [r [w2 [es [Hrun [Htr [Hes [_ [Hwf2 [_ [Hsh _]]]]]]]]]].
    change (trace (retrying w)) with (trace (told w)) in Htr.
    rewrite trace_told in Htr. rewrite shared_retrying in Hsh.
    eexists. split; [exact (tick_unsynchronized _ _ w w2 r Hs Hrun)|].
    assert (Hstatus : mStatus (ModelState.data (shared w2))
                      = StatusUnsynchronized).
    { rewrite Hsh. unfold status_of in Hs.
      destruct (is_nil r && publish_due (retrying w));
        destruct (fetch_due (retrying w)); exact Hs. }
    assert (Hb : begun (trace w2) = begun (trace w)).
    { rewrite Htr, !begun_app, begun_shown, (begun_syncing _ _ _ _ Hes).
      rewrite !app_nil_r. reflexivity. }
    unfold status_of.
    destruct r as [e|];
      cbn [rested with_elapsed with_event with_shared shared trace host
           ModelState.data ModelState.Set_ set_Status mStatus];
      rewrite ?begun_app, ?Hstatus, Hb; cbn [begun flat_map app];
      rewrite ?app_nil_r; (split; [exact I|split; [reflexivity|exact Hwf2]]).
  - assert (Hwf1 : wellformed (host (told w)))
      by (rewrite host_told; exact Hwf).
    destruct (Sync_steps (told w) Hwf1)
      as [r [w2 [es [Hrun [Htr [Hes [_ [Hwf2 [_ [Hsh _]]]]]]]]]].
    rewrite trace_told in Htr. rewrite shared_told in Hsh.
    eexists. split; [exact (tick_synchronized _ _ w w2 r Hs Hrun)|].
    assert (Hstatus : mStatus (ModelState.data (shared w2))
                      = StatusSynchronized).
    { rewrite Hsh. unfold status_of in Hs.
      destruct (is_nil r && publish_due (told w));
        destruct (fetch_due (told w)); exact Hs. }
    assert (Hb : begun (trace w2) = begun (trace w)).
    { rewrite Htr, !begun_app, begun_shown, (begun_syncing _ _ _ _ Hes).
      rewrite !app_nil_r. reflexivity. }
    unfold status_of.
    destruct r as [e|];
      cbn [rested with_elapsed with_event with_shared shared trace host
           ModelState.data ModelState.Set_ set_Status mStatus];
      rewrite ?begun_app, ?Hstatus, Hb; cbn [begun flat_map app];
      rewrite ?app_nil_r; (split; [exact I|split; [reflexivity|exact Hwf2]]).
Qed.

Lemma last_default {A} (l : list A) (d d' : A) :
  l <> [] -> last l d = last l d'.
Proof.
  induction l as [|a [|b l] IH]; intros H.
  - contradiction.
  - reflexivity.
  - change (last (b :: l) d = last (b :: l) d'). apply IH. discriminate.
Qed.

Lemma last_cons {A} (a : A) (l : list A) (d : A) :
  last (a :: l) d = last l a.
Proof.
  destruct l as [|b l]; [reflexivity|].
  change (last (b :: l) d = last (b :: l) a).
  apply last_default. discriminate.
Qed.

(** X16.  Once a connect has succeeded the loop never connects again.
    From state Unsynchronized or Synchronized, with a well-formed client,
    every tick returns, for any number of ticks, whatever the driver
    answers: there are [n] worlds, each the one in which the tick begun in
    the world before returned.  In every one of them the status is one of
    these two and no connect has been begun since the start: a [Sync] that
    fails for a lost link sends the loop back to Unsynchronized at most,
    not to Connecting.  The loop of [n] ticks is, after the last of them,
    in the last of these worlds. *)
Theorem loop_never_reconnects :
  forall (n : nat) (w : World),
    wellformed (host w) ->
    joined (status_of w) ->
    exists ws : list World,
      List.length ws = n /\
      ticks Network fuel w ws /\
      Forall
        (fun w1 =>
           joined (status_of w1) /\ begun (trace w1) = begun (trace w) /\
           wellformed (host w1)) ws /\
      loop Network (WiFi.Connect fuel) Sync n w = Spin (last ws w).
Proof.
  induction n as [|n IH]; intros w Hwf Hj.
  - exists []. repeat split. constructor.
  - destruct (joined_tick w Hwf Hj) as [w1 [Htick [Hj1 [Hb1 Hwf1]]]].
    destruct (IH w1 Hwf1 Hj1) as [ws [Hlen [Hticks [Hall Hrun]]]].
    exists (w1 :: ws).
    split; [cbn [List.length]; rewrite Hlen; reflexivity|].
    split; [split; [exact Htick|exact Hticks]|].
    split.
    + constructor; [split; [exact Hj1|split; [exact Hb1|exact Hwf1]]|].
      eapply Forall_impl; [|exact Hall].
      intros x [Hjx [Hbx Hwx]].
      split; [exact Hjx|]. split; [rewrite Hbx; exact Hb1|exact Hwx].
    + cbn [loop]. unfold tick_main in Htick.
      rewrite (bind_ret _ _ _ _ _ Htick), last_cons. exact Hrun.
Qed.

End Joined.

Section JoinedRuns.

Import GoTime Run NTPClient.

(** Five ticks in state Synchronized with the link gone. *)
Lemma loop_never_reconnects_witness :
  exists ws : list World,
    List.length ws = 5%nat /\
    ticks [mkAP "home" "h"] 1
      (entered StatusSynchronized (boot env_down (New no_config))) ws /\
    Forall
      (fun w1 =>
         joined (status_of w1) /\ begun (trace w1) = [] /\
         wellformed (host w1)) ws /\
    loop [mkAP "home" "h"] (WiFi.Connect 1) Sync 5
      (entered StatusSynchronized (boot env_down (New no_config)))
    = Spin (last ws
              (entered StatusSynchronized (boot env_down (New no_config)))).
Proof.
  exact (loop_never_reconnects [mkAP "home" "h"] 1 5
           (entered StatusSynchronized (boot env_down (New no_config)))
           (New_wellformed no_config ltac:(cbn; lia)) I).
Defined.

End JoinedRuns.

Section ClientRuns.

Import GoTime NTPClient.

(** The client of [main], made from the zero configuration. *)
Lemma New_fills_every_zero_field_witness :
  Server (config (New no_config)) = DefaultServer /\
  LeapSmear (config (New no_config)) = false.
Proof.
  destruct (New_fills_every_zero_field no_config)
    as [_ [_ [_ [_ [_ [_ [_ [H _]]]]]]]].
  exact (H eq_refl).
Defined.

(** Five nanoseconds after a fetch and a publish at boot. *)
Lemma Sync_rests_between_intervals_witness :
  Sync (later 5 0 (boot env_down (New no_config)))
  = Ret None (later 5 0 (boot env_down (New no_config))).
Proof.
  destruct (Sync_rests_between_intervals
              (boot env_down (New no_config)) 5 0) as [_ [_ [H _]]].
  - unfold monotonic_range, wallToInternal, unixToInternal, Second.
    cbn [nanotime timeOffset boot]. lia.
  - unfold monotonic_range, wallToInternal, unixToInternal, Second.
    cbn [nanotime timeOffset later boot with_timeOffset with_elapsed
         with_host]. lia.
  - lia.
  - apply H.
    + change (5 < 6 * Hour). unfold Hour, Second. lia.
    + change (5 < Second). unfold Second. lia.
Defined.

End ClientRuns.
